(** * Bus engines of the Atmel-Studio-Projects repository

    A shallow embedding of the two bus drivers, [onewire.c] and [twi.c],
    and the properties of them that the specification states; then the
    device drivers built on them, [ds18b20.c], [ds1307.cpp] and
    [lcd.cpp], with further properties of the code.

    Registers are 8-bit values kept in [Z]; a store into an 8-bit object
    goes through [wrap8].  The hardware around the microcontroller is part
    of the state: what the one-wire line will show at each sample, and how
    the two-wire peripheral answers each bus event.  Everything the driver
    does to the hardware is appended to a log that is part of the state. *)

From Stdlib Require Import ZArith Lia Bool.
From stdpp Require Import base list.

Local Open Scope Z_scope.

(** ** Bytes and buffers *)

(** The value kept by an [uint8_t] or [unsigned char] object, or by an
    8-bit I/O register, after [v] is assigned to it. *)
Definition wrap8 (v : Z) : Z := v mod 256.

(** C truth of an [int]. *)
Definition truthy (v : Z) : bool := negb (v =? 0).

(** The least value of an [int], which is 16 bits wide on the AVR. *)
Definition INT_MIN : Z := -32768.

(** ** Outcomes of a driver call

    A call either returns ([Done]), is still spinning in a busy-wait when
    the modelled number of polls is used up ([Hang]), or touches a byte
    outside the caller's buffer ([Fault]).  Each outcome carries the state
    of the machine at that point. *)

Inductive outcome (St A : Type) : Type :=
| Done (a : A) (s : St)
| Hang (s : St)
| Fault (s : St).

Arguments Done {St A} a s.
Arguments Hang {St A} s.
Arguments Fault {St A} s.

Definition dev (St A : Type) : Type := St -> outcome St A.

Definition ret {St A} (a : A) : dev St A := fun s => Done a s.

Definition bind {St A B} (m : dev St A) (k : A -> dev St B) : dev St B :=
  fun s =>
    match m s with
    | Done a s' => k a s'
    | Hang s' => Hang s'
    | Fault s' => Fault s'
    end.

Definition gets {St A} (f : St -> A) : dev St A := fun s => Done (f s) s.
Definition modify {St} (f : St -> St) : dev St unit := fun s => Done tt (f s).
Definition fault {St A} : dev St A := fun s => Fault s.

(** The machine state an outcome ends in. *)
Definition final {St A} (o : outcome St A) : St :=
  match o with
  | Done _ s => s
  | Hang s => s
  | Fault s => s
  end.

(** What a call returned, if it did. *)
Definition returned {St A} (o : outcome St A) : option A :=
  match o with
  | Done a _ => Some a
  | Hang _ => None
  | Fault _ => None
  end.

Declare Scope dev_scope.
Delimit Scope dev_scope with dev.
Notation "'let*' x ':=' m 'in' k" :=
  (bind m (fun x => k))
  (at level 10, x name, m at level 100, k at level 200) : dev_scope.
Notation "m '>>' k" :=
  (bind m (fun _ => k))
  (at level 100, k at level 200, right associativity) : dev_scope.

(** [*ptr = v] for a pointer [i] bytes into the caller's buffer. *)
Definition store {St} (buf : list Z) (i : nat) (v : Z) : dev St (list Z) :=
  if (i <? length buf)%nat then ret (<[i := wrap8 v]> buf) else fault.

(** [*ptr] for a pointer [i] bytes into the caller's buffer. *)
Definition load {St} (buf : list Z) (i : nat) : dev St Z :=
  match buf !! i with
  | Some v => ret v
  | None => fault
  end.

(** Counting loops, [for (i = lo; i < lo + n; i++)], threading the
    variables the body updates. *)
Fixpoint for_upto {St A} (n : nat) (i : nat) (body : nat -> A -> dev St A)
    (acc : A) : dev St A :=
  match n with
  | O => ret acc
  | S n' => bind (body i acc) (for_upto n' (S i) body)
  end.

(** [for (uint8_t mask = 0x01; mask > 0x00; mask <<= 1)], started at
    [mask]: the loop ends when the shifted mask wraps to 0.  [turns]
    bounds the number of passes modelled. *)
Fixpoint for_mask {St A} (turns : nat) (mask : Z) (body : Z -> A -> dev St A)
    (acc : A) : dev St A :=
  match turns with
  | O => fun s => Hang s
  | S t =>
      if 0x00 <? mask
      then bind (body mask acc) (for_mask t (wrap8 (Z.shiftl mask 1)) body)
      else ret acc
  end.

Local Open Scope dev_scope.

(** * The one-wire engine, [onewire.c] *)

Module Owi.

Definition OWI_PINMASK : Z := 0x01.
Definition OWI_IPINMASK : Z := 0xFE.

Definition OWI_SEARCH_ROM : Z := 0xF0.
Definition OWI_READ_ROM : Z := 0x33.
Definition OWI_MATCH_ROM : Z := 0x55.
Definition OWI_SKIP_ROM : Z := 0xCC.
Definition OWI_ALARM_SEARCH : Z := 0xEC.

(** What the driver does to the line, as seen from outside: it keeps the
    line driven low or released for some microseconds, or samples it. *)
Inductive owi_event : Type :=
| Hold (low : bool) (us : Z)
| Sample (pin : Z).

(** [line_in k] is the value of the input register [PINB] at the [k]-th
    sample; [taken] counts the samples made so far. *)
Record owi_state : Type := {
  DDRB : Z;
  PORTB : Z;
  line_in : nat -> Z;
  taken : nat;
  wire : list owi_event
}.

Definition set_DDRB (v : Z) (s : owi_state) : owi_state :=
  {| DDRB := wrap8 v; PORTB := PORTB s; line_in := line_in s;
     taken := taken s; wire := wire s |}.

Definition set_PORTB (v : Z) (s : owi_state) : owi_state :=
  {| DDRB := DDRB s; PORTB := wrap8 v; line_in := line_in s;
     taken := taken s; wire := wire s |}.

(** The pin drives the line low when it is an output holding 0. *)
Definition line_low (s : owi_state) : bool :=
  Z.testbit (DDRB s) 0 && negb (Z.testbit (PORTB s) 0).

Definition _delay_us (us : Z) : dev owi_state unit :=
  modify (fun s =>
    {| DDRB := DDRB s; PORTB := PORTB s; line_in := line_in s;
       taken := taken s; wire := wire s ++ [Hold (line_low s) us] |}).

(** Reading [OWI_PIN]. *)
Definition read_PINB : dev owi_state Z :=
  fun s =>
    let v := line_in s (taken s) in
    Done v {| DDRB := DDRB s; PORTB := PORTB s; line_in := line_in s;
              taken := S (taken s); wire := wire s ++ [Sample v] |}.

(** One pass of the body of the loop of [owi_crc]; the pair is
    [(databyte, crc)]. *)
Definition crc_step (st : Z * Z) : Z * Z :=
  let '(databyte, crc) := st in
  let feedback := Z.land (Z.lxor crc databyte) 0x01 in
  let crc := wrap8 (Z.shiftr crc 1) in
  let crc := wrap8 (Z.lxor crc (0x8c * feedback)) in
  let databyte := wrap8 (Z.shiftr databyte 1) in
  (databyte, crc).

(** [owi_crc]: the loop runs for [c = 0 .. 7]. *)
Definition owi_crc (databyte crc : Z) : Z :=
  snd (Nat.iter 8 crc_step (databyte, crc)).

Definition release_line : dev owi_state unit :=
  let* d := gets DDRB in
  modify (set_DDRB (Z.land d OWI_IPINMASK)) >>
  let* p := gets PORTB in
  modify (set_PORTB (Z.lor p OWI_PINMASK)).

Definition pull_line : dev owi_state unit :=
  let* d := gets DDRB in
  modify (set_DDRB (Z.lor d OWI_PINMASK)) >>
  let* p := gets PORTB in
  modify (set_PORTB (Z.land p OWI_IPINMASK)).

Definition owi_write_1 : dev owi_state unit :=
  pull_line >> _delay_us 1 >> release_line >> _delay_us 64.

Definition owi_write_0 : dev owi_state unit :=
  pull_line >> _delay_us 60 >> release_line >> _delay_us 5.

Definition owi_read_bit : dev owi_state Z :=
  let bit := 0 in
  pull_line >> _delay_us 1 >> release_line >> _delay_us 14 >>
  let* pin := read_PINB in
  let bit := if truthy (Z.land pin OWI_PINMASK) then 1 else bit in
  _delay_us 45 >>
  ret bit.

Definition owi_detect_presence : dev owi_state Z :=
  let presence := 1 in
  pull_line >> _delay_us 480 >> release_line >> _delay_us 60 >>
  let* pin := read_PINB in
  let presence := if truthy (Z.land pin OWI_PINMASK) then 0 else presence in
  _delay_us 420 >>
  ret presence.

Definition owi_write_byte (data : Z) : dev owi_state unit :=
  for_mask 9 0x01
    (fun mask _ =>
       if truthy (Z.land data mask) then owi_write_1 else owi_write_0)
    tt.

Definition owi_read_byte : dev owi_state Z :=
  let data := 0x00 in
  for_mask 9 0x01
    (fun mask data =>
       let* bit := owi_read_bit in
       ret (if truthy bit then wrap8 (Z.lor data mask) else data))
    data.

Definition owi_is_busy : dev owi_state Z :=
  let* bit := owi_read_bit in
  ret (if truthy bit then 0 else 1).

Definition owi_search_rom : dev owi_state unit := ret tt.

(** [owi_read_rom rom_array]: the result is the returned [int] and the
    caller's array after the call. *)
Definition owi_read_rom (rom_array : list Z) : dev owi_state (Z * list Z) :=
  let temp_array := [0x00; 0x00; 0x00; 0x00; 0x00; 0x00; 0x00; 0x00] in
  let crc := 0x00 in
  let* presence := owi_detect_presence in
  if negb (truthy presence) then ret (0, rom_array) else
  owi_write_byte OWI_READ_ROM >>
  let* temp_array :=
    for_upto 8 0
      (fun i temp_array =>
         for_mask 9 0x01
           (fun mask temp_array =>
              let* bit := owi_read_bit in
              ret (if truthy bit
                   then <[i := wrap8 (Z.lor (temp_array !!! i) mask)]> temp_array
                   else temp_array))
           temp_array)
      temp_array in
  let* crc :=
    for_upto 7 0 (fun i crc => ret (owi_crc (temp_array !!! i) crc)) crc in
  if negb (crc =? temp_array !!! 7%nat) then ret (crc, rom_array) else
  let* rom_array :=
    for_upto 8 0
      (fun i rom_array => store rom_array i (temp_array !!! i))
      rom_array in
  ret (1, rom_array).

Definition owi_match_rom (romcode_array : list Z) : dev owi_state unit :=
  owi_write_byte OWI_MATCH_ROM >>
  for_upto 8 0
    (fun i _ => let* b := load romcode_array i in owi_write_byte b)
    tt.

Definition owi_skip_rom : dev owi_state unit :=
  owi_write_byte OWI_SKIP_ROM.

Definition owi_alarm_search : dev owi_state Z :=
  let* presence := owi_detect_presence in
  if negb (truthy presence) then ret 0 else
  owi_write_byte OWI_ALARM_SEARCH >>
  let* first := owi_read_bit in
  let* second := owi_read_bit in
  if negb (truthy (Z.lxor first second)) then ret 0 else
  (if truthy first then owi_write_1 else owi_write_0) >>
  ret 1.

End Owi.

(** * The two-wire engine, [twi.c] *)

Module Twi.

Definition F_CPU : Z := 16000000.
Definition F_TWI : Z := 100000.

Definition TWI_PINMASK : Z := 0x30.

Definition TWI_PRESCALER_MASK : Z := 0xFC.

Definition TWI_ENABLE_MASK : Z := 0x45.
Definition TWI_START_CONDITION : Z := 0xA4.
Definition TWI_STOP_CONDITION : Z := 0x94.
Definition TWI_INTERRUPT_FLAG : Z := 0x80.
Definition TWI_START_TRANSMISSION : Z := 0x84.
Definition TWI_RETURN_ACK : Z := 0xC4.
Definition TWI_RETURN_NACK : Z := 0x84.

Definition TWI_START : Z := 0x08.
Definition TWI_REP_START : Z := 0x10.
Definition TWI_MT_SLA_ACK : Z := 0x18.
Definition TWI_MT_DATA_ACK : Z := 0x28.
Definition TWI_MR_SLA_ACK : Z := 0x40.
Definition TWI_MR_SLA_NACK : Z := 0x48.
Definition TWI_MR_DATA_ACK : Z := 0x50.
Definition TWI_MR_DATA_NACK : Z := 0x58.

(** How the peripheral answers one bus event: the flag [TWINT] reads as
    clear for [r_polls] polls of the control register and as set from the
    next poll on; at that point the status register holds [r_status]
    and, when a byte came in, the data register holds it. *)
Record response : Type := {
  r_polls : nat;
  r_status : Z;
  r_data : option Z
}.

(** What the driver writes to the peripheral. *)
Inductive twi_event : Type :=
| WrTWDR (v : Z)
| WrTWCR (v : Z).

(** [_twi_enabled] and [_twi_address] are the two static variables of the
    file, the next six fields are I/O registers.  [pending] is the bus
    event under way, [bus] the answers to the bus events still to come
    (none left: the bus does not answer any more), [sent] the log of
    writes to the data and control registers. *)
Record twi_state : Type := {
  _twi_enabled : Z;
  _twi_address : Z;
  DDRC : Z;
  PORTC : Z;
  TWBR : Z;
  TWCR : Z;
  TWSR : Z;
  TWDR : Z;
  pending : option response;
  bus : list response;
  sent : list twi_event
}.

Definition set_enabled (v : Z) (s : twi_state) : twi_state :=
  {| _twi_enabled := wrap8 v; _twi_address := _twi_address s;
     DDRC := DDRC s; PORTC := PORTC s; TWBR := TWBR s; TWCR := TWCR s;
     TWSR := TWSR s; TWDR := TWDR s; pending := pending s; bus := bus s;
     sent := sent s |}.

Definition set_address (v : Z) (s : twi_state) : twi_state :=
  {| _twi_enabled := _twi_enabled s; _twi_address := v;
     DDRC := DDRC s; PORTC := PORTC s; TWBR := TWBR s; TWCR := TWCR s;
     TWSR := TWSR s; TWDR := TWDR s; pending := pending s; bus := bus s;
     sent := sent s |}.

Definition set_DDRC (v : Z) (s : twi_state) : twi_state :=
  {| _twi_enabled := _twi_enabled s; _twi_address := _twi_address s;
     DDRC := wrap8 v; PORTC := PORTC s; TWBR := TWBR s; TWCR := TWCR s;
     TWSR := TWSR s; TWDR := TWDR s; pending := pending s; bus := bus s;
     sent := sent s |}.

Definition set_PORTC (v : Z) (s : twi_state) : twi_state :=
  {| _twi_enabled := _twi_enabled s; _twi_address := _twi_address s;
     DDRC := DDRC s; PORTC := wrap8 v; TWBR := TWBR s; TWCR := TWCR s;
     TWSR := TWSR s; TWDR := TWDR s; pending := pending s; bus := bus s;
     sent := sent s |}.

Definition set_TWBR (v : Z) (s : twi_state) : twi_state :=
  {| _twi_enabled := _twi_enabled s; _twi_address := _twi_address s;
     DDRC := DDRC s; PORTC := PORTC s; TWBR := wrap8 v; TWCR := TWCR s;
     TWSR := TWSR s; TWDR := TWDR s; pending := pending s; bus := bus s;
     sent := sent s |}.

(** A store to the data register. *)
Definition write_TWDR (v : Z) : dev twi_state unit :=
  modify (fun s =>
    {| _twi_enabled := _twi_enabled s; _twi_address := _twi_address s;
       DDRC := DDRC s; PORTC := PORTC s; TWBR := TWBR s; TWCR := TWCR s;
       TWSR := TWSR s; TWDR := wrap8 v; pending := pending s; bus := bus s;
       sent := sent s ++ [WrTWDR (wrap8 v)] |}).

(** A store to the control register.  Bits 6..0 are kept as written.
    Writing a one to bit 7 clears the flag [TWINT] and starts the next bus
    event, which the peripheral answers with the next response of [bus];
    writing a zero there leaves the flag and the event under way alone. *)
Definition write_TWCR (v : Z) : dev twi_state unit :=
  modify (fun s =>
    let v := wrap8 v in
    if Z.testbit v 7
    then
      {| _twi_enabled := _twi_enabled s; _twi_address := _twi_address s;
         DDRC := DDRC s; PORTC := PORTC s; TWBR := TWBR s;
         TWCR := Z.land v 0x7F;
         TWSR := TWSR s; TWDR := TWDR s;
         pending := head (bus s); bus := tail (bus s);
         sent := sent s ++ [WrTWCR v] |}
    else
      {| _twi_enabled := _twi_enabled s; _twi_address := _twi_address s;
         DDRC := DDRC s; PORTC := PORTC s; TWBR := TWBR s;
         TWCR := Z.lor v (Z.land (TWCR s) TWI_INTERRUPT_FLAG);
         TWSR := TWSR s; TWDR := TWDR s;
         pending := pending s; bus := bus s;
         sent := sent s ++ [WrTWCR v] |}).

(** A load from the control register, one poll: the event under way
    either takes one more poll or completes now, setting [TWINT] and
    filling the status and data registers. *)
Definition read_TWCR : dev twi_state Z :=
  fun s =>
    match pending s with
    | None => Done (TWCR s) s
    | Some r =>
        match r_polls r with
        | S p =>
            Done (TWCR s)
              {| _twi_enabled := _twi_enabled s; _twi_address := _twi_address s;
                 DDRC := DDRC s; PORTC := PORTC s; TWBR := TWBR s;
                 TWCR := TWCR s; TWSR := TWSR s; TWDR := TWDR s;
                 pending := Some {| r_polls := p; r_status := r_status r;
                                    r_data := r_data r |};
                 bus := bus s; sent := sent s |}
        | O =>
            let c := Z.lor (TWCR s) TWI_INTERRUPT_FLAG in
            Done c
              {| _twi_enabled := _twi_enabled s; _twi_address := _twi_address s;
                 DDRC := DDRC s; PORTC := PORTC s; TWBR := TWBR s;
                 TWCR := c; TWSR := wrap8 (r_status r);
                 TWDR := match r_data r with
                         | Some d => wrap8 d
                         | None => TWDR s
                         end;
                 pending := None; bus := bus s; sent := sent s |}
        end
    end.

Section Polling.

(** The number of polls of a busy-wait that the model follows before it
    reports the call as hanging. *)
Variable patience : nat.

(** [while (!(TWCR & TWI_INTERRUPT_FLAG));] *)
Fixpoint wait_TWINT (polls : nat) : dev twi_state unit :=
  match polls with
  | O => fun s => Hang s
  | S p =>
      let* c := read_TWCR in
      if negb (truthy (Z.land c TWI_INTERRUPT_FLAG))
      then wait_TWINT p
      else ret tt
  end.

(** [(TWSR & TWI_PRESCALER_MASK)] *)
Definition status : dev twi_state Z :=
  let* v := gets TWSR in ret (Z.land v TWI_PRESCALER_MASK).

Definition twi_enable : dev twi_state unit :=
  let* enabled := gets _twi_enabled in
  if truthy enabled then ret tt else
  modify (set_enabled 1) >>
  let* d := gets DDRC in
  modify (set_DDRC (Z.land d (Z.lnot TWI_PINMASK))) >>
  let* p := gets PORTC in
  modify (set_PORTC (Z.lor p TWI_PINMASK)) >>
  modify (set_TWBR (((F_CPU / F_TWI) - 16) / 2)) >>
  let* c := read_TWCR in
  write_TWCR (Z.lor c TWI_ENABLE_MASK).

Definition twi_disable : dev twi_state unit :=
  let* enabled := gets _twi_enabled in
  if negb (truthy enabled) then ret tt else
  modify (set_enabled 0) >>
  let* c := read_TWCR in
  write_TWCR (Z.land c (Z.lnot TWI_ENABLE_MASK)) >>
  let* p := gets PORTC in
  modify (set_PORTC (Z.land p (Z.lnot TWI_PINMASK))).

Definition twi_is_enabled : dev twi_state Z :=
  gets _twi_enabled.

Definition twi_open (address : Z) : dev twi_state Z :=
  modify (set_address address) >>
  write_TWCR TWI_START_CONDITION >>
  wait_TWINT patience >>
  let* st := status in
  if negb (st =? TWI_START) then ret 0 else
  let* a := gets _twi_address in
  write_TWDR (Z.shiftl a 1) >>
  write_TWCR TWI_START_TRANSMISSION >>
  wait_TWINT patience >>
  let* st := status in
  if negb (st =? TWI_MT_SLA_ACK) then ret 0 else
  ret 1.

Definition twi_write_ch (data : Z) : dev twi_state Z :=
  write_TWDR data >>
  write_TWCR TWI_START_TRANSMISSION >>
  wait_TWINT patience >>
  let* st := status in
  if negb (st =? TWI_MT_DATA_ACK) then ret 0 else
  ret 1.

(** The loop of [twi_write_str] with [k] passes to go, followed by the
    final [return 1].  [ptr] is the offset of the pointer of that name
    into [data]; the loop hands it on as it is. *)
Fixpoint twi_write_str_loop (data : list Z) (ptr : nat) (k : nat)
    : dev twi_state Z :=
  match k with
  | O => ret 1
  | S k' =>
      let* ch := load data ptr in
      let* ok := twi_write_ch ch in
      if negb (truthy ok) then ret 0 else
      twi_write_str_loop data ptr k'
  end.

(** [twi_write_str data n]; the loop [for (c = 0; c < n; c++)] makes
    [n] passes, none when [n <= 0]. *)
Definition twi_write_str (data : list Z) (n : Z) : dev twi_state Z :=
  let ptr := 0%nat in
  twi_write_str_loop data ptr (Z.to_nat n).

Definition twi_register (reg : Z) : dev twi_state Z :=
  write_TWDR reg >>
  write_TWCR TWI_START_TRANSMISSION >>
  wait_TWINT patience >>
  let* st := status in
  if negb (st =? TWI_MT_DATA_ACK) then ret 0 else
  write_TWCR TWI_START_CONDITION >>
  wait_TWINT patience >>
  let* st := status in
  if negb (st =? TWI_REP_START) then ret 0 else
  let* a := gets _twi_address in
  write_TWDR (Z.lor (Z.shiftl a 1) 0x01) >>
  write_TWCR TWI_START_TRANSMISSION >>
  wait_TWINT patience >>
  let* st := status in
  if negb (st =? TWI_MR_SLA_ACK) then ret 0 else
  ret 1.

(** [twi_read_ch reg data]: the result is the returned [int] and the
    caller's buffer after the call. *)
Definition twi_read_ch (reg : Z) (data : list Z)
    : dev twi_state (Z * list Z) :=
  twi_register reg >>
  write_TWCR TWI_RETURN_NACK >>
  wait_TWINT patience >>
  let* st := status in
  if negb (st =? TWI_MR_DATA_NACK) then ret (0, data) else
  let* d := gets TWDR in
  let* data := store data 0 d in
  ret (1, data).

(** The part of [twi_read_str] after the call of [twi_register]: the
    loop with [k] passes to go, then the last byte.  [ptr] is the offset
    of the pointer of that name into [data]. *)
Fixpoint twi_read_str_loop (data : list Z) (ptr : nat) (k : nat)
    : dev twi_state (Z * list Z) :=
  match k with
  | S k' =>
      write_TWCR TWI_RETURN_ACK >>
      wait_TWINT patience >>
      let* st := status in
      if negb (st =? TWI_MR_DATA_ACK) then ret (0, data) else
      let* d := gets TWDR in
      let* data := store data ptr d in
      twi_read_str_loop data (S ptr) k'
  | O =>
      write_TWCR TWI_RETURN_NACK >>
      wait_TWINT patience >>
      let* st := status in
      if negb (st =? TWI_MR_DATA_NACK) then ret (0, data) else
      let* d := gets TWDR in
      let* data := store data ptr d in
      ret (1, data)
  end.

(** [twi_read_str reg data n]; the loop [for (c = 0; c < n - 1; c++)]
    makes [n - 1] passes, none when [n <= 1].  The count [n] is an
    [int]: this is the code for every [n] above [INT_MIN], where
    [n - 1] is computed without overflow. *)
Definition twi_read_str (reg : Z) (data : list Z) (n : Z)
    : dev twi_state (Z * list Z) :=
  twi_register reg >>
  let ptr := 0%nat in
  twi_read_str_loop data ptr (Z.to_nat (n - 1)).

End Polling.

End Twi.

(** * Vocabulary of the statements *)

Import Owi Twi.

(** ** One-wire *)

(** The level of the line in a sample of the input register: bit 0. *)
Definition level (pin : Z) : Z := if Z.testbit pin 0 then 1 else 0.

(** The bit read at the [k]-th sample of the line [f]. *)
Definition bit_at (f : nat -> Z) (k : nat) : Z := level (f k).

(** The byte made of the eight samples from the [k]-th on, least
    significant bit first. *)
Definition byte_at (f : nat -> Z) (k : nat) : Z :=
  bit_at f k + 2 * bit_at f (k + 1) + 4 * bit_at f (k + 2)
  + 8 * bit_at f (k + 3) + 16 * bit_at f (k + 4) + 32 * bit_at f (k + 5)
  + 64 * bit_at f (k + 6) + 128 * bit_at f (k + 7).

(** The eight bytes made of the 64 samples from the [k]-th on. *)
Definition rom_at (f : nat -> Z) (k : nat) : list Z :=
  map (fun i => byte_at f (k + 8 * i)) (seq 0 8).

(** Feeding a string of bytes to [owi_crc], each result being the seed of
    the next call. *)
Definition crc_chain (seed : Z) (bytes : list Z) : Z :=
  fold_left (fun crc b => owi_crc b crc) bytes seed.

(** What the line sees of a reset, of a read slot and of a write slot. *)
Definition reset_slot (pin : Z) : list owi_event :=
  [Hold true 480; Hold false 60; Sample pin; Hold false 420].

Definition read_slot (pin : Z) : list owi_event :=
  [Hold true 1; Hold false 14; Sample pin; Hold false 45].

Definition write_slot (b : bool) : list owi_event :=
  if b then [Hold true 1; Hold false 64] else [Hold true 60; Hold false 5].

(** The eight write slots of a byte, least significant bit first. *)
Definition byte_slots (data : Z) : list owi_event :=
  flat_map (fun j => write_slot (Z.testbit data j)) [0; 1; 2; 3; 4; 5; 6; 7].

(** The [n] read slots from sample [k] on. *)
Definition read_slots (f : nat -> Z) (k n : nat) : list owi_event :=
  flat_map (fun j => read_slot (f (k + j)%nat)) (seq 0 n).

(** The state [s] faces the line [f] at sample [k], with log [w]. *)
Definition facing (s : owi_state) (f : nat -> Z) (k : nat)
    (w : list owi_event) : Prop :=
  line_in s = f /\ taken s = k /\ wire s = w.

(** A line that shows [presence] at the reset and then the bits of
    [bytes], least significant first; it stays released afterwards. *)
Definition reply (presence : Z) (bytes : list Z) : nat -> Z :=
  fun k =>
    match k with
    | O => presence
    | S j =>
        match bytes !! (j / 8)%nat with
        | Some b => if Z.testbit b (Z.of_nat (j mod 8)) then 0xFF else 0xFE
        | None => 0xFF
        end
    end.

(** A one-wire machine at rest in front of the line [f]. *)
Definition owi_rest (f : nat -> Z) : owi_state :=
  {| DDRB := 0; PORTB := 0; line_in := f; taken := 0; wire := [] |}.

(** ** Two-wire *)

(** The status code the driver sees once the peripheral has answered
    with [r]: the status register under the prescaler mask. *)
Definition masked (r : response) : Z :=
  Z.land (wrap8 (r_status r)) TWI_PRESCALER_MASK.

(** The state once the bus event started by the store of [v] (with bit 7
    set) to the control register of [s] has been answered with [r]. *)
Definition after_event (v : Z) (r : response) (s : twi_state) : twi_state :=
  {| _twi_enabled := _twi_enabled s; _twi_address := _twi_address s;
     DDRC := DDRC s; PORTC := PORTC s; TWBR := TWBR s;
     TWCR := Z.lor (Z.land (wrap8 v) 0x7F) TWI_INTERRUPT_FLAG;
     TWSR := wrap8 (r_status r);
     TWDR := match r_data r with
             | Some d => wrap8 d
             | None => TWDR s
             end;
     pending := None; bus := tail (bus s);
     sent := sent s ++ [WrTWCR (wrap8 v)] |}.

(** The state after a store of [v] to the data register. *)
Definition after_data (v : Z) (s : twi_state) : twi_state :=
  {| _twi_enabled := _twi_enabled s; _twi_address := _twi_address s;
     DDRC := DDRC s; PORTC := PORTC s; TWBR := TWBR s; TWCR := TWCR s;
     TWSR := TWSR s; TWDR := wrap8 v; pending := pending s; bus := bus s;
     sent := sent s ++ [WrTWDR (wrap8 v)] |}.

(** The call [m] leaves [_twi_address] alone, however it ends. *)
Definition keeps_address {A} (m : dev twi_state A) : Prop :=
  forall s, _twi_address (final (m s)) = _twi_address s.

(** A peripheral that answers at once with the status [st], and one that
    answers at once with the status [st] and the received byte [d]. *)
Definition answer (st : Z) : response :=
  {| r_polls := 0; r_status := st; r_data := None |}.

Definition answer_byte (st d : Z) : response :=
  {| r_polls := 0; r_status := st; r_data := Some d |}.

(** An enabled two-wire machine at rest, facing the answers [rs]. *)
Definition twi_rest (rs : list response) : twi_state :=
  {| _twi_enabled := 1; _twi_address := 0; DDRC := 0; PORTC := 0x30;
     TWBR := 72; TWCR := 0x45; TWSR := 0xF8; TWDR := 0xFF;
     pending := None; bus := rs; sent := [] |}.

(** A two-wire machine that was never enabled. *)
Definition twi_cold : twi_state :=
  {| _twi_enabled := 0; _twi_address := 0; DDRC := 0; PORTC := 0;
     TWBR := 0; TWCR := 0; TWSR := 0xF8; TWDR := 0xFF;
     pending := None; bus := []; sent := [] |}.

(** ** Further vocabulary *)

(** The values of a byte. *)
Definition is_byte (v : Z) : Prop := 0 <= v < 256.

Definition all_bytes : list Z := map Z.of_nat (seq 0 256).

(** The time the driver spends in the events of a log, in microseconds. *)
Definition duration (evs : list owi_event) : Z :=
  fold_right (fun e t => match e with
                         | Hold _ us => us + t
                         | Sample _ => t
                         end) 0 evs.

(** The number of samples in a log. *)
Definition samples (evs : list owi_event) : nat :=
  fold_right (fun e n => match e with
                         | Hold _ _ => n
                         | Sample _ => S n
                         end) 0%nat evs.

(** The call [m] returns, whatever the state it starts in. *)
Definition always {St A} (m : dev St A) : Prop :=
  forall s, exists a s', m s = Done a s'.

(** The call [m] returns from every state, with the line released. *)
Definition settles {A} (m : dev owi_state A) : Prop :=
  forall s, exists a s', m s = Done a s' /\ line_low s' = false.

(** The call [m] returns from every state, with the line as it was. *)
Definition quiet {A} (m : dev owi_state A) : Prop :=
  forall s, exists a s', m s = Done a s' /\ line_low s' = line_low s.

(** ** The rest of [twi.c] *)

(** [twi_close].  The stop condition is started like any bus event, by
    a store with bit 7 set: the peripheral of the model takes the next
    answer off [bus] for it, and no one waits for that answer. *)
Definition twi_close : dev twi_state unit :=
  write_TWCR TWI_STOP_CONDITION.

(** A store to the control register with bit 4, [TWSTO], set asks the
    peripheral for a stop condition. *)
Definition asks_stop (e : twi_event) : bool :=
  match e with
  | WrTWCR v => Z.testbit v 4
  | WrTWDR _ => false
  end.

(** The call [m] never asks for a stop condition, however it ends. *)
Definition holds_bus {A} (m : dev twi_state A) : Prop :=
  forall s, exists evs,
    sent (final (m s)) = sent s ++ evs
    /\ Forall (fun e => asks_stop e = false) evs.

(** The peripheral answers with [r] before the busy-wait gives up. *)
Definition prompt (patience : nat) (r : response) : Prop :=
  (r_polls r < patience)%nat.

(** The state [s] faces the answers [rs], with log [w] and remembered
    address [a]. *)
Definition talking (s : twi_state) (rs : list response)
    (w : list twi_event) (a : Z) : Prop :=
  bus s = rs /\ sent s = w /\ _twi_address s = a.

(** The peripheral reports each byte of [ds] as received and
    acknowledged, within [patience] polls. *)
Definition delivers (patience : nat) (acks : list response) (ds : list Z)
    : Prop :=
  Forall2 (fun r b => (r_polls r < patience)%nat
                      /\ masked r = TWI_MR_DATA_ACK
                      /\ r_data r = Some b) acks ds.

(** * Waiting, [util/delay.h]

    The two-wire peripheral of the model answers in polls of its control
    register, not in time: a delay between two bus events leaves its
    state as it is. *)

Module UtilDelay.

Definition _delay_us (us : Z) : dev twi_state unit := ret tt.
Definition _delay_ms (ms : Z) : dev twi_state unit := ret tt.

End UtilDelay.

(** * The clock, [ds1307.cpp] *)

Module Ds1307.

Import UtilDelay.

Definition DS1307_I2C_ADDRESS : Z := 0x68.

(** The enumerations of [ds1307.h]; all have [uint8_t] as their
    underlying type, and the code computes with the values of the last
    two. *)
Definition SQWOFF : Z := 0x00.
Definition SQW1HZ : Z := 0x10.
Definition SQW4K : Z := 0x11.
Definition SQW8K : Z := 0x12.
Definition SQW32K : Z := 0x13.

Definition MON : Z := 1.
Definition TUE : Z := 2.
Definition WED : Z := 3.
Definition THU : Z := 4.
Definition FRI : Z := 5.
Definition SAT : Z := 6.
Definition SUN : Z := 7.

Inductive DSMODE : Type := DSMODE24 | DSMODE12.
Inductive DSAMPM : Type := AM | PM.

Definition DSMODE_value (m : DSMODE) : Z :=
  match m with
  | DSMODE24 => 0x00
  | DSMODE12 => 0x01
  end.

Definition DSAMPM_value (mi : DSAMPM) : Z :=
  match mi with
  | AM => 0x00
  | PM => 0x01
  end.

(** The cast [(DSAMPM) v], for the one-bit values the code casts. *)
Definition DSAMPM_of (v : Z) : DSAMPM := if v =? 0x00 then AM else PM.

Definition is_leap (year : Z) : bool :=
  ((year mod 4 =? 0) && negb (year mod 100 =? 0)) || (year mod 400 =? 0).

Definition is_valid_date (y m d : Z) : bool :=
  if (d >? 31) || (d =? 0) then false
  else if (m =? 4) || (m =? 6) || (m =? 9) || (m =? 11) then
    if d =? 31 then false else true
  else if m =? 2 then
    if d >=? 30 then false
    else if (d =? 29) && negb (is_leap y) then false
    else true
  else true.

Definition is_valid_time (h m s : Z) (mode : DSMODE) : bool :=
  if truthy (DSMODE_value mode)
  then negb ((h >? 11) || (h <? 1) || (m >? 59) || (s >? 59))
  else negb ((h >? 23) || (m >? 59) || (s >? 59)).

Definition dec2bcd (dec : Z) : Z :=
  wrap8 (Z.lor (Z.shiftl (dec / 10) 4) (dec mod 10)).

Definition bcd2dec (bcd : Z) : Z :=
  wrap8 (Z.land bcd 0x0f + Z.shiftr bcd 4 * 10).

Definition read_12_hr (data : Z) : Z := wrap8 (Z.land data 0x1F).

Definition read_24_hr (data : Z) : Z := wrap8 (Z.land data 0x3F).

(** An object of the class; [read_hr] is the member that points to one
    of the two functions above. *)
Record DS1307 : Type := {
  read_hr : Z -> Z;
  _yr : Z;
  _mth : Z;
  _day : Z;
  _dow : Z;
  _hr : Z;
  _min : Z;
  _sec : Z;
  _clkh : Z;
  _mi : DSAMPM;
  _mode : DSMODE
}.

(** The constructor. *)
Definition DS1307_new : DS1307 :=
  {| read_hr := read_24_hr; _yr := 22; _mth := 1; _day := 1; _dow := SAT;
     _hr := 0; _min := 0; _sec := 0; _clkh := 0x00; _mi := AM;
     _mode := DSMODE24 |}.

(** The methods that only touch the members.  The setters return the
    [bool] and the object after the call; their arguments are
    [uint8_t] values. *)
Definition set_12hms (o : DS1307) (h m s : Z) (mi : DSAMPM)
    : bool * DS1307 :=
  if negb (is_valid_time h m s DSMODE12) then (false, o) else
  (true,
   {| read_hr := read_hr o; _yr := _yr o; _mth := _mth o; _day := _day o;
      _dow := _dow o; _hr := h; _min := m; _sec := s; _clkh := _clkh o;
      _mi := mi; _mode := _mode o |}).

Definition set_24hms (o : DS1307) (h m s : Z) : bool * DS1307 :=
  if negb (is_valid_time h m s DSMODE24) then (false, o) else
  (true,
   {| read_hr := read_hr o; _yr := _yr o; _mth := _mth o; _day := _day o;
      _dow := _dow o; _hr := h; _min := m; _sec := s; _clkh := _clkh o;
      _mi := _mi o; _mode := _mode o |}).

Definition set_ymd (o : DS1307) (y m d : Z) : bool * DS1307 :=
  if negb (is_valid_date y m d) then (false, o) else
  (true,
   {| read_hr := read_hr o; _yr := y; _mth := m; _day := d;
      _dow := _dow o; _hr := _hr o; _min := _min o; _sec := _sec o;
      _clkh := _clkh o; _mi := _mi o; _mode := _mode o |}).

Definition set_dow (o : DS1307) (dow : Z) : DS1307 :=
  {| read_hr := read_hr o; _yr := _yr o; _mth := _mth o; _day := _day o;
     _dow := dow; _hr := _hr o; _min := _min o; _sec := _sec o;
     _clkh := _clkh o; _mi := _mi o; _mode := _mode o |}.

Definition get_12hms (o : DS1307) : Z * Z * Z * DSAMPM :=
  (_hr o, _min o, _sec o, _mi o).

Definition get_24hms (o : DS1307) : Z * Z * Z := (_hr o, _min o, _sec o).

Definition get_ymd (o : DS1307) : Z * Z * Z := (_yr o, _mth o, _day o).

Definition get_dow (o : DS1307) : Z := _dow o.

Section Bus.

Variable patience : nat.

(** The methods that talk to the chip.  None of them looks at what the
    calls of [twi.h] return. *)

Definition transfer_data (o : DS1307) : dev twi_state unit :=
  let sec := dec2bcd (_sec o) in
  let sec := wrap8 (Z.lor sec (Z.shiftl (_clkh o) 7)) in
  let hr := dec2bcd (_hr o) in
  let hr := wrap8 (Z.lor hr (Z.lor (Z.shiftl (DSMODE_value (_mode o)) 6)
                                  (Z.shiftl (DSAMPM_value (_mi o)) 5))) in
  twi_open patience DS1307_I2C_ADDRESS >>
  twi_write_ch patience 0x00 >>
  twi_write_ch patience sec >>
  twi_write_ch patience (dec2bcd (_min o)) >>
  twi_write_ch patience hr >>
  twi_write_ch patience (dec2bcd (_dow o)) >>
  twi_write_ch patience (dec2bcd (_day o)) >>
  twi_write_ch patience (dec2bcd (_mth o)) >>
  twi_write_ch patience (dec2bcd (_yr o)) >>
  twi_close >>
  _delay_us 100.

(** [update]: [data] is the local array of seven bytes as the call finds
    it, which the code does not initialise; the result is the object
    after the call. *)
Definition update (o : DS1307) (data : list Z) : dev twi_state DS1307 :=
  twi_open patience DS1307_I2C_ADDRESS >>
  let* r := twi_read_str patience 0x00 data 7 in
  let data := snd r in
  twi_close >>
  let mi :=
    match _mode o with
    | DSMODE12 =>
        DSAMPM_of (Z.shiftr (Z.land (data !!! 2%nat) 0x20) 5)
    | DSMODE24 => _mi o
    end in
  ret {| read_hr := read_hr o;
         _yr := bcd2dec (data !!! 6%nat);
         _mth := bcd2dec (data !!! 5%nat);
         _day := bcd2dec (data !!! 4%nat);
         _dow := bcd2dec (data !!! 3%nat);
         _hr := bcd2dec (read_hr o (data !!! 2%nat));
         _min := bcd2dec (data !!! 1%nat);
         _sec := bcd2dec (Z.land (data !!! 0%nat) 0x7F);
         _clkh := _clkh o; _mi := mi; _mode := _mode o |}.

(** [read_register reg data]: the result is the caller's byte after the
    call. *)
Definition read_register (reg : Z) (data : Z) : dev twi_state Z :=
  twi_open patience DS1307_I2C_ADDRESS >>
  let* r := twi_read_ch patience reg [data] in
  twi_close >>
  _delay_ms 50 >>
  ret (snd r !!! 0%nat).

Definition write_register (reg : Z) (data : Z) : dev twi_state unit :=
  twi_open patience DS1307_I2C_ADDRESS >>
  twi_write_ch patience reg >>
  twi_write_ch patience data >>
  twi_close >>
  _delay_ms 50.

Definition sqw (mode : Z) : dev twi_state unit :=
  write_register 0x07 mode.

(** [halt], [start] and [set_mode]: [temp_data] is the local byte as the
    call finds it. *)
Definition halt (o : DS1307) (temp_data : Z) : dev twi_state DS1307 :=
  let o :=
    {| read_hr := read_hr o; _yr := _yr o; _mth := _mth o; _day := _day o;
       _dow := _dow o; _hr := _hr o; _min := _min o; _sec := _sec o;
       _clkh := 0x01; _mi := _mi o; _mode := _mode o |} in
  let* temp_data := read_register 0x00 temp_data in
  write_register 0x00 (Z.lor temp_data 0x80) >>
  ret o.

Definition start (o : DS1307) (temp_data : Z) : dev twi_state DS1307 :=
  let o :=
    {| read_hr := read_hr o; _yr := _yr o; _mth := _mth o; _day := _day o;
       _dow := _dow o; _hr := _hr o; _min := _min o; _sec := _sec o;
       _clkh := 0x00; _mi := _mi o; _mode := _mode o |} in
  let* temp_data := read_register 0x00 temp_data in
  write_register 0x00 (Z.land temp_data 0x7F) >>
  ret o.

Definition set_mode (o : DS1307) (m : DSMODE) (temp_data : Z)
    : dev twi_state DS1307 :=
  let* temp_data := read_register 0x02 temp_data in
  match m with
  | DSMODE24 =>
      let temp_data := wrap8 (Z.land temp_data 0xBF) in
      write_register 0x02 temp_data >>
      ret {| read_hr := read_24_hr; _yr := _yr o; _mth := _mth o;
             _day := _day o; _dow := _dow o; _hr := _hr o; _min := _min o;
             _sec := _sec o; _clkh := _clkh o; _mi := _mi o;
             _mode := DSMODE24 |}
  | DSMODE12 =>
      let temp_data := wrap8 (Z.lor temp_data 0x40) in
      write_register 0x02 temp_data >>
      ret {| read_hr := read_12_hr; _yr := _yr o; _mth := _mth o;
             _day := _day o; _dow := _dow o; _hr := _hr o; _min := _min o;
             _sec := _sec o; _clkh := _clkh o; _mi := _mi o;
             _mode := DSMODE12 |}
  end.

Definition init (o : DS1307) (temp_data : Z) : dev twi_state DS1307 :=
  let* enabled := twi_is_enabled in
  (if negb (truthy enabled) then twi_enable else ret tt) >>
  let* o := start o temp_data in
  sqw SQWOFF >>
  ret o.

End Bus.

End Ds1307.

(** ** Vocabulary for the clock *)

(** The seven bytes of the time and calendar registers that stand for the
    members of [o]: seconds with the clock-halt bit, minutes, hours with
    the mode and meridiem bits, day of the week, day, month, year. *)
Definition registers (o : Ds1307.DS1307) : list Z :=
  [ Z.lor (Ds1307.dec2bcd (Ds1307._sec o)) (128 * Ds1307._clkh o);
    Ds1307.dec2bcd (Ds1307._min o);
    Z.lor (Ds1307.dec2bcd (Ds1307._hr o))
      (64 * Ds1307.DSMODE_value (Ds1307._mode o)
       + 32 * Ds1307.DSAMPM_value (Ds1307._mi o));
    Ds1307.dec2bcd (Ds1307._dow o);
    Ds1307.dec2bcd (Ds1307._day o);
    Ds1307.dec2bcd (Ds1307._mth o);
    Ds1307.dec2bcd (Ds1307._yr o) ].

(** The members of [o] hold a time and a date of the calendar, in the
    way the class keeps them: the hour in 0..23 and the meridiem [AM] in
    24-hour mode, the hour in 1..12 in 12-hour mode, and [read_hr]
    pointing to the function of the mode. *)
Definition keeps_time (o : Ds1307.DS1307) : Prop :=
  0 <= Ds1307._sec o <= 59
  /\ 0 <= Ds1307._min o <= 59
  /\ match Ds1307._mode o with
     | Ds1307.DSMODE24 =>
         0 <= Ds1307._hr o <= 23 /\ Ds1307._mi o = Ds1307.AM
         /\ (forall d, Ds1307.read_hr o d = Ds1307.read_24_hr d)
     | Ds1307.DSMODE12 =>
         1 <= Ds1307._hr o <= 12
         /\ (forall d, Ds1307.read_hr o d = Ds1307.read_12_hr d)
     end
  /\ 1 <= Ds1307._dow o <= 7
  /\ 1 <= Ds1307._day o <= 31
  /\ 1 <= Ds1307._mth o <= 12
  /\ 0 <= Ds1307._yr o <= 99
  /\ 0 <= Ds1307._clkh o <= 1.

(** The number of days of month [m] in year [2000 + y]; months outside
    1..12 count as long ones. *)
Definition month_length (y m : Z) : Z :=
  if (m =? 4) || (m =? 6) || (m =? 9) || (m =? 11) then 30
  else if m =? 2 then (if y mod 4 =? 0 then 29 else 28)
  else 31.

(** The object [o'] shows the date and the time of [o]. *)
Definition same_time (o o' : Ds1307.DS1307) : Prop :=
  Ds1307._yr o' = Ds1307._yr o /\ Ds1307._mth o' = Ds1307._mth o
  /\ Ds1307._day o' = Ds1307._day o /\ Ds1307._dow o' = Ds1307._dow o
  /\ Ds1307._hr o' = Ds1307._hr o /\ Ds1307._min o' = Ds1307._min o
  /\ Ds1307._sec o' = Ds1307._sec o.

(** The peripheral's answers to a read of [bytes], within [patience]
    polls each: every byte but the last is reported as received with an
    acknowledge returned, the last as received with none returned. *)
Definition sends (patience : nat) (rs : list response) (bytes : list Z)
    : Prop :=
  exists acks last ds d,
    rs = acks ++ [last] /\ bytes = ds ++ [d]
    /\ delivers patience acks ds
    /\ prompt patience last
    /\ masked last = TWI_MR_DATA_NACK
    /\ r_data last = Some d.

(** The stores to the peripheral that transmit [bytes], one by one. *)
Definition transmissions (bytes : list Z) : list twi_event :=
  flat_map (fun b => [WrTWDR b; WrTWCR TWI_START_TRANSMISSION]) bytes.

(** * The thermometer, [ds18b20.c]

    The functions that compute with [float] values, [ds18b20_convert]
    and [ds18b20_read_temp], are left out. *)

Module Ds18b20.

Definition CMD_CONVERT_TEMP : Z := 0x44.
Definition CMD_READ_SCRATCHPAD : Z := 0xBE.
Definition CMD_WRITE_SCRATCHPAD : Z := 0x4E.

Definition DS18B20_9BIT : Z := 0x1F.
Definition DS18B20_10BIT : Z := 0x3F.
Definition DS18B20_11BIT : Z := 0x5F.
Definition DS18B20_12BIT : Z := 0x7F.

(** The one-wire machine and the three static arrays of the file, of 3,
    9 and 5 bytes. *)
Record ds18b20_state : Type := {
  line : owi_state;
  _ds18b20_config : list Z;
  _ds18b20_address : list Z;
  _ds18b20_scratchpad : list Z
}.

(** The arrays as the program starts. *)
Definition ds18b20_boot (l : owi_state) : ds18b20_state :=
  {| line := l;
     _ds18b20_config := [0x7D; 0xC9; DS18B20_12BIT];
     _ds18b20_address := [0x00; 0x00; 0x00; 0x00; 0x00; 0x00; 0x00; 0x00;
                          0x00];
     _ds18b20_scratchpad := [0x00; 0x00; 0x00; 0x00; 0x00] |}.

Definition put_line (l : owi_state) (s : ds18b20_state) : ds18b20_state :=
  {| line := l; _ds18b20_config := _ds18b20_config s;
     _ds18b20_address := _ds18b20_address s;
     _ds18b20_scratchpad := _ds18b20_scratchpad s |}.

(** Stores into the arrays, at indices that the code keeps in range. *)
Definition put_config (i : nat) (v : Z) (s : ds18b20_state)
    : ds18b20_state :=
  {| line := line s;
     _ds18b20_config := <[i := wrap8 v]> (_ds18b20_config s);
     _ds18b20_address := _ds18b20_address s;
     _ds18b20_scratchpad := _ds18b20_scratchpad s |}.

Definition put_address (i : nat) (v : Z) (s : ds18b20_state)
    : ds18b20_state :=
  {| line := line s; _ds18b20_config := _ds18b20_config s;
     _ds18b20_address := <[i := wrap8 v]> (_ds18b20_address s);
     _ds18b20_scratchpad := _ds18b20_scratchpad s |}.

Definition put_scratchpad (i : nat) (v : Z) (s : ds18b20_state)
    : ds18b20_state :=
  {| line := line s; _ds18b20_config := _ds18b20_config s;
     _ds18b20_address := _ds18b20_address s;
     _ds18b20_scratchpad := <[i := wrap8 v]> (_ds18b20_scratchpad s) |}.

(** A call of a function of [onewire.h]. *)
Definition on_line {A} (m : dev owi_state A) : dev ds18b20_state A :=
  fun s =>
    match m (line s) with
    | Done a l => Done a (put_line l s)
    | Hang l => Hang (put_line l s)
    | Fault l => Fault (put_line l s)
    end.

Definition ds18b20_write_scratchpad : dev ds18b20_state Z :=
  let* presence := on_line owi_detect_presence in
  if negb (truthy presence) then ret 0 else
  let* address := gets _ds18b20_address in
  (if truthy (address !!! 0%nat)
   then on_line (owi_match_rom (drop 1 address))
   else on_line owi_skip_rom) >>
  on_line (owi_write_byte CMD_WRITE_SCRATCHPAD) >>
  for_upto 3 0
    (fun i _ =>
       let* config := gets _ds18b20_config in
       on_line (owi_write_byte (config !!! i)))
    tt >>
  ret 1.

Definition ds18b20_read_scratchpad : dev ds18b20_state Z :=
  let* presence := on_line owi_detect_presence in
  if negb (truthy presence) then ret 0 else
  let* address := gets _ds18b20_address in
  (if truthy (address !!! 0%nat)
   then on_line (owi_match_rom (drop 1 address))
   else on_line owi_skip_rom) >>
  on_line (owi_write_byte CMD_READ_SCRATCHPAD) >>
  for_upto 5 0
    (fun i _ =>
       let* b := on_line owi_read_byte in
       modify (put_scratchpad i b))
    tt >>
  on_line owi_detect_presence >>
  ret 1.

Definition ds18b20_reset_rom : dev ds18b20_state unit :=
  for_upto 9 0 (fun i _ => modify (put_address i 0x00)) tt.

Definition ds18b20_is_connected : dev ds18b20_state Z :=
  on_line owi_detect_presence.

Definition ds18b20_start_conversion : dev ds18b20_state Z :=
  let* presence := on_line owi_detect_presence in
  if negb (truthy presence) then ret 0 else
  on_line owi_skip_rom >>
  on_line (owi_write_byte CMD_CONVERT_TEMP) >>
  ret 1.

Definition ds18b20_set_resolution (res : Z) : dev ds18b20_state Z :=
  ds18b20_read_scratchpad >>
  let* scratchpad := gets _ds18b20_scratchpad in
  modify (put_config 0 (scratchpad !!! 2%nat)) >>
  modify (put_config 1 (scratchpad !!! 3%nat)) >>
  modify (put_config 2 res) >>
  let* ok := ds18b20_write_scratchpad in
  if negb (truthy ok) then ret 0 else
  ds18b20_reset_rom >>
  ret 1.

(** [tl] and [th] are [int8_t] values. *)
Definition ds18b20_set_alarms (tl th : Z) : dev ds18b20_state Z :=
  if (tl <? -55) || (tl >? th) || (th >? 125) then ret 0 else
  ds18b20_read_scratchpad >>
  modify (put_config 0 th) >>
  modify (put_config 1 tl) >>
  let* scratchpad := gets _ds18b20_scratchpad in
  modify (put_config 2 (scratchpad !!! 4%nat)) >>
  let* ok := ds18b20_write_scratchpad in
  if negb (truthy ok) then ret 0 else
  ds18b20_reset_rom >>
  ret 1.

(** [ds18b20_read_rom romcode_array]: the result is the returned [int]
    and the caller's array after the call. *)
Definition ds18b20_read_rom (romcode_array : list Z)
    : dev ds18b20_state (Z * list Z) :=
  let* romcode_array :=
    for_upto 8 0 (fun i romcode_array => store romcode_array i 0x00)
      romcode_array in
  on_line (owi_read_rom romcode_array).

Definition ds18b20_set_rom (romcode_array : list Z)
    : dev ds18b20_state unit :=
  modify (put_address 0 0x01) >>
  for_upto 8 0
    (fun i _ =>
       let* b := load romcode_array i in
       modify (put_address (i + 1) b))
    tt.

Definition ds18b20_check_alarm : dev ds18b20_state Z :=
  on_line owi_alarm_search.

End Ds18b20.

(** * The display, [lcd.cpp] *)

Module Lcd.

Import UtilDelay.

Definition LCD_COMMAND_MODE : Z := 0x00.
Definition LCD_DATA_MODE : Z := 0x01.
Definition LCD_ENABLE : Z := 0x04.
Definition LCD_DISABLE : Z := 0xFB.
Definition LCD_BACKLIGHT : Z := 0x08.

Definition LCD_LINE_SIZE : Z := 0x40.

Definition CMD_SET_DDRAM_ADDRESS : Z := 0x80.
Definition CMD_DISPLAY_ON : Z := 0x0C.
Definition CMD_DISPLAY_OFF : Z := 0x08.
Definition CMD_CARET_HOME : Z := 0x02.
Definition CMD_DISPLAY_CLEAR : Z := 0x01.

(** The enumerations of [lcd.h], with the values the code computes
    with. *)
Inductive lcd_mode : Type := OFF | ON.
Inductive lcd_line : Type := FIRST | SECOND.

Definition lcd_mode_value (mode : lcd_mode) : Z :=
  match mode with
  | OFF => 0
  | ON => 1
  end.

Definition lcd_line_value (line : lcd_line) : Z :=
  match line with
  | FIRST => 0
  | SECOND => 1
  end.

(** An object of the class. *)
Record LCD : Type := {
  _lcd_backlight : Z;
  _twi_address : Z
}.

(** The constructor. *)
Definition LCD_new (address : Z) : LCD :=
  {| _lcd_backlight := 0x00; _twi_address := address |}.

Section Bus.

Variable patience : nat.

Definition latch_data (data : Z) : dev twi_state unit :=
  twi_write_ch patience (Z.lor data LCD_ENABLE) >>
  _delay_us 1 >>
  twi_write_ch patience (Z.land data LCD_DISABLE) >>
  ret tt.

(** [transmit(const unsigned char data)] *)
Definition transmit (o : LCD) (data : Z) : dev twi_state unit :=
  twi_open patience (_twi_address o) >>
  let cmd := wrap8 (Z.lor (_lcd_backlight o) LCD_COMMAND_MODE) in
  let cmd := wrap8 (Z.lor (Z.land data 0xF0) (_lcd_backlight o)) in
  latch_data cmd >>
  let cmd := wrap8 (Z.lor (Z.shiftl data 4) (_lcd_backlight o)) in
  latch_data cmd >>
  twi_write_ch patience (Z.lor cmd 0xF0) >>
  twi_close.

(** The loop [while ( *data != 0)] of [transmit(const char *data)], from
    the character the pointer is at; the result is [cmd] after the loop.
    A buffer that holds no terminator is read past its end. *)
Fixpoint transmit_loop (data : list Z) (ctrl cmd : Z) : dev twi_state Z :=
  match data with
  | [] => fault
  | c :: data' =>
      if negb (c =? 0) then
        let cmd := wrap8 (Z.lor (Z.land c 0xF0) ctrl) in
        latch_data cmd >>
        let cmd := wrap8 (Z.lor (Z.shiftl c 4) ctrl) in
        latch_data cmd >>
        transmit_loop data' ctrl cmd
      else ret cmd
  end.

(** [transmit(const char *data)] *)
Definition transmit_str (o : LCD) (data : list Z) : dev twi_state unit :=
  twi_open patience (_twi_address o) >>
  let ctrl := wrap8 (Z.lor (_lcd_backlight o) LCD_DATA_MODE) in
  let cmd := 0x00 in
  let* cmd := transmit_loop data ctrl cmd in
  twi_write_ch patience (Z.lor cmd 0xF0) >>
  twi_close >>
  _delay_us 37.

Definition clear (o : LCD) : dev twi_state unit :=
  transmit o CMD_DISPLAY_CLEAR >> _delay_us 1530.

Definition home (o : LCD) : dev twi_state unit :=
  transmit o CMD_CARET_HOME >> _delay_us 1530.

Definition line (o : LCD) (line : lcd_line) : dev twi_state unit :=
  transmit o (wrap8 (Z.lor CMD_SET_DDRAM_ADDRESS
                       (lcd_line_value line * LCD_LINE_SIZE))) >>
  _delay_us 39.

Definition pos (o : LCD) (line : lcd_line) (col : Z) : dev twi_state unit :=
  let col := if col >? 15 then 0 else col in
  transmit o (wrap8 (Z.lor CMD_SET_DDRAM_ADDRESS
                       (lcd_line_value line * LCD_LINE_SIZE + col))) >>
  _delay_us 39.

(** [backlight mode]: the result is the object after the call. *)
Definition backlight (o : LCD) (mode : lcd_mode) : dev twi_state LCD :=
  let o := {| _lcd_backlight := wrap8 (lcd_mode_value mode * LCD_BACKLIGHT);
              _twi_address := _twi_address o |} in
  twi_open patience (_twi_address o) >>
  twi_write_ch patience (_lcd_backlight o) >>
  twi_close >>
  _delay_us 39 >>
  ret o.

Definition display (o : LCD) (mode : lcd_mode) : dev twi_state unit :=
  let not_mode := if truthy (lcd_mode_value mode) then 0 else 1 in
  transmit o (wrap8 (Z.lor (lcd_mode_value mode * CMD_DISPLAY_ON)
                       (not_mode * CMD_DISPLAY_OFF))) >>
  _delay_ms 39.

Definition print (o : LCD) (string : list Z) : dev twi_state unit :=
  transmit_str o string.

Definition command (o : LCD) (command : Z) : dev twi_state unit :=
  transmit o command >> _delay_us 39.

Definition init (o : LCD) : dev twi_state unit :=
  let* enabled := twi_is_enabled in
  (if negb (truthy enabled) then twi_enable else ret tt) >>
  _delay_ms 16 >>
  twi_open patience (_twi_address o) >>
  latch_data 0x30 >>
  _delay_us 4100 >>
  latch_data 0x30 >>
  _delay_us 100 >>
  latch_data 0x30 >>
  _delay_us 100 >>
  latch_data 0x20 >>
  _delay_us 100 >>
  twi_close >>
  command o 0x28 >>
  clear o >>
  display o ON.

End Bus.

End Lcd.

(** ** Vocabulary for the thermometer and the display *)

(** What the line sees when a device is selected: the "match ROM"
    command and the eight bytes of the ROM code kept after the flag in
    [address], or the "skip ROM" command when the flag is clear. *)
Definition rom_select (address : list Z) : list owi_event :=
  if truthy (address !!! 0%nat)
  then byte_slots OWI_MATCH_ROM
       ++ flat_map byte_slots (take 8 (drop 1 address))
  else byte_slots OWI_SKIP_ROM.

(** The four bytes that carry one character or command byte [c] to the
    display, with the control bits [ctrl]: the high nibble with the
    enable bit set and then clear, the low nibble likewise. *)
Definition nibbles (ctrl c : Z) : list Z :=
  [ 16 * (c / 16) + ctrl + 4; 16 * (c / 16) + ctrl;
    16 * (c mod 16) + ctrl + 4; 16 * (c mod 16) + ctrl ].

(** The thermometer state [s] faces the line [f] at sample [k] with log
    [w], and its three arrays hold [config], [address] and
    [scratchpad]. *)
Definition holding (s : Ds18b20.ds18b20_state) (f : nat -> Z) (k : nat)
    (w : list owi_event) (config address scratchpad : list Z) : Prop :=
  facing (Ds18b20.line s) f k w
  /\ Ds18b20._ds18b20_config s = config
  /\ Ds18b20._ds18b20_address s = address
  /\ Ds18b20._ds18b20_scratchpad s = scratchpad.

(** * Running the outcome monad *)

Lemma bind_done {St A B} (m : dev St A) (k : A -> dev St B) s a s' :
  m s = Done a s' -> bind m k s = k a s'.
Proof. intros E. unfold bind. now rewrite E. Qed.

Lemma modify_runs {St} (f : St -> St) s : modify f s = Done tt (f s).
Proof. reflexivity. Qed.

Lemma gets_runs {St A} (f : St -> A) s : gets f s = Done (f s) s.
Proof. reflexivity. Qed.

Lemma ret_runs {St A} (a : A) (s : St) : ret a s = Done a s.
Proof. reflexivity. Qed.

(** [expose t h] replaces the call [t] of the function [h] by its body. *)
Ltac expose t h :=
  let E := fresh "E" in
  eassert (E : t = _); [unfold h; reflexivity | rewrite E; clear E].

(** [step E] runs the first call of the goal with the equation [E]. *)
Ltac step E := rewrite (bind_done _ _ _ _ _ E); cbv beta.

(** [run_pure] runs the leading register loads and stores of the goal. *)
Ltac run_pure :=
  repeat first
    [ rewrite (bind_done _ _ _ _ _ (modify_runs _ _)); cbv beta
    | rewrite (bind_done _ _ _ _ _ (gets_runs _ _)); cbv beta
    | rewrite (bind_done _ _ _ _ _ (ret_runs _ _)); cbv beta ].

(** The mask loop makes exactly eight passes, with the masks 1, 2, ...,
    128, and leaves by its condition. *)
Lemma for_mask_byte {St A} (body : Z -> A -> dev St A) (acc : A) :
  for_mask 9 0x01 body acc =
  (let* a := body 1 acc in
   let* a := body 2 a in
   let* a := body 4 a in
   let* a := body 8 a in
   let* a := body 16 a in
   let* a := body 32 a in
   let* a := body 64 a in
   let* a := body 128 a in
   ret a).
Proof. reflexivity. Qed.

Lemma for_upto_8 {St A} (body : nat -> A -> dev St A) (acc : A) :
  for_upto 8 0 body acc =
  (let* a := body 0%nat acc in
   let* a := body 1%nat a in
   let* a := body 2%nat a in
   let* a := body 3%nat a in
   let* a := body 4%nat a in
   let* a := body 5%nat a in
   let* a := body 6%nat a in
   let* a := body 7%nat a in
   ret a).
Proof. reflexivity. Qed.

(** * Properties of the one-wire engine *)

(** ** Bits and bytes *)

Lemma wrap8_idem v : wrap8 (wrap8 v) = wrap8 v.
Proof. unfold wrap8. apply Z.mod_mod. lia. Qed.

Lemma testbit0_wrap8 v : Z.testbit (wrap8 v) 0 = Z.testbit v 0.
Proof.
  unfold wrap8. change 256 with (2 ^ 8).
  apply Z.mod_pow2_bits_low. lia.
Qed.

Lemma low_after_pull d p :
  Z.testbit (wrap8 (Z.lor d OWI_PINMASK)) 0
  && negb (Z.testbit (wrap8 (Z.land p OWI_IPINMASK)) 0) = true.
Proof.
  rewrite !testbit0_wrap8, Z.lor_spec, Z.land_spec.
  unfold OWI_PINMASK, OWI_IPINMASK.
  change (Z.testbit 1 0) with true. change (Z.testbit 254 0) with false.
  now rewrite orb_true_r, andb_false_r.
Qed.

Lemma high_after_release d p :
  Z.testbit (wrap8 (Z.land d OWI_IPINMASK)) 0
  && negb (Z.testbit (wrap8 (Z.lor p OWI_PINMASK)) 0) = false.
Proof.
  rewrite !testbit0_wrap8, Z.land_spec.
  unfold OWI_IPINMASK. change (Z.testbit 254 0) with false.
  now rewrite andb_false_r.
Qed.

Lemma truthy_land_pinmask pin :
  truthy (Z.land pin OWI_PINMASK) = Z.testbit pin 0.
Proof.
  unfold truthy, OWI_PINMASK.
  change 1 with (Z.ones 1). rewrite Z.land_ones by lia.
  rewrite Z.bit0_odd, Zodd_mod. change (2 ^ 1) with 2.
  destruct (Z.mod_pos_bound pin 2 ltac:(lia)) as [? ?].
  destruct (pin mod 2 =? 0) eqn:E; destruct (pin mod 2 =? 1) eqn:E1;
    simpl; try reflexivity; lia.
Qed.

Lemma land_pow2 data j :
  0 <= j -> Z.land data (2 ^ j) = if Z.testbit data j then 2 ^ j else 0.
Proof.
  intros Hj. apply Z.bits_inj'. intros m Hm.
  rewrite Z.land_spec, Z.pow2_bits_eqb by lia.
  destruct (Z.eqb_spec j m) as [->|Hne].
  - rewrite andb_true_r. destruct (Z.testbit data m) eqn:E.
    + now rewrite Z.pow2_bits_true.
    + now rewrite Z.bits_0.
  - rewrite andb_false_r. destruct (Z.testbit data j).
    + rewrite Z.pow2_bits_false; auto.
    + now rewrite Z.bits_0.
Qed.

Lemma truthy_land_pow2 data j :
  0 <= j -> truthy (Z.land data (2 ^ j)) = Z.testbit data j.
Proof.
  intros Hj. rewrite land_pow2 by assumption. unfold truthy.
  destruct (Z.testbit data j); [|reflexivity].
  assert (0 < 2 ^ j) by (apply Z.pow_pos_nonneg; lia).
  destruct (Z.eqb_spec (2 ^ j) 0); [lia | reflexivity].
Qed.

Lemma byte_of_bits (b0 b1 b2 b3 b4 b5 b6 b7 : bool) :
  let bit (b : bool) := if b then 1 else 0 in
  let acc (b : bool) (mask data : Z) :=
    if truthy (bit b) then wrap8 (Z.lor data mask) else data in
  acc b7 128 (acc b6 64 (acc b5 32 (acc b4 16 (acc b3 8 (acc b2 4
    (acc b1 2 (acc b0 1 0)))))))
  = bit b0 + 2 * bit b1 + 4 * bit b2 + 8 * bit b3 + 16 * bit b4
    + 32 * bit b5 + 64 * bit b6 + 128 * bit b7.
Proof.
  destruct b0, b1, b2, b3, b4, b5, b6, b7; vm_compute; reflexivity.
Qed.

Lemma bit_at_cases f k : bit_at f k = 0 \/ bit_at f k = 1.
Proof. unfold bit_at, level. destruct (Z.testbit (f k) 0); auto. Qed.

Lemma byte_at_range f k : 0 <= byte_at f k < 256.
Proof.
  unfold byte_at.
  pose proof (bit_at_cases f k). pose proof (bit_at_cases f (k + 1)).
  pose proof (bit_at_cases f (k + 2)). pose proof (bit_at_cases f (k + 3)).
  pose proof (bit_at_cases f (k + 4)). pose proof (bit_at_cases f (k + 5)).
  pose proof (bit_at_cases f (k + 6)). pose proof (bit_at_cases f (k + 7)).
  lia.
Qed.

Lemma wrap8_byte_at f k : wrap8 (byte_at f k) = byte_at f k.
Proof. apply Z.mod_small, byte_at_range. Qed.

Lemma read_slots_8 f k :
  read_slots f k 8 =
  read_slot (f k) ++ read_slot (f (1 + k)%nat) ++ read_slot (f (2 + k)%nat)
  ++ read_slot (f (3 + k)%nat) ++ read_slot (f (4 + k)%nat)
  ++ read_slot (f (5 + k)%nat) ++ read_slot (f (6 + k)%nat)
  ++ read_slot (f (7 + k)%nat).
Proof.
  unfold read_slots. cbn [flat_map seq].
  rewrite app_nil_r, !(Nat.add_comm k). reflexivity.
Qed.

Lemma byte_at_8 f k :
  byte_at f k =
  bit_at f k + 2 * bit_at f (1 + k) + 4 * bit_at f (2 + k)
  + 8 * bit_at f (3 + k) + 16 * bit_at f (4 + k) + 32 * bit_at f (5 + k)
  + 64 * bit_at f (6 + k) + 128 * bit_at f (7 + k).
Proof.
  unfold byte_at. rewrite !(Nat.add_comm k). reflexivity.
Qed.

Lemma wrap8_rom_at f k : map wrap8 (rom_at f k) = rom_at f k.
Proof.
  unfold rom_at. rewrite map_map. apply map_ext. intros i.
  apply wrap8_byte_at.
Qed.

Lemma lxor_bits f i j :
  truthy (Z.lxor (bit_at f i) (bit_at f j))
  = negb (bit_at f i =? bit_at f j).
Proof.
  destruct (bit_at_cases f i) as [-> | ->];
    destruct (bit_at_cases f j) as [-> | ->]; reflexivity.
Qed.

Lemma crc_chain_cons crc b bytes :
  crc_chain crc (b :: bytes) = crc_chain (owi_crc b crc) bytes.
Proof. reflexivity. Qed.

(** ** Running the driver in front of a line *)

Section OneWire.

(** The line the machine faces. *)
Context {f : nat -> Z}.

(** ** The line primitives *)

Lemma pull_line_runs {s k w} :
  facing s f k w ->
  exists s', pull_line s = Done tt s' /\ facing s' f k w /\ line_low s' = true.
Proof.
  intros H. eexists. split; [reflexivity|]. split; [exact H|].
  apply low_after_pull.
Qed.

Lemma release_line_runs {s k w} :
  facing s f k w ->
  exists s',
    release_line s = Done tt s' /\ facing s' f k w /\ line_low s' = false.
Proof.
  intros H. eexists. split; [reflexivity|]. split; [exact H|].
  apply high_after_release.
Qed.

Lemma delay_runs us {s k w b} :
  facing s f k w /\ line_low s = b ->
  exists s', _delay_us us s = Done tt s'
             /\ facing s' f k (w ++ [Hold b us]) /\ line_low s' = b.
Proof.
  intros ((Hf & Hk & Hw) & Hb). eexists. split; [reflexivity|].
  unfold facing, line_low in *. cbn [DDRB PORTB line_in taken wire].
  rewrite Hb, Hw. auto.
Qed.

Lemma read_PINB_runs {s k w b} :
  facing s f k w /\ line_low s = b ->
  exists s', read_PINB s = Done (f k) s'
             /\ facing s' f (S k) (w ++ [Sample (f k)])
             /\ line_low s' = b.
Proof.
  intros ((Hf & Hk & Hw) & Hb). unfold read_PINB. rewrite Hf, Hk, Hw.
  eexists. split; [reflexivity|].
  unfold facing, line_low in *. cbn [DDRB PORTB line_in taken wire]. auto.
Qed.

(** ** Slots *)

Lemma write_slot_runs us1 us2 {s k w} :
  facing s f k w ->
  exists s',
    (pull_line >> _delay_us us1 >> release_line >> _delay_us us2) s
    = Done tt s'
    /\ facing s' f k (w ++ [Hold true us1; Hold false us2]).
Proof.
  intros H0.
  destruct (pull_line_runs H0) as (s1 & E1 & H1).
  destruct (delay_runs us1 H1) as (s2 & E2 & H2 & _).
  destruct (release_line_runs H2) as (s3 & E3 & H3).
  destruct (delay_runs us2 H3) as (s4 & E4 & H4 & _).
  exists s4. split.
  - step E1. step E2. step E3. exact E4.
  - now rewrite <- app_assoc in H4.
Qed.

Lemma owi_write_1_runs {s k w} :
  facing s f k w ->
  exists s', owi_write_1 s = Done tt s' /\ facing s' f k (w ++ write_slot true).
Proof. apply write_slot_runs. Qed.

Lemma owi_write_0_runs {s k w} :
  facing s f k w ->
  exists s', owi_write_0 s = Done tt s' /\ facing s' f k (w ++ write_slot false).
Proof. apply write_slot_runs. Qed.

Lemma sample_slot_runs {A} us1 us2 us3 (pick : Z -> A) {s k w} :
  facing s f k w ->
  exists s',
    (pull_line >> _delay_us us1 >> release_line >> _delay_us us2 >>
     let* pin := read_PINB in
     _delay_us us3 >> ret (pick pin)) s
    = Done (pick (f k)) s'
    /\ facing s' f (S k)
         (w ++ [Hold true us1; Hold false us2; Sample (f k); Hold false us3]).
Proof.
  intros H0.
  destruct (pull_line_runs H0) as (s1 & E1 & H1).
  destruct (delay_runs us1 H1) as (s2 & E2 & H2 & _).
  destruct (release_line_runs H2) as (s3 & E3 & H3).
  destruct (delay_runs us2 H3) as (s4 & E4 & H4).
  destruct (read_PINB_runs H4) as (s5 & E5 & H5).
  destruct (delay_runs us3 H5) as (s6 & E6 & H6 & _).
  exists s6. split.
  - step E1. step E2. step E3. step E4. step E5. step E6. reflexivity.
  - now rewrite <- !app_assoc in H6.
Qed.

Lemma owi_read_bit_runs {s k w} :
  facing s f k w ->
  exists s', owi_read_bit s = Done (bit_at f k) s'
             /\ facing s' f (S k) (w ++ read_slot (f k)).
Proof.
  intros H.
  destruct (sample_slot_runs 1 14 45
              (fun pin => if truthy (Z.land pin OWI_PINMASK) then 1 else 0)
              H) as (s' & E & H').
  exists s'. split; [|exact H'].
  rewrite truthy_land_pinmask in E. exact E.
Qed.

Lemma owi_detect_presence_runs {s k w} :
  facing s f k w ->
  exists s', owi_detect_presence s = Done (1 - bit_at f k) s'
             /\ facing s' f (S k) (w ++ reset_slot (f k)).
Proof.
  intros H.
  destruct (sample_slot_runs 480 60 420
              (fun pin => if truthy (Z.land pin OWI_PINMASK) then 0 else 1)
              H) as (s' & E & H').
  exists s'. split; [|exact H'].
  rewrite truthy_land_pinmask in E.
  replace (1 - bit_at f k) with (if Z.testbit (f k) 0 then 0 else 1);
    [exact E|].
  unfold bit_at, level. destruct (Z.testbit (f k) 0); reflexivity.
Qed.

(** ** Bytes *)

Lemma write_bit_runs data mask j {s k w} :
  0 <= j -> mask = 2 ^ j -> facing s f k w ->
  exists s',
    (if truthy (Z.land data mask) then owi_write_1 else owi_write_0) s
    = Done tt s'
    /\ facing s' f k (w ++ write_slot (Z.testbit data j)).
Proof.
  intros Hj -> H. rewrite truthy_land_pow2 by assumption.
  destruct (Z.testbit data j);
    [apply owi_write_1_runs | apply owi_write_0_runs]; assumption.
Qed.

Lemma owi_write_byte_runs data {s k w} :
  facing s f k w ->
  exists s', owi_write_byte data s = Done tt s'
             /\ facing s' f k (w ++ byte_slots data).
Proof.
  intros H0. expose (owi_write_byte data) owi_write_byte.
  rewrite for_mask_byte.
  destruct (write_bit_runs data 1 0 ltac:(lia) eq_refl H0)
    as (s1 & E1 & H1).
  destruct (write_bit_runs data 2 1 ltac:(lia) eq_refl H1)
    as (s2 & E2 & H2).
  destruct (write_bit_runs data 4 2 ltac:(lia) eq_refl H2)
    as (s3 & E3 & H3).
  destruct (write_bit_runs data 8 3 ltac:(lia) eq_refl H3)
    as (s4 & E4 & H4).
  destruct (write_bit_runs data 16 4 ltac:(lia) eq_refl H4)
    as (s5 & E5 & H5).
  destruct (write_bit_runs data 32 5 ltac:(lia) eq_refl H5)
    as (s6 & E6 & H6).
  destruct (write_bit_runs data 64 6 ltac:(lia) eq_refl H6)
    as (s7 & E7 & H7).
  destruct (write_bit_runs data 128 7 ltac:(lia) eq_refl H7)
    as (s8 & E8 & H8).
  exists s8. split.
  - step E1. step E2. step E3. step E4. step E5. step E6. step E7. step E8.
    reflexivity.
  - unfold byte_slots. cbn [flat_map].
    rewrite app_nil_r, !app_assoc. exact H8.
Qed.

Lemma read_bit_into_runs (mask data : Z) {s k w} :
  facing s f k w ->
  exists s',
    (let* bit := owi_read_bit in
     ret (if truthy bit then wrap8 (Z.lor data mask) else data)) s
    = Done (if truthy (bit_at f k) then wrap8 (Z.lor data mask) else data) s'
    /\ facing s' f (S k) (w ++ read_slot (f k)).
Proof.
  intros H. destruct (owi_read_bit_runs H) as (s' & E & H').
  exists s'. split; [|exact H']. step E. reflexivity.
Qed.

Ltac next_bit mask E H s' E' H' :=
  match type of E with
  | _ = Done ?d _ =>
      destruct (read_bit_into_runs mask d H) as (s' & E' & H')
  end.

(** The loop of [owi_read_byte], from any state. *)
Lemma read_byte_loop_runs {s k w} :
  facing s f k w ->
  exists s',
    for_mask 9 0x01
      (fun mask data =>
         let* bit := owi_read_bit in
         ret (if truthy bit then wrap8 (Z.lor data mask) else data))
      0x00 s
    = Done (byte_at f k) s'
    /\ facing s' f (k + 8) (w ++ read_slots f k 8).
Proof.
  intros H0. rewrite for_mask_byte.
  destruct (read_bit_into_runs 1 0 H0) as (s1 & E1 & H1).
  next_bit 2 E1 H1 s2 E2 H2.
  next_bit 4 E2 H2 s3 E3 H3.
  next_bit 8 E3 H3 s4 E4 H4.
  next_bit 16 E4 H4 s5 E5 H5.
  next_bit 32 E5 H5 s6 E6 H6.
  next_bit 64 E6 H6 s7 E7 H7.
  next_bit 128 E7 H7 s8 E8 H8.
  exists s8. split.
  - step E1. step E2. step E3. step E4. step E5. step E6. step E7. step E8.
    unfold ret. f_equal. rewrite byte_at_8. unfold bit_at, level.
    cbn [Nat.add]. apply byte_of_bits.
  - rewrite read_slots_8. cbn [Nat.add].
    rewrite !app_assoc. replace (k + 8)%nat with (8 + k)%nat by lia.
    exact H8.
Qed.

Lemma owi_read_byte_runs {s k w} :
  facing s f k w ->
  exists s', owi_read_byte s = Done (byte_at f k) s'
             /\ facing s' f (k + 8) (w ++ read_slots f k 8).
Proof.
  expose owi_read_byte owi_read_byte. apply read_byte_loop_runs.
Qed.

(** The bit loop that [owi_read_rom] runs on [temp_array[i]] is the loop
    of [owi_read_byte] run on that element. *)
Lemma rom_loop_lift (i : nat) turns :
  forall mask (temp : list Z) s,
    (i < length temp)%nat ->
    for_mask turns mask
      (fun mask temp_array =>
         let* bit := owi_read_bit in
         ret (if truthy bit
              then <[i := wrap8 (Z.lor (temp_array !!! i) mask)]> temp_array
              else temp_array))
      temp s
    = match for_mask turns mask
              (fun mask data =>
                 let* bit := owi_read_bit in
                 ret (if truthy bit then wrap8 (Z.lor data mask) else data))
              (temp !!! i) s with
      | Done v s' => Done (<[i := v]> temp) s'
      | Hang s' => Hang s'
      | Fault s' => Fault s'
      end.
Proof.
  induction turns as [|turns IH]; intros mask temp s Hi; cbn [for_mask].
  - reflexivity.
  - destruct (0 <? mask).
    + unfold bind in *.
      destruct (owi_read_bit s) as [bit s1|s1|s1]; try reflexivity.
      cbn [ret]. destruct (truthy bit).
      * rewrite IH by (rewrite length_insert; exact Hi).
        rewrite list_lookup_total_insert_eq by exact Hi.
        destruct (for_mask turns _ _ _ s1); try reflexivity.
        now rewrite list_insert_insert_eq.
      * apply IH, Hi.
    + unfold ret. f_equal. symmetry. apply list_insert_id.
      apply list_lookup_lookup_total_lt, Hi.
Qed.

Lemma rom_byte_runs (i : nat) (temp : list Z) {s k w} :
  facing s f k w -> (i < length temp)%nat -> temp !!! i = 0 ->
  exists s',
    for_mask 9 0x01
      (fun mask temp_array =>
         let* bit := owi_read_bit in
         ret (if truthy bit
              then <[i := wrap8 (Z.lor (temp_array !!! i) mask)]> temp_array
              else temp_array))
      temp s
    = Done (<[i := byte_at f k]> temp) s'
    /\ facing s' f (k + 8) (w ++ read_slots f k 8).
Proof.
  intros H Hi H0. rewrite rom_loop_lift by exact Hi. rewrite H0.
  destruct (read_byte_loop_runs H) as (s' & E & H').
  rewrite E. exists s'. split; [reflexivity | exact H'].
Qed.

Ltac next_byte i E H s' E' H' :=
  match type of E with
  | _ = Done ?t _ =>
      destruct (rom_byte_runs i t H) as (s' & E' & H');
      [cbn; lia | reflexivity |]
  end.

(** The two nested loops of [owi_read_rom] fill [temp_array] with the
    eight bytes that the next 64 samples make. *)
Lemma rom_bytes_runs {s k w} :
  facing s f k w ->
  exists s' w',
    for_upto 8 0
      (fun i temp_array =>
         for_mask 9 0x01
           (fun mask temp_array =>
              let* bit := owi_read_bit in
              ret (if truthy bit
                   then <[i := wrap8 (Z.lor (temp_array !!! i) mask)]> temp_array
                   else temp_array))
           temp_array)
      [0x00; 0x00; 0x00; 0x00; 0x00; 0x00; 0x00; 0x00] s
    = Done (rom_at f k) s'
    /\ facing s' f (k + 64) w'.
Proof.
  intros H0. rewrite for_upto_8.
  destruct (rom_byte_runs 0 [0; 0; 0; 0; 0; 0; 0; 0] H0)
    as (s1 & E1 & H1); [cbn; lia | reflexivity |].
  next_byte 1%nat E1 H1 s2 E2 H2.
  next_byte 2%nat E2 H2 s3 E3 H3.
  next_byte 3%nat E3 H3 s4 E4 H4.
  next_byte 4%nat E4 H4 s5 E5 H5.
  next_byte 5%nat E5 H5 s6 E6 H6.
  next_byte 6%nat E6 H6 s7 E7 H7.
  next_byte 7%nat E7 H7 s8 E8 H8.
  exists s8. eexists. split.
  - step E1. step E2. step E3. step E4. step E5. step E6. step E7. step E8.
    unfold ret. f_equal. unfold rom_at. cbn [map seq list_insert insert].
    replace (k + 8 * 0)%nat with k by lia.
    replace (k + 8 * 1)%nat with (k + 8)%nat by lia.
    replace (k + 8 * 2)%nat with (k + 8 + 8)%nat by lia.
    replace (k + 8 * 3)%nat with (k + 8 + 8 + 8)%nat by lia.
    replace (k + 8 * 4)%nat with (k + 8 + 8 + 8 + 8)%nat by lia.
    replace (k + 8 * 5)%nat with (k + 8 + 8 + 8 + 8 + 8)%nat by lia.
    replace (k + 8 * 6)%nat with (k + 8 + 8 + 8 + 8 + 8 + 8)%nat by lia.
    replace (k + 8 * 7)%nat with (k + 8 + 8 + 8 + 8 + 8 + 8 + 8)%nat by lia.
    reflexivity.
  - replace (k + 64)%nat with (k + 8 + 8 + 8 + 8 + 8 + 8 + 8 + 8)%nat by lia.
    exact H8.
Qed.

(** ** The alarm search *)

Lemma write_first_runs (first : Z) {s k w} :
  facing s f k w ->
  exists s',
    (if truthy first then owi_write_1 else owi_write_0) s = Done tt s'
    /\ facing s' f k (w ++ write_slot (truthy first)).
Proof.
  intros H. destruct (truthy first);
    [apply owi_write_1_runs | apply owi_write_0_runs]; exact H.
Qed.

End OneWire.

(** ** The ROM code, from the reset on *)

Lemma crc_loop_runs (temp : list Z) (n : nat) :
  forall (i : nat) (crc : Z) (s : owi_state),
    for_upto n i (fun i crc => ret (owi_crc (temp !!! i) crc)) crc s
    = Done (crc_chain crc (map (fun j => temp !!! j) (seq i n))) s.
Proof.
  induction n as [|n IH]; intros i crc s; cbn [for_upto seq map].
  - reflexivity.
  - unfold bind at 1. unfold ret at 1. rewrite IH, crc_chain_cons.
    reflexivity.
Qed.

Lemma rom_crc_runs f k (s : owi_state) :
  for_upto 7 0 (fun i crc => ret (owi_crc (rom_at f k !!! i) crc)) 0x00 s
  = Done (crc_chain 0 (take 7 (rom_at f k))) s.
Proof.
  rewrite crc_loop_runs. unfold rom_at.
  cbn [map seq take lookup_total list_lookup_total]. reflexivity.
Qed.

Lemma rom_copy_runs (temp rom : list Z) (s : owi_state) :
  length temp = 8%nat -> length rom = 8%nat ->
  for_upto 8 0 (fun i rom_array => store rom_array i (temp !!! i)) rom s
  = Done (map wrap8 temp) s.
Proof.
  intros Ht Hr.
  destruct temp as [|t0 [|t1 [|t2 [|t3 [|t4 [|t5 [|t6 [|t7 [|]]]]]]]]];
    try discriminate Ht.
  destruct rom as [|r0 [|r1 [|r2 [|r3 [|r4 [|r5 [|r6 [|r7 [|]]]]]]]]];
    try discriminate Hr.
  reflexivity.
Qed.

Lemma facing_self s : facing s (line_in s) (taken s) (wire s).
Proof. repeat split. Qed.

Lemma owi_read_rom_absent rom s :
  bit_at (line_in s) (taken s) = 1 ->
  exists s', owi_read_rom rom s = Done (0, rom) s'.
Proof.
  intros Hp. expose (owi_read_rom rom) owi_read_rom. cbv zeta.
  destruct (owi_detect_presence_runs (facing_self s))
    as (s1 & E1 & _).
  step E1. rewrite Hp. exists s1. reflexivity.
Qed.

Lemma owi_read_rom_present rom s :
  bit_at (line_in s) (taken s) = 0 ->
  let bytes := rom_at (line_in s) (S (taken s)) in
  let crc := crc_chain 0 (take 7 bytes) in
  exists s',
    owi_read_rom rom s =
    if crc =? bytes !!! 7%nat
    then (let* rom_array :=
            for_upto 8 0
              (fun i rom_array => store rom_array i (bytes !!! i)) rom in
          ret (1, rom_array)) s'
    else Done (crc, rom) s'.
Proof.
  intros Hp bytes crc. expose (owi_read_rom rom) owi_read_rom. cbv zeta.
  destruct (owi_detect_presence_runs (facing_self s))
    as (s1 & E1 & H1).
  step E1. rewrite Hp. change (negb (truthy (1 - 0))) with false. cbv iota.
  destruct (owi_write_byte_runs OWI_READ_ROM H1) as (s2 & E2 & H2).
  step E2.
  destruct (rom_bytes_runs H2) as (s3 & w3 & E3 & H3).
  step E3. step (rom_crc_runs (line_in s) (S (taken s)) s3).
  fold bytes. fold crc. exists s3.
  destruct (crc =? bytes !!! 7%nat); reflexivity.
Qed.

(** C3.  [owi_alarm_search] returns 0 without sending the command when no
    presence is detected.  Otherwise it sends the alarm-search command
    and reads two bits: when the two bits are equal, (1,1) or (0,0), it
    returns 0 and writes nothing back; when they differ it returns 1 and
    writes the first bit back. *)
Theorem owi_alarm_search_response (s : owi_state) :
  let f := line_in s in
  let k := taken s in
  let present := bit_at f k =? 0 in
  let first := bit_at f (k + 1) in
  let second := bit_at f (k + 2) in
  let differ := negb (first =? second) in
  exists s',
    owi_alarm_search s = Done (if present && differ then 1 else 0) s'
    /\ wire s' =
       wire s ++ reset_slot (f k) ++
       (if present
        then byte_slots OWI_ALARM_SEARCH
             ++ read_slot (f (k + 1)%nat) ++ read_slot (f (k + 2)%nat)
             ++ (if differ then write_slot (first =? 1) else [])
        else []).
Proof.
  intros f k present first second differ.
  expose owi_alarm_search owi_alarm_search.
  destruct (owi_detect_presence_runs (facing_self s))
    as (s1 & E1 & H1).
  step E1. fold f k in H1 |- *. subst present.
  destruct (bit_at_cases f k) as [Hp | Hp]; rewrite Hp.
  - change (negb (truthy (1 - 0))) with false. cbv iota.
    change (0 =? 0) with true. cbv iota. cbn [andb].
    destruct (owi_write_byte_runs OWI_ALARM_SEARCH H1)
      as (s2 & E2 & H2).
    step E2.
    destruct (owi_read_bit_runs H2) as (s3 & E3 & H3).
    step E3.
    destruct (owi_read_bit_runs H3) as (s4 & E4 & H4).
    step E4.
    replace (S k) with (k + 1)%nat in * by lia.
    replace (S (k + 1)) with (k + 2)%nat in * by lia.
    fold first second. subst differ. unfold first at 1, second at 1.
    rewrite lxor_bits. fold first second.
    destruct (first =? second); cbn [negb].
    + exists s4. split; [reflexivity|].
      destruct H4 as (_ & _ & ->). rewrite app_nil_r, <- !app_assoc.
      reflexivity.
    + destruct (write_first_runs first H4) as (s5 & E5 & H5).
      step E5. exists s5. split; [reflexivity|].
      destruct H5 as (_ & _ & ->). rewrite <- !app_assoc.
      replace (truthy first) with (first =? 1); [reflexivity|].
      unfold first. destruct (bit_at_cases f (k + 1)) as [-> | ->];
        reflexivity.
  - change (negb (truthy (1 - 1))) with true. cbv iota.
    change (1 =? 0) with false. cbv iota. cbn [andb].
    exists s1. split; [reflexivity|].
    destruct H1 as (_ & _ & ->). now rewrite app_nil_r.
Qed.

(** C3, as the specification has it, fails on the response (0,0): both
    bits low after a presence pulse.  The call returns 0, and the log
    ends with the two read slots: nothing is written back. *)
Lemma owi_alarm_search_both_low :
  let s := owi_rest (reply 0x00 [0x00]) in
  bit_at (line_in s) 0 = 0
  /\ bit_at (line_in s) 1 = 0
  /\ bit_at (line_in s) 2 = 0
  /\ returned (owi_alarm_search s) = Some 0
  /\ returned (owi_alarm_search s) <> Some 1
  /\ wire (final (owi_alarm_search s)) =
     reset_slot 0x00 ++ byte_slots OWI_ALARM_SEARCH
     ++ read_slot 0xFE ++ read_slot 0xFE.
Proof. vm_compute. repeat split; congruence. Qed.

(** C4.  On the paths that fail, no presence or a CRC that does not
    verify, [owi_read_rom] leaves the caller's 8-byte array as it was; on
    the path that succeeds it returns 1 and the array holds the eight
    bytes read from the bus, in the order read. *)
Theorem owi_read_rom_frame (s : owi_state) (rom : list Z) :
  length rom = 8%nat ->
  let f := line_in s in
  let k := taken s in
  let bytes := rom_at f (S k) in
  let ok := (bit_at f k =? 0) && (crc_chain 0 (take 7 bytes) =? bytes !!! 7%nat) in
  exists r,
    returned (owi_read_rom rom s) = Some (r, if ok then bytes else rom)
    /\ (ok = true -> r = 1).
Proof.
  intros Hlen f k bytes ok. subst ok.
  destruct (bit_at_cases f k) as [Hp | Hp]; rewrite Hp.
  - destruct (owi_read_rom_present rom s Hp) as (s' & E).
    rewrite E. fold f k bytes. change (0 =? 0) with true. cbn [andb].
    destruct (crc_chain 0 (take 7 bytes) =? bytes !!! 7%nat).
    + step (rom_copy_runs bytes rom s' eq_refl Hlen).
      subst bytes. rewrite wrap8_rom_at. eexists. split; eauto.
    + eexists. split; [reflexivity | discriminate].
  - destruct (owi_read_rom_absent rom s Hp) as (s' & E).
    rewrite E. eexists. split; [reflexivity | discriminate].
Qed.

Lemma owi_read_rom_frame_witness :
  exists r,
    returned
      (owi_read_rom [9; 9; 9; 9; 9; 9; 9; 9]
         (owi_rest (reply 0x00 [0x28; 0x6e; 0x38; 0xdd; 0x06; 0x00; 0x00; 0x39])))
    = Some (r, [0x28; 0x6e; 0x38; 0xdd; 0x06; 0x00; 0x00; 0x39])
    /\ (true = true -> r = 1).
Proof.
  exact (owi_read_rom_frame
           (owi_rest (reply 0x00 [0x28; 0x6e; 0x38; 0xdd; 0x06; 0x00; 0x00; 0x39]))
           [9; 9; 9; 9; 9; 9; 9; 9] eq_refl).
Defined.

(** C5.  When presence is detected and the CRC does not verify,
    [owi_read_rom] returns the CRC it computed over the first seven
    bytes, and leaves the array alone.  That value is 1, the value of
    success, for some responses, and 0, the value of no presence, for
    others. *)
Theorem owi_read_rom_mismatch_code :
  (forall (s : owi_state) (rom : list Z),
      let bytes := rom_at (line_in s) (S (taken s)) in
      let crc := crc_chain 0 (take 7 bytes) in
      bit_at (line_in s) (taken s) = 0 ->
      crc <> bytes !!! 7%nat ->
      returned (owi_read_rom rom s) = Some (crc, rom))
  /\ (exists bytes : list Z,
        length bytes = 8%nat
        /\ crc_chain 0 (take 7 bytes) <> bytes !!! 7%nat
        /\ forall rom,
            returned (owi_read_rom rom (owi_rest (reply 0x00 bytes)))
            = Some (1, rom))
  /\ (exists bytes : list Z,
        length bytes = 8%nat
        /\ crc_chain 0 (take 7 bytes) <> bytes !!! 7%nat
        /\ forall rom,
            returned (owi_read_rom rom (owi_rest (reply 0x00 bytes)))
            = Some (0, rom)).
Proof.
  assert (Hgen : forall (s : owi_state) (rom : list Z),
             let bytes := rom_at (line_in s) (S (taken s)) in
             let crc := crc_chain 0 (take 7 bytes) in
             bit_at (line_in s) (taken s) = 0 ->
             crc <> bytes !!! 7%nat ->
             returned (owi_read_rom rom s) = Some (crc, rom)).
  { intros s rom bytes crc Hp Hne.
    destruct (owi_read_rom_present rom s Hp) as (s' & E).
    rewrite E. fold bytes crc.
    destruct (Z.eqb_spec crc (bytes !!! 7%nat)) as [Heq | _];
      [contradiction | reflexivity]. }
  split; [exact Hgen|]. split.
  - exists [0x00; 0x00; 0x00; 0x00; 0x00; 0x00; 0x19; 0x00].
    split; [reflexivity|]. split; [vm_compute; congruence|].
    intros rom. apply Hgen; vm_compute; congruence.
  - exists [0x00; 0x00; 0x00; 0x00; 0x00; 0x00; 0x00; 0x01].
    split; [reflexivity|]. split; [vm_compute; congruence|].
    intros rom. apply Hgen; vm_compute; congruence.
Qed.

Lemma owi_read_rom_mismatch_code_witness :
  returned
    (owi_read_rom [9; 9; 9; 9; 9; 9; 9; 9]
       (owi_rest (reply 0x00 [0x28; 0x6e; 0x38; 0xdd; 0x06; 0x00; 0x00; 0x3a])))
  = Some (0x39, [9; 9; 9; 9; 9; 9; 9; 9]).
Proof.
  refine (proj1 owi_read_rom_mismatch_code
            (owi_rest (reply 0x00 [0x28; 0x6e; 0x38; 0xdd; 0x06; 0x00; 0x00; 0x3a]))
            [9; 9; 9; 9; 9; 9; 9; 9] _ _).
  - reflexivity.
  - vm_compute. discriminate.
Defined.

(** C5, as the specification has it, says that the CRC computed on a
    mismatch is never 0.  The response made of seven zero bytes and the
    byte 1 has a CRC of 0 that does not match, and the call returns 0. *)
Lemma owi_read_rom_mismatch_zero :
  let bytes := [0x00; 0x00; 0x00; 0x00; 0x00; 0x00; 0x00; 0x01] in
  let s := owi_rest (reply 0x00 bytes) in
  bit_at (line_in s) (taken s) = 0
  /\ rom_at (line_in s) (S (taken s)) = bytes
  /\ crc_chain 0 (take 7 bytes) <> bytes !!! 7%nat
  /\ crc_chain 0 (take 7 bytes) = 0
  /\ returned (owi_read_rom [9; 9; 9; 9; 9; 9; 9; 9] s)
     = Some (0, [9; 9; 9; 9; 9; 9; 9; 9]).
Proof. vm_compute. repeat split; congruence. Qed.

(** C6.  The CRC of the family code [0x28] followed by the serial bytes
    [0x6e 0x38 0xdd 0x06 0x00 0x00], chained from seed 0, is [0x39]. *)
Theorem owi_crc_known_vector :
  owi_crc 0x00 (owi_crc 0x00 (owi_crc 0x06 (owi_crc 0xdd
    (owi_crc 0x38 (owi_crc 0x6e (owi_crc 0x28 0)))))) = 0x39
  /\ crc_chain 0 [0x28; 0x6e; 0x38; 0xdd; 0x06; 0x00; 0x00] = 0x39.
Proof. split; vm_compute; reflexivity. Qed.

(** * Properties of the two-wire engine *)

Lemma truthy_land_flag c :
  truthy (Z.land c TWI_INTERRUPT_FLAG) = Z.testbit c 7.
Proof.
  unfold TWI_INTERRUPT_FLAG. change 128 with (2 ^ 7).
  apply truthy_land_pow2. lia.
Qed.

(** ** One bus event *)

(** The busy-wait on an event that needs [n] more polls. *)
Lemma wait_counts_down v r s :
  forall n polls,
    (n < polls)%nat ->
    wait_TWINT polls
      {| _twi_enabled := _twi_enabled s; _twi_address := _twi_address s;
         DDRC := DDRC s; PORTC := PORTC s; TWBR := TWBR s;
         TWCR := Z.land (wrap8 v) 0x7F;
         TWSR := TWSR s; TWDR := TWDR s;
         pending := Some {| r_polls := n; r_status := r_status r;
                            r_data := r_data r |};
         bus := tail (bus s);
         sent := sent s ++ [WrTWCR (wrap8 v)] |}
    = Done tt (after_event v r s).
Proof.
  induction n as [|n IH]; intros polls Hlt;
    (destruct polls as [|polls]; [lia|]);
    cbn [wait_TWINT]; unfold bind, read_TWCR;
    cbn [pending r_polls r_status r_data _twi_enabled _twi_address DDRC
         PORTC TWBR TWCR TWSR TWDR bus sent];
    rewrite truthy_land_flag.
  - rewrite Z.lor_spec. change (Z.testbit TWI_INTERRUPT_FLAG 7) with true.
    rewrite orb_true_r. reflexivity.
  - rewrite Z.land_spec. change (Z.testbit 127 7) with false.
    rewrite andb_false_r. cbn [negb]. apply IH. lia.
Qed.

(** The busy-wait when no event is under way and the flag is clear:
    however many polls are followed, the call is still spinning. *)
Lemma wait_forever polls :
  forall s, pending s = None -> Z.testbit (TWCR s) 7 = false ->
            wait_TWINT polls s = Hang s.
Proof.
  induction polls as [|polls IH]; intros s Hp Hc; cbn [wait_TWINT].
  - reflexivity.
  - unfold bind, read_TWCR. rewrite Hp, truthy_land_flag, Hc. cbn [negb].
    apply IH; assumption.
Qed.

Lemma status_after v r s :
  status (after_event v r s) = Done (masked r) (after_event v r s).
Proof. reflexivity. Qed.

Section Peripheral.

(** The number of polls that the busy-waits are followed for. *)
Variable patience : nat.

(** A store to the control register that starts a bus event, followed by
    the busy-wait: the call goes on once the peripheral has answered. *)
Lemma event_runs v {s r rest} :
  Z.testbit (wrap8 v) 7 = true ->
  bus s = r :: rest ->
  (r_polls r < patience)%nat ->
  (write_TWCR v >> wait_TWINT patience) s = Done tt (after_event v r s).
Proof.
  intros Hv Hbus Hlt. unfold bind, write_TWCR, modify. cbv zeta.
  rewrite Hv. replace (head (bus s)) with (Some r) by now rewrite Hbus.
  destruct r as [n st d].
  apply (wait_counts_down v {| r_polls := n; r_status := st; r_data := d |}
           s n patience Hlt).
Qed.

(** A control byte alone: start, wait, check. *)
Lemma control_runs {A} (v : Z) (expected : Z) (no yes : dev twi_state A)
    {s r rest} :
  Z.testbit (wrap8 v) 7 = true ->
  bus s = r :: rest ->
  (r_polls r < patience)%nat ->
  (write_TWCR v >>
   wait_TWINT patience >>
   let* st := status in
   if negb (st =? expected) then no else yes) s
  = (if masked r =? expected then yes else no) (after_event v r s).
Proof.
  intros Hv Hbus Hlt.
  pose proof (event_runs v Hv Hbus Hlt) as E.
  unfold bind at 1 in E. unfold bind at 1.
  destruct (write_TWCR v s) as [[] s1|s1|s1];
    [|discriminate E|discriminate E].
  step E. step (status_after v r s).
  destruct (masked r =? expected); reflexivity.
Qed.

(** A data byte: load, start, wait, check.  This is [twi_write_ch], and
    the first step of [twi_register]. *)
Lemma transmit_runs {A} (data : Z) (expected : Z) (no yes : dev twi_state A)
    {s r rest} :
  bus s = r :: rest ->
  (r_polls r < patience)%nat ->
  (write_TWDR data >>
   write_TWCR TWI_START_TRANSMISSION >>
   wait_TWINT patience >>
   let* st := status in
   if negb (st =? expected) then no else yes) s
  = (if masked r =? expected then yes else no)
      (after_event TWI_START_TRANSMISSION r (after_data data s)).
Proof.
  intros Hbus Hlt.
  step (eq_refl : write_TWDR data s = Done tt (after_data data s)).
  exact (control_runs TWI_START_TRANSMISSION expected no yes
           (s := after_data data s) eq_refl Hbus Hlt).
Qed.

(** On a bus that does not answer, [twi_open] never gets past its first
    busy-wait. *)
Lemma twi_open_hangs address s :
  bus s = [] -> exists s', twi_open patience address s = Hang s'.
Proof.
  intros Hbus. expose (twi_open patience address) twi_open.
  step (modify_runs (set_address address) s).
  unfold bind at 1. unfold write_TWCR, modify. cbv zeta.
  change (Z.testbit (wrap8 TWI_START_CONDITION) 7) with true. cbv iota.
  cbn [bus set_address]. rewrite Hbus. cbn [head tail].
  unfold bind at 1. rewrite wait_forever by reflexivity. eauto.
Qed.

(** ** Writing *)

Lemma twi_write_ch_runs data s r rest :
  bus s = r :: rest ->
  (r_polls r < patience)%nat ->
  twi_write_ch patience data s
  = Done (if masked r =? TWI_MT_DATA_ACK then 1 else 0)
      (after_event TWI_START_TRANSMISSION r (after_data data s)).
Proof.
  intros Hbus Hlt. expose (twi_write_ch patience data) twi_write_ch.
  rewrite (transmit_runs _ _ _ _ Hbus Hlt).
  destruct (masked r =? TWI_MT_DATA_ACK); reflexivity.
Qed.

(** While every byte is acknowledged, each pass of the loop transmits
    the byte at offset [ptr], and [ptr] stays where it is. *)
Lemma twi_write_str_loop_runs (data : list Z) (ptr : nat) (d : Z) :
  data !! ptr = Some d ->
  forall (k : nat) (rs rest : list response) (s : twi_state),
    bus s = rs ++ rest ->
    length rs = k ->
    Forall (fun r => (r_polls r < patience)%nat
                     /\ masked r = TWI_MT_DATA_ACK) rs ->
    exists s',
      twi_write_str_loop patience data ptr k s = Done 1 s'
      /\ sent s' = sent s
                   ++ concat (replicate k [WrTWDR (wrap8 d);
                                           WrTWCR TWI_START_TRANSMISSION])
      /\ bus s' = rest.
Proof.
  intros Hd. induction k as [|k IH]; intros rs rest s Hbus Hlen Hall.
  - destruct rs; [|discriminate Hlen]. exists s. cbn.
    rewrite app_nil_r. auto.
  - destruct rs as [|r rs]; [discriminate Hlen|].
    inversion Hall as [|? ? [Hlt Hack] Hall']; subst.
    cbn [twi_write_str_loop]. unfold load. rewrite Hd.
    assert (E0 : @ret twi_state Z d s = Done d s) by reflexivity.
    step E0.
    step (twi_write_ch_runs d s r (rs ++ rest) Hbus Hlt).
    rewrite Hack. change (TWI_MT_DATA_ACK =? TWI_MT_DATA_ACK) with true.
    change (negb (truthy 1)) with false. cbv iota.
    destruct (IH rs rest
                (after_event TWI_START_TRANSMISSION r (after_data d s)))
      as (s' & E & Hsent & Hrest).
    + cbn [after_event after_data bus]. now rewrite Hbus.
    + now injection Hlen.
    + exact Hall'.
    + exists s'. split; [exact E|]. split; [|exact Hrest].
      rewrite Hsent. cbn [after_event after_data sent replicate concat].
      rewrite <- !app_assoc. reflexivity.
Qed.


(** ** Reading *)

Lemma twi_register_runs reg {s r1 r2 r3 rest} :
  bus s = r1 :: r2 :: r3 :: rest ->
  (r_polls r1 < patience)%nat -> masked r1 = TWI_MT_DATA_ACK ->
  (r_polls r2 < patience)%nat -> masked r2 = TWI_REP_START ->
  (r_polls r3 < patience)%nat -> masked r3 = TWI_MR_SLA_ACK ->
  exists s',
    twi_register patience reg s = Done 1 s'
    /\ bus s' = rest
    /\ sent s' = sent s ++ [WrTWDR (wrap8 reg);
                            WrTWCR TWI_START_TRANSMISSION;
                            WrTWCR TWI_START_CONDITION;
                            WrTWDR (wrap8 (Z.lor (Z.shiftl (_twi_address s) 1) 0x01));
                            WrTWCR TWI_START_TRANSMISSION].
Proof.
  intros Hbus Hlt1 Hst1 Hlt2 Hst2 Hlt3 Hst3.
  expose (twi_register patience reg) twi_register.
  rewrite (transmit_runs _ _ _ _ Hbus Hlt1), Hst1.
  change (TWI_MT_DATA_ACK =? TWI_MT_DATA_ACK) with true. cbv iota.
  rewrite (control_runs TWI_START_CONDITION _ _ _
             (s := after_event _ r1 (after_data reg s))
             (r := r2) (rest := r3 :: rest) eq_refl);
    [| cbn [after_event after_data bus]; now rewrite Hbus | exact Hlt2].
  rewrite Hst2. change (TWI_REP_START =? TWI_REP_START) with true. cbv iota.
  step (gets_runs _twi_address
          (after_event TWI_START_CONDITION r2
             (after_event TWI_START_TRANSMISSION r1 (after_data reg s)))).
  rewrite (transmit_runs _ _ _ _ (r := r3) (rest := rest));
    [| cbn [after_event after_data bus]; now rewrite Hbus | exact Hlt3].
  rewrite Hst3. change (TWI_MR_SLA_ACK =? TWI_MR_SLA_ACK) with true. cbv iota.
  eexists. split; [reflexivity|]. split.
  - cbn [after_event after_data bus]. now rewrite Hbus.
  - cbn [after_event after_data sent _twi_address].
    rewrite <- !app_assoc. reflexivity.
Qed.

(** While the target sends and the statuses are the expected ones, the
    loop of [twi_read_str] and its last read store the bytes received at
    [ptr], [ptr + 1], ... and the call returns 1. *)
Lemma twi_read_str_loop_runs :
  forall (acks : list response) (ds : list Z) (k : nat) (data : list Z)
         (ptr : nat) (s : twi_state) (last : response) (d : Z)
         (rest : list response),
    bus s = acks ++ last :: rest ->
    length acks = k ->
    Forall2 (fun r b => (r_polls r < patience)%nat
                        /\ masked r = TWI_MR_DATA_ACK
                        /\ r_data r = Some b) acks ds ->
    (r_polls last < patience)%nat ->
    masked last = TWI_MR_DATA_NACK ->
    r_data last = Some d ->
    (ptr + k < length data)%nat ->
    exists s',
      twi_read_str_loop patience data ptr k s
      = Done (1, take ptr data ++ map wrap8 (ds ++ [d])
                 ++ drop (ptr + k + 1) data) s'
      /\ bus s' = rest.
Proof.
  induction acks as [|r acks IH];
    intros ds k data ptr s last d rest Hbus Hk Hall Hlt Hst Hd Hlen.
  - apply Forall2_nil_inv_l in Hall. subst ds k. cbn [length app] in *.
    cbn [twi_read_str_loop].
    rewrite (control_runs TWI_RETURN_NACK _ _ _ eq_refl Hbus Hlt), Hst.
    change (TWI_MR_DATA_NACK =? TWI_MR_DATA_NACK) with true. cbv iota.
    step (gets_runs TWDR (after_event TWI_RETURN_NACK last s)).
    cbn [TWDR after_event]. rewrite Hd. unfold store.
    replace (ptr <? length data)%nat with true
      by (symmetry; apply Nat.ltb_lt; lia).
    step (ret_runs (<[ptr := wrap8 (wrap8 d)]> data)
            (after_event TWI_RETURN_NACK last s)).
    exists (after_event TWI_RETURN_NACK last s).
    split; [|cbn [after_event bus]; now rewrite Hbus].
    unfold ret. do 2 f_equal.
    rewrite insert_take_drop by lia.
    rewrite wrap8_idem.
    replace (ptr + 0 + 1)%nat with (S ptr) by lia. reflexivity.
  - apply Forall2_cons_inv_l in Hall as (b & ds' & (Hltr & Hack & Hb) & Hall & ->).
    destruct k as [|k]; [discriminate Hk|]. injection Hk as Hk.
    cbn [twi_read_str_loop].
    rewrite (control_runs TWI_RETURN_ACK _ _ _
               (r := r) (rest := acks ++ last :: rest) eq_refl Hbus Hltr).
    rewrite Hack. change (TWI_MR_DATA_ACK =? TWI_MR_DATA_ACK) with true.
    cbv iota.
    step (gets_runs TWDR (after_event TWI_RETURN_ACK r s)).
    cbn [TWDR after_event]. rewrite Hb. unfold store.
    replace (ptr <? length data)%nat with true
      by (symmetry; apply Nat.ltb_lt; lia).
    step (ret_runs (<[ptr := wrap8 (wrap8 b)]> data)
            (after_event TWI_RETURN_ACK r s)).
    destruct (IH ds' k (<[ptr := wrap8 (wrap8 b)]> data) (S ptr)
                (after_event TWI_RETURN_ACK r s) last d rest)
      as (s' & E & Hrest); try assumption.
    + cbn [after_event bus]. now rewrite Hbus.
    + rewrite length_insert. lia.
    + exists s'. split; [|exact Hrest]. rewrite E. do 2 f_equal.
      rewrite drop_insert_lt by lia.
      rewrite (take_S_r _ _ (wrap8 (wrap8 b)))
        by (apply list_lookup_insert_eq; lia).
      rewrite take_insert_ge by lia.
      rewrite wrap8_idem.
      rewrite <- app_assoc.
      replace (S ptr + k + 1)%nat
        with (ptr + S k + 1)%nat by lia.
      reflexivity.
Qed.

(** When a status of [twi_read_str]'s own reads is not the expected one,
    the call returns 0; the bytes stored before that read stay in the
    buffer, and the rest of the buffer is as it was. *)
Lemma twi_read_str_loop_aborts :
  forall (acks : list response) (ds : list Z) (k : nat) (data : list Z)
         (ptr : nat) (s : twi_state) (bad : response)
         (rest : list response),
    bus s = acks ++ bad :: rest ->
    (length acks <= k)%nat ->
    Forall2 (fun r b => (r_polls r < patience)%nat
                        /\ masked r = TWI_MR_DATA_ACK
                        /\ r_data r = Some b) acks ds ->
    (r_polls bad < patience)%nat ->
    masked bad <> (if (length acks <? k)%nat
                   then TWI_MR_DATA_ACK else TWI_MR_DATA_NACK) ->
    (ptr + length acks <= length data)%nat ->
    exists s',
      twi_read_str_loop patience data ptr k s
      = Done (0, take ptr data ++ map wrap8 ds
                 ++ drop (ptr + length acks) data) s'
      /\ bus s' = rest.
Proof.
  induction acks as [|r acks IH];
    intros ds k data ptr s bad rest Hbus Hk Hall Hlt Hst Hlen.
  - apply Forall2_nil_inv_l in Hall. subst ds. cbn [length app map] in *.
    replace (ptr + 0)%nat with ptr by lia. rewrite take_drop.
    destruct k as [|k]; cbn [twi_read_str_loop].
    + rewrite (control_runs TWI_RETURN_NACK _ _ _ eq_refl Hbus Hlt).
      destruct (Z.eqb_spec (masked bad) TWI_MR_DATA_NACK) as [Heq|_];
        [contradiction|].
      eexists. split; [reflexivity|]. cbn [after_event bus].
      now rewrite Hbus.
    + rewrite (control_runs TWI_RETURN_ACK _ _ _ eq_refl Hbus Hlt).
      destruct (Z.eqb_spec (masked bad) TWI_MR_DATA_ACK) as [Heq|_];
        [contradiction|].
      eexists. split; [reflexivity|]. cbn [after_event bus].
      now rewrite Hbus.
  - apply Forall2_cons_inv_l in Hall as (b & ds' & (Hltr & Hack & Hb) & Hall & ->).
    cbn [length] in *. destruct k as [|k]; [lia|].
    cbn [twi_read_str_loop].
    rewrite (control_runs TWI_RETURN_ACK _ _ _
               (r := r) (rest := acks ++ bad :: rest) eq_refl Hbus Hltr).
    rewrite Hack. change (TWI_MR_DATA_ACK =? TWI_MR_DATA_ACK) with true.
    cbv iota.
    step (gets_runs TWDR (after_event TWI_RETURN_ACK r s)).
    cbn [TWDR after_event]. rewrite Hb. unfold store.
    replace (ptr <? length data)%nat with true
      by (symmetry; apply Nat.ltb_lt; lia).
    step (ret_runs (<[ptr := wrap8 (wrap8 b)]> data)
            (after_event TWI_RETURN_ACK r s)).
    destruct (IH ds' k (<[ptr := wrap8 (wrap8 b)]> data) (S ptr)
                (after_event TWI_RETURN_ACK r s) bad rest)
      as (s' & E & Hrest); try assumption.
    + cbn [after_event bus]. now rewrite Hbus.
    + lia.
    + rewrite length_insert. lia.
    + exists s'. split; [|exact Hrest]. rewrite E. do 2 f_equal.
      rewrite drop_insert_lt by lia.
      rewrite (take_S_r _ _ (wrap8 (wrap8 b)))
        by (apply list_lookup_insert_eq; lia).
      rewrite take_insert_ge by lia.
      rewrite wrap8_idem. cbn [map]. rewrite <- app_assoc.
      replace (S ptr + length acks)%nat
        with (ptr + S (length acks))%nat by lia.
      reflexivity.
Qed.

(** A read of [n >= 1] registers from a target that acknowledges the
    register pointer and its address, and sends [n] bytes: the call
    returns 1 and the first [n] bytes of the buffer are the bytes
    received, in order. *)
Lemma twi_read_str_fills (reg : Z) (data : list Z) (n : Z) (s : twi_state)
    (r1 r2 r3 : response) (acks : list response) (ds : list Z)
    (last : response) (d : Z) (rest : list response) :
  1 <= n ->
  bus s = r1 :: r2 :: r3 :: acks ++ last :: rest ->
  (r_polls r1 < patience)%nat -> masked r1 = TWI_MT_DATA_ACK ->
  (r_polls r2 < patience)%nat -> masked r2 = TWI_REP_START ->
  (r_polls r3 < patience)%nat -> masked r3 = TWI_MR_SLA_ACK ->
  length acks = Z.to_nat (n - 1) ->
  Forall2 (fun r b => (r_polls r < patience)%nat
                      /\ masked r = TWI_MR_DATA_ACK
                      /\ r_data r = Some b) acks ds ->
  (r_polls last < patience)%nat ->
  masked last = TWI_MR_DATA_NACK ->
  r_data last = Some d ->
  (Z.to_nat n <= length data)%nat ->
  exists s',
    twi_read_str patience reg data n s
    = Done (1, map wrap8 (ds ++ [d]) ++ drop (Z.to_nat n) data) s'
    /\ bus s' = rest.
Proof.
  intros Hn Hbus Hlt1 Hst1 Hlt2 Hst2 Hlt3 Hst3 Hk Hall Hlt Hst Hd Hlen.
  destruct (twi_register_runs reg Hbus Hlt1 Hst1 Hlt2 Hst2 Hlt3 Hst3)
    as (s1 & E1 & Hbus1 & _).
  expose (twi_read_str patience reg data n) twi_read_str.
  step E1. cbv zeta.
  destruct (twi_read_str_loop_runs acks ds (Z.to_nat (n - 1)) data 0 s1
              last d rest Hbus1 Hk Hall Hlt Hst Hd) as (s' & E & Hrest);
    [lia|].
  exists s'. split; [|exact Hrest]. rewrite E. cbn [take app].
  replace (0 + Z.to_nat (n - 1) + 1)%nat with (Z.to_nat n) by lia.
  reflexivity.
Qed.

End Peripheral.

(** Seven registers read from register 0, as the clock driver does. *)
Example twi_read_str_seven :
  returned
    (twi_read_str 4 0x00 [0; 0; 0; 0; 0; 0; 0] 7
       (twi_rest [answer 0x28; answer 0x10; answer 0x40;
                  answer_byte 0x50 0x11; answer_byte 0x50 0x12;
                  answer_byte 0x50 0x13; answer_byte 0x50 0x14;
                  answer_byte 0x50 0x15; answer_byte 0x50 0x16;
                  answer_byte 0x58 0x17]))
  = Some (1, [0x11; 0x12; 0x13; 0x14; 0x15; 0x16; 0x17]).
Proof. vm_compute. reflexivity. Qed.

(** ** What keeps the remembered address *)

Lemma keeps_bind {A B} (m : dev twi_state A) (k : A -> dev twi_state B) :
  keeps_address m -> (forall a, keeps_address (k a)) ->
  keeps_address (bind m k).
Proof.
  intros Hm Hk s. unfold bind. specialize (Hm s).
  destruct (m s) as [a s1|s1|s1]; cbn [final] in *; [|exact Hm|exact Hm].
  now rewrite Hk.
Qed.

Lemma keeps_ret {A} (a : A) : keeps_address (ret a).
Proof. intros s. reflexivity. Qed.

Lemma keeps_gets {A} (f : twi_state -> A) : keeps_address (gets f).
Proof. intros s. reflexivity. Qed.

Lemma keeps_if {A} (c : bool) (m1 m2 : dev twi_state A) :
  keeps_address m1 -> keeps_address m2 ->
  keeps_address (if c then m1 else m2).
Proof. destruct c; auto. Qed.

Lemma keeps_write_TWDR v : keeps_address (write_TWDR v).
Proof. intros s. reflexivity. Qed.

Lemma keeps_write_TWCR v : keeps_address (write_TWCR v).
Proof.
  intros s. unfold write_TWCR, modify. cbv zeta.
  destruct (Z.testbit (wrap8 v) 7); reflexivity.
Qed.

Lemma keeps_read_TWCR : keeps_address read_TWCR.
Proof.
  intros s. unfold read_TWCR.
  destruct (pending s) as [[[|n] st d]|]; reflexivity.
Qed.

Lemma keeps_wait_TWINT polls : keeps_address (wait_TWINT polls).
Proof.
  induction polls as [|polls IH]; cbn [wait_TWINT].
  - intros s. reflexivity.
  - apply keeps_bind; [apply keeps_read_TWCR|]. intros c.
    apply keeps_if; [exact IH | apply keeps_ret].
Qed.

Lemma keeps_status : keeps_address status.
Proof.
  unfold status. apply keeps_bind; [apply keeps_gets|].
  intros v. apply keeps_ret.
Qed.

Lemma keeps_apply {A} (m : dev twi_state A) s :
  keeps_address m -> _twi_address (final (m s)) = _twi_address s.
Proof. intros H. apply H. Qed.

Lemma twi_enable_when_enabled s :
  truthy (_twi_enabled s) = true -> twi_enable s = Done tt s.
Proof.
  intros H. expose twi_enable twi_enable.
  unfold bind at 1. unfold gets at 1. rewrite H. reflexivity.
Qed.

Lemma read_TWCR_returns s :
  exists c s',
    read_TWCR s = Done c s' /\ _twi_enabled s' = _twi_enabled s.
Proof.
  unfold read_TWCR.
  destruct (pending s) as [[[|n] st d]|]; eexists; eexists; split;
    reflexivity.
Qed.

Lemma write_TWCR_returns v s :
  exists s',
    write_TWCR v s = Done tt s' /\ _twi_enabled s' = _twi_enabled s.
Proof.
  unfold write_TWCR, modify. cbv zeta.
  destruct (Z.testbit (wrap8 v) 7); eexists; split; reflexivity.
Qed.

Lemma twi_enable_enables s :
  exists s', twi_enable s = Done tt s' /\ truthy (_twi_enabled s') = true.
Proof.
  destruct (truthy (_twi_enabled s)) eqn:H.
  - exists s. split; [apply twi_enable_when_enabled|]; exact H.
  - expose twi_enable twi_enable.
    step (gets_runs _twi_enabled s). rewrite H. cbv iota. run_pure.
    match goal with
    | |- context [bind read_TWCR _ ?t] =>
        destruct (read_TWCR_returns t) as (c & s1 & E1 & H1)
    end.
    step E1.
    destruct (write_TWCR_returns (Z.lor c TWI_ENABLE_MASK) s1)
      as (s2 & E2 & H2).
    exists s2. split; [exact E2|]. rewrite H2, H1. reflexivity.
Qed.


(** C7.  [twi_open] starts with a start condition.  When the status
    reported for it is not "start condition sent", the call returns 0 and
    has neither loaded nor transmitted the address byte.  Otherwise it
    loads the address with the write bit and transmits it, and returns 1
    exactly when the status reported then is "address+write
    acknowledged"; in both cases nothing more has been written to the
    peripheral. *)
Theorem twi_open_status (patience : nat) (address : Z) (s : twi_state) :
  (forall r1 rest,
      bus s = r1 :: rest -> (r_polls r1 < patience)%nat ->
      masked r1 <> TWI_START ->
      exists s',
        twi_open patience address s = Done 0 s'
        /\ sent s' = sent s ++ [WrTWCR TWI_START_CONDITION]
        /\ bus s' = rest)
  /\ (forall r1 r2 rest,
        bus s = r1 :: r2 :: rest ->
        (r_polls r1 < patience)%nat -> (r_polls r2 < patience)%nat ->
        masked r1 = TWI_START ->
        exists s',
          twi_open patience address s
          = Done (if masked r2 =? TWI_MT_SLA_ACK then 1 else 0) s'
          /\ sent s' = sent s ++ [WrTWCR TWI_START_CONDITION;
                                  WrTWDR (wrap8 (Z.shiftl address 1));
                                  WrTWCR TWI_START_TRANSMISSION]
          /\ bus s' = rest).
Proof.
  assert (E0 : modify (set_address address) s
               = Done tt (set_address address s)) by reflexivity.
  split.
  - intros r1 rest Hbus Hlt Hne.
    expose (twi_open patience address) twi_open. step E0.
    rewrite (control_runs patience TWI_START_CONDITION _ _ _
               (s := set_address address s) eq_refl Hbus Hlt).
    destruct (Z.eqb_spec (masked r1) TWI_START) as [Heq | _];
      [contradiction|].
    eexists. split; [reflexivity|]. split; [reflexivity|].
    cbn [after_event bus set_address]. now rewrite Hbus.
  - intros r1 r2 rest Hbus Hlt1 Hlt2 Heq.
    expose (twi_open patience address) twi_open. step E0.
    rewrite (control_runs patience TWI_START_CONDITION _ _ _
               (s := set_address address s) eq_refl Hbus Hlt1).
    rewrite Heq. change (TWI_START =? TWI_START) with true. cbv iota.
    unfold bind at 1. unfold gets at 1.
    cbn [_twi_address after_event set_address].
    rewrite (transmit_runs patience _ _ _ _ (r := r2) (rest := rest));
      [| cbn [after_event bus set_address]; now rewrite Hbus | exact Hlt2].
    eexists. split; [destruct (masked r2 =? TWI_MT_SLA_ACK); reflexivity|].
    split.
    + cbn [after_event after_data sent set_address].
      rewrite <- !app_assoc. reflexivity.
    + cbn [after_event after_data bus set_address]. now rewrite Hbus.
Qed.

Lemma twi_open_status_witness :
  (exists s',
      twi_open 4 0x68 (twi_rest [answer 0x00; answer 0x18]) = Done 0 s'
      /\ sent s' = [WrTWCR 0xA4]
      /\ bus s' = [answer 0x18])
  /\ (exists s',
        twi_open 4 0x68 (twi_rest [answer 0x08; answer 0x18]) = Done 1 s'
        /\ sent s' = [WrTWCR 0xA4; WrTWDR 0xD0; WrTWCR 0x84]
        /\ bus s' = []).
Proof.
  split.
  - refine (proj1 (twi_open_status 4 0x68
                     (twi_rest [answer 0x00; answer 0x18]))
              (answer 0x00) [answer 0x18] eq_refl _ _).
    + cbn. lia.
    + vm_compute. discriminate.
  - refine (proj2 (twi_open_status 4 0x68
                     (twi_rest [answer 0x08; answer 0x18]))
              (answer 0x08) (answer 0x18) [] eq_refl _ _ _).
    + cbn. lia.
    + cbn. lia.
    + reflexivity.
Defined.

(** C10.  [twi_open] stores its argument in [_twi_address] before it
    checks anything: however the call ends, with 1, with 0 at the first
    check, with 0 at the second, or hanging in a busy-wait, the state it
    ends in remembers the new address. *)
Theorem twi_open_remembers_address (patience : nat) (address : Z)
    (s : twi_state) :
  _twi_address (final (twi_open patience address s)) = address.
Proof.
  expose (twi_open patience address) twi_open.
  assert (E0 : modify (set_address address) s
               = Done tt (set_address address s)) by reflexivity.
  step E0.
  transitivity (_twi_address (set_address address s)); [|reflexivity].
  apply keeps_apply.
  repeat first
    [ apply keeps_bind | intros ? | apply keeps_if | apply keeps_ret
    | apply keeps_gets | apply keeps_status | apply keeps_write_TWCR
    | apply keeps_write_TWDR | apply keeps_wait_TWINT ].
Qed.

(** C8.  Two calls of [twi_enable] in a row leave the machine, with its
    enabled flag, port bits, bit-rate register and control register, in
    the state that one call leaves it in; [twi_disable] on a machine
    whose enabled flag is clear changes nothing. *)
Theorem twi_enable_idempotent (s : twi_state) :
  (twi_enable >> twi_enable) s = twi_enable s
  /\ (_twi_enabled s = 0 -> twi_disable s = Done tt s).
Proof.
  split.
  - destruct (twi_enable_enables s) as (s' & E & Hen).
    step E. rewrite E. apply twi_enable_when_enabled, Hen.
  - intros H. expose twi_disable twi_disable.
    unfold bind at 1. unfold gets at 1. rewrite H. reflexivity.
Qed.

Lemma twi_enable_idempotent_witness :
  (twi_enable >> twi_enable) twi_cold = twi_enable twi_cold
  /\ twi_disable twi_cold = Done tt twi_cold.
Proof.
  split.
  - exact (proj1 (twi_enable_idempotent twi_cold)).
  - exact (proj2 (twi_enable_idempotent twi_cold) eq_refl).
Defined.



(** C1.  [twi_read_ch] and [twi_read_str] drop the value returned by
    [twi_register].  After a successful [twi_open], on a target that does
    not acknowledge its address for reading, [twi_register] returns 0 at
    its third check, and both readers go on, take the byte that the last
    read leaves in the data register, store it and return 1.  The same
    happens when the write of the register pointer is not acknowledged. *)
Theorem twi_read_drops_register_failure :
  let nack_sla := twi_rest [answer 0x08; answer 0x18;
                            answer 0x28; answer 0x10; answer 0x48;
                            answer_byte 0x58 0xFF] in
  let nack_reg := twi_rest [answer 0x08; answer 0x18;
                            answer 0x30; answer_byte 0x58 0xFF] in
  returned ((twi_open 4 0x68 >> twi_register 4 0x00) nack_sla) = Some 0
  /\ returned ((twi_open 4 0x68 >> twi_read_ch 4 0x00 [0x11]) nack_sla)
     = Some (1, [0xFF])
  /\ returned ((twi_open 4 0x68 >> twi_read_str 4 0x00 [0x11] 1) nack_sla)
     = Some (1, [0xFF])
  /\ returned ((twi_open 4 0x68 >> twi_register 4 0x00) nack_reg) = Some 0
  /\ returned ((twi_open 4 0x68 >> twi_read_ch 4 0x00 [0x11]) nack_reg)
     = Some (1, [0xFF])
  /\ returned ((twi_open 4 0x68 >> twi_read_str 4 0x00 [0x11] 1) nack_reg)
     = Some (1, [0xFF]).
Proof. vm_compute. repeat split. Qed.

(** C2.  [twi_write_str] makes [n] calls of [twi_write_ch] while they
    succeed, and hands each of them [*ptr] with [ptr] never advanced:
    when all [n] bytes are acknowledged it returns 1 and has transmitted
    the first byte of [data] [n] times. *)
Theorem twi_write_str_repeats_first (patience : nat) (d : Z) (tl : list Z)
    (n : Z) (rs rest : list response) (s : twi_state) :
  bus s = rs ++ rest ->
  length rs = Z.to_nat n ->
  Forall (fun r => (r_polls r < patience)%nat
                   /\ masked r = TWI_MT_DATA_ACK) rs ->
  exists s',
    twi_write_str patience (d :: tl) n s = Done 1 s'
    /\ sent s' = sent s
                 ++ concat (replicate (Z.to_nat n)
                              [WrTWDR (wrap8 d);
                               WrTWCR TWI_START_TRANSMISSION])
    /\ bus s' = rest.
Proof.
  intros Hbus Hlen Hall.
  expose (twi_write_str patience (d :: tl) n) twi_write_str. cbv zeta.
  exact (twi_write_str_loop_runs patience (d :: tl) 0 d eq_refl
           (Z.to_nat n) rs rest s Hbus Hlen Hall).
Qed.

Lemma twi_write_str_repeats_first_witness :
  exists s',
    twi_write_str 4 [0x41; 0x42] 2 (twi_rest [answer 0x28; answer 0x28])
    = Done 1 s'
    /\ sent s' = [WrTWDR 0x41; WrTWCR 0x84; WrTWDR 0x41; WrTWCR 0x84]
    /\ bus s' = [].
Proof.
  refine (twi_write_str_repeats_first 4 0x41 [0x42] 2
            [answer 0x28; answer 0x28] []
            (twi_rest [answer 0x28; answer 0x28]) eq_refl eq_refl _).
  repeat constructor.
Defined.

(** * Further properties of the one-wire engine *)

(** ** Checking a property on all bytes *)

Lemma all_bytes_spec b : is_byte b -> b ∈ all_bytes.
Proof.
  intros [Hlo Hhi]. unfold all_bytes.
  apply list_elem_of_fmap. exists (Z.to_nat b). split; [lia|].
  apply elem_of_seq. lia.
Qed.

Lemma forall_byte (p : Z -> bool) :
  forallb p all_bytes = true -> forall b, is_byte b -> p b = true.
Proof.
  intros H b Hb. rewrite forallb_forall in H. apply H.
  apply list_elem_of_In, all_bytes_spec, Hb.
Qed.

Lemma forall_byte2 (p : Z -> Z -> bool) :
  forallb (fun a => forallb (p a) all_bytes) all_bytes = true ->
  forall a b, is_byte a -> is_byte b -> p a b = true.
Proof.
  intros H a b Ha Hb.
  apply (forall_byte (p a)); [|exact Hb].
  apply (forall_byte (fun a => forallb (p a) all_bytes)); assumption.
Qed.

Lemma is_byte_wrap8 v : is_byte (wrap8 v).
Proof. unfold is_byte, wrap8. apply Z.mod_pos_bound. lia. Qed.

(** ** The CRC *)

Lemma is_byte_owi_crc databyte crc : is_byte (owi_crc databyte crc).
Proof.
  unfold owi_crc. change 8%nat with (S 7). cbn [Nat.iter].
  destruct (Nat.iter 7 crc_step (databyte, crc)) as [d c].
  unfold crc_step. cbn [snd]. apply is_byte_wrap8.
Qed.

(** The CRC of a byte and a seed depends on the two through their
    exclusive or alone. *)
Lemma owi_crc_lxor d c :
  is_byte d -> is_byte c -> owi_crc d c = owi_crc (Z.lxor d c) 0.
Proof.
  intros Hd Hc.
  apply Z.eqb_eq.
  apply (forall_byte2 (fun d c => owi_crc d c =? owi_crc (Z.lxor d c) 0));
    [vm_compute; reflexivity | assumption | assumption].
Qed.

Lemma owi_crc_0_inj a b :
  is_byte a -> is_byte b -> owi_crc a 0 = owi_crc b 0 -> a = b.
Proof.
  intros Ha Hb H. apply Z.eqb_eq.
  pose proof (forall_byte2
                (fun a b => implb (owi_crc a 0 =? owi_crc b 0) (a =? b))
                ltac:(vm_compute; reflexivity) a b Ha Hb) as Hp.
  cbv beta in Hp. apply Z.eqb_eq in H. rewrite H in Hp. exact Hp.
Qed.

Lemma is_byte_lxor a b : is_byte a -> is_byte b -> is_byte (Z.lxor a b).
Proof.
  intros Ha Hb.
  pose proof (forall_byte2
                (fun a b => (0 <=? Z.lxor a b) && (Z.lxor a b <? 256))
                ltac:(vm_compute; reflexivity) a b Ha Hb) as Hp.
  cbv beta in Hp. apply andb_prop in Hp. destruct Hp as [H1 H2].
  unfold is_byte. lia.
Qed.

Lemma owi_crc_inj_data d1 d2 c :
  is_byte d1 -> is_byte d2 -> is_byte c ->
  owi_crc d1 c = owi_crc d2 c -> d1 = d2.
Proof.
  intros H1 H2 Hc H.
  rewrite (owi_crc_lxor d1 c), (owi_crc_lxor d2 c) in H by assumption.
  apply owi_crc_0_inj in H; [|apply is_byte_lxor; assumption ..].
  rewrite <- (Z.lxor_0_r d1), <- (Z.lxor_0_r d2).
  rewrite <- (Z.lxor_nilpotent c).
  rewrite <- !Z.lxor_assoc.
  rewrite H. reflexivity.
Qed.

Lemma owi_crc_inj_seed d c1 c2 :
  is_byte d -> is_byte c1 -> is_byte c2 ->
  owi_crc d c1 = owi_crc d c2 -> c1 = c2.
Proof.
  intros Hd H1 H2 H.
  rewrite (owi_crc_lxor d c1), (owi_crc_lxor d c2) in H by assumption.
  apply owi_crc_0_inj in H; [|apply is_byte_lxor; assumption ..].
  rewrite <- (Z.lxor_0_l c1), <- (Z.lxor_0_l c2).
  rewrite <- (Z.lxor_nilpotent d).
  rewrite !Z.lxor_assoc.
  rewrite H. reflexivity.
Qed.

Lemma owi_crc_self c : is_byte c -> owi_crc c c = 0.
Proof.
  intros Hc. rewrite owi_crc_lxor by assumption.
  rewrite Z.lxor_nilpotent. reflexivity.
Qed.

Lemma is_byte_crc_chain bytes :
  forall seed, is_byte seed -> is_byte (crc_chain seed bytes).
Proof.
  induction bytes as [|b bytes IH]; intros seed Hs; [exact Hs|].
  rewrite crc_chain_cons. apply IH, is_byte_owi_crc.
Qed.

Lemma crc_chain_app seed xs ys :
  crc_chain seed (xs ++ ys) = crc_chain (crc_chain seed xs) ys.
Proof. unfold crc_chain. apply fold_left_app. Qed.

Lemma crc_chain_inj_seed bytes :
  Forall is_byte bytes ->
  forall c1 c2, is_byte c1 -> is_byte c2 ->
                crc_chain c1 bytes = crc_chain c2 bytes -> c1 = c2.
Proof.
  induction 1 as [|b bytes Hb _ IH]; intros c1 c2 H1 H2 H; [exact H|].
  rewrite !crc_chain_cons in H.
  apply IH in H; [|apply is_byte_owi_crc ..].
  exact (owi_crc_inj_seed b c1 c2 Hb H1 H2 H).
Qed.

(** X1. A string of bytes followed by its own CRC has CRC 0, whatever
    the seed byte: for a byte [seed] and every list [bytes],
    chaining [owi_crc] over [bytes] and then over the value obtained so
    far gives 0.  This is the check a receiver makes over the eight bytes
    of a ROM code or the nine bytes of a scratchpad. *)
Theorem owi_crc_residue (seed : Z) (bytes : list Z) :
  is_byte seed ->
  crc_chain seed (bytes ++ [crc_chain seed bytes]) = 0.
Proof.
  intros Hs. rewrite crc_chain_app.
  unfold crc_chain at 1. cbn [fold_left].
  apply owi_crc_self, is_byte_crc_chain, Hs.
Qed.

Lemma owi_crc_residue_witness :
  is_byte 0
  /\ crc_chain 0 ([0x28; 0x6e; 0x38; 0xdd; 0x06; 0x00; 0x00]
                  ++ [crc_chain 0 [0x28; 0x6e; 0x38; 0xdd; 0x06; 0x00; 0x00]])
     = 0.
Proof.
  assert (H : is_byte 0) by (unfold is_byte; lia).
  split; [exact H | exact (owi_crc_residue 0 _ H)].
Defined.

(** X2. The CRC detects every corruption of a single byte: two strings of
    bytes that differ in exactly one position have different CRCs, from
    any seed byte. *)
Theorem owi_crc_detects_one_byte (seed : Z) (pre post : list Z) (b b' : Z) :
  is_byte seed -> is_byte b -> is_byte b' -> Forall is_byte post ->
  b <> b' ->
  crc_chain seed (pre ++ b :: post) <> crc_chain seed (pre ++ b' :: post).
Proof.
  intros Hs Hb Hb' Hpost Hne H.
  rewrite !crc_chain_app, !crc_chain_cons in H.
  pose proof (is_byte_crc_chain pre seed Hs) as Hc.
  apply (crc_chain_inj_seed post Hpost) in H; [|apply is_byte_owi_crc ..].
  apply owi_crc_inj_data in H; [|assumption ..].
  exact (Hne H).
Qed.

Lemma owi_crc_detects_one_byte_witness :
  crc_chain 0 ([0x28; 0x6e] ++ 0x38 :: [0xdd; 0x06; 0x00; 0x00])
  <> crc_chain 0 ([0x28; 0x6e] ++ 0x3a :: [0xdd; 0x06; 0x00; 0x00]).
Proof.
  apply (owi_crc_detects_one_byte 0 [0x28; 0x6e] [0xdd; 0x06; 0x00; 0x00]
           0x38 0x3a).
  - unfold is_byte; lia.
  - unfold is_byte; lia.
  - unfold is_byte; lia.
  - repeat constructor; unfold is_byte; lia.
  - discriminate.
Defined.

(** ** Time on the line *)

Lemma duration_app xs ys : duration (xs ++ ys) = duration xs + duration ys.
Proof.
  induction xs as [|[low us | pin] xs IH]; cbn [duration app fold_right] in *;
    [reflexivity | |]; unfold duration in *; cbn [fold_right app]; lia.
Qed.

Lemma samples_app xs ys : samples (xs ++ ys) = (samples xs + samples ys)%nat.
Proof.
  induction xs as [|[low us | pin] xs IH]; unfold samples in *;
    cbn [fold_right app]; lia.
Qed.

Lemma duration_write_slot b : duration (write_slot b) = 65.
Proof. destruct b; reflexivity. Qed.

Lemma samples_write_slot b : samples (write_slot b) = 0%nat.
Proof. destruct b; reflexivity. Qed.

Lemma duration_byte_slots data : duration (byte_slots data) = 520.
Proof.
  unfold byte_slots. cbn [flat_map].
  rewrite !duration_app, !duration_write_slot. reflexivity.
Qed.

Lemma samples_byte_slots data : samples (byte_slots data) = 0%nat.
Proof.
  unfold byte_slots. cbn [flat_map].
  rewrite !samples_app, !samples_write_slot. reflexivity.
Qed.

Lemma duration_read_slots f k n :
  duration (read_slots f k n) = 60 * Z.of_nat n.
Proof.
  unfold read_slots. generalize 0%nat as i.
  induction n as [|n IH]; intros i; [reflexivity|].
  cbn [seq flat_map]. rewrite duration_app, IH.
  unfold read_slot, duration. cbn [fold_right]. lia.
Qed.

Lemma samples_read_slots f k n : samples (read_slots f k n) = n.
Proof.
  unfold read_slots. generalize 0%nat as i.
  induction n as [|n IH]; intros i; [reflexivity|].
  cbn [seq flat_map]. rewrite samples_app, IH. reflexivity.
Qed.

(** ** Writing and reading a byte *)

(** X3. [owi_write_byte] returns for every byte and state; it puts on the
    line the eight write slots of the bits of the byte, least significant
    bit first, and nothing else.  It never samples the line, and the eight
    slots take 520 microseconds whatever the byte. *)
Theorem owi_write_byte_trace (data : Z) (s : owi_state) :
  exists s',
    owi_write_byte data s = Done tt s'
    /\ wire s' = wire s ++ byte_slots data
    /\ taken s' = taken s
    /\ duration (byte_slots data) = 520
    /\ samples (byte_slots data) = 0%nat.
Proof.
  destruct (owi_write_byte_runs data (facing_self s)) as (s' & E & _ & Hk & Hw).
  exists s'. repeat split; try assumption.
  - apply duration_byte_slots.
  - apply samples_byte_slots.
Qed.

Lemma testbit_byte_at f k j :
  (j < 8)%nat ->
  Z.testbit (byte_at f k) (Z.of_nat j) = Z.testbit (f (k + j)%nat) 0.
Proof.
  intros Hj. unfold byte_at, bit_at, level.
  do 8 (destruct j as [|j]; [rewrite ?Nat.add_0_r;
    destruct (Z.testbit (f k) 0), (Z.testbit (f (k + 1)%nat) 0),
      (Z.testbit (f (k + 2)%nat) 0), (Z.testbit (f (k + 3)%nat) 0),
      (Z.testbit (f (k + 4)%nat) 0), (Z.testbit (f (k + 5)%nat) 0),
      (Z.testbit (f (k + 6)%nat) 0), (Z.testbit (f (k + 7)%nat) 0);
    reflexivity|]).
  lia.
Qed.

(** X4. [owi_read_byte] returns for every state, after exactly eight read
    slots (480 microseconds, eight samples).  The value is a byte, and
    its bit [j] is the level of the line at the [j]-th of these samples:
    the byte is assembled least significant bit first. *)
Theorem owi_read_byte_assembles (s : owi_state) :
  exists v s',
    owi_read_byte s = Done v s'
    /\ is_byte v
    /\ (forall j, (j < 8)%nat ->
                  Z.testbit v (Z.of_nat j)
                  = Z.testbit (line_in s (taken s + j)%nat) 0)
    /\ wire s' = wire s ++ read_slots (line_in s) (taken s) 8
    /\ taken s' = (taken s + 8)%nat
    /\ duration (read_slots (line_in s) (taken s) 8) = 480
    /\ samples (read_slots (line_in s) (taken s) 8) = 8%nat.
Proof.
  destruct (owi_read_byte_runs (facing_self s)) as (s' & E & _ & Hk & Hw).
  exists (byte_at (line_in s) (taken s)), s'.
  split; [exact E|]. split; [apply byte_at_range|].
  split; [intros j Hj; apply testbit_byte_at, Hj|].
  split; [exact Hw|]. split; [exact Hk|].
  split; [apply duration_read_slots | apply samples_read_slots].
Qed.

(** X5. [owi_detect_presence] returns 1 exactly when the line is low at
    its one sample, 60 microseconds after the end of the 480 microsecond
    reset pulse; the whole slot takes 960 microseconds. *)
Theorem owi_detect_presence_level (s : owi_state) :
  let pin := line_in s (taken s) in
  exists s',
    owi_detect_presence s = Done (if Z.testbit pin 0 then 0 else 1) s'
    /\ wire s' = wire s ++ [Hold true 480; Hold false 60; Sample pin;
                            Hold false 420]
    /\ taken s' = S (taken s)
    /\ duration [Hold true 480; Hold false 60; Sample pin; Hold false 420]
       = 960.
Proof.
  intros pin.
  destruct (owi_detect_presence_runs (facing_self s)) as (s' & E & _ & Hk & Hw).
  exists s'. split; [|repeat split; assumption].
  rewrite E. f_equal. unfold bit_at, level. fold pin.
  destruct (Z.testbit pin 0); reflexivity.
Qed.

(** X6. [owi_is_busy] is one read slot with the result inverted: it
    returns 1 when the device holds the line low in the slot and 0 when
    the line is high, and leaves the machine as [owi_read_bit] does. *)
Theorem owi_is_busy_inverts (s : owi_state) :
  exists bit s',
    owi_read_bit s = Done bit s'
    /\ owi_is_busy s = Done (1 - bit) s'
    /\ bit = (if Z.testbit (line_in s (taken s)) 0 then 1 else 0).
Proof.
  destruct (owi_read_bit_runs (facing_self s)) as (s' & E & _).
  exists (bit_at (line_in s) (taken s)), s'.
  split; [exact E|]. split; [|reflexivity].
  expose owi_is_busy owi_is_busy. step E.
  destruct (bit_at_cases (line_in s) (taken s)) as [-> | ->]; reflexivity.
Qed.

(** ** Addressing a device *)

Lemma match_loop_runs {f : nat -> Z} (rom : list Z) (n : nat) :
  forall (i : nat) (s : owi_state) k w,
    (i <= length rom)%nat ->
    facing s f k w ->
    exists s',
      for_upto n i (fun i _ => let* b := load rom i in owi_write_byte b) tt s
      = (if (i + n <=? length rom)%nat then Done tt s' else Fault s')
      /\ facing s' f k (w ++ flat_map byte_slots (take n (drop i rom))).
Proof.
  induction n as [|n IH]; intros i s k w Hi H.
  - exists s. rewrite Nat.add_0_r.
    destruct (Nat.leb_spec i (length rom)); [|lia].
    split; [reflexivity|]. cbn [take flat_map]. rewrite app_nil_r. exact H.
  - cbn [for_upto].
    destruct (rom !! i) as [b|] eqn:Hb.
    + assert (Hlt : (i < length rom)%nat) by (eapply lookup_lt_Some; eauto).
      destruct (owi_write_byte_runs b H) as (s1 & E1 & H1).
      destruct (IH (S i) s1 k _ Hlt H1) as (s2 & E2 & H2).
      assert (E : (let* b := load rom i in owi_write_byte b) s = Done tt s1).
      { unfold bind, load. rewrite Hb. exact E1. }
      exists s2. split.
      * step E. rewrite E2.
        replace (i + S n)%nat with (S i + n)%nat by lia. reflexivity.
      * rewrite (drop_S _ _ _ Hb). cbn [take flat_map].
        rewrite app_assoc. exact H2.
    + assert (Hge : (length rom <= i)%nat) by (apply lookup_ge_None; exact Hb).
      exists s. split.
      * destruct (Nat.leb_spec (i + S n) (length rom)); [lia|].
        unfold bind, load. rewrite Hb. reflexivity.
      * rewrite drop_ge by lia. rewrite take_nil. cbn [flat_map].
        rewrite app_nil_r. exact H.
Qed.

Lemma owi_match_rom_runs {f : nat -> Z} (romcode_array : list Z)
    {s : owi_state} {k w} :
  facing s f k w ->
  exists s',
    owi_match_rom romcode_array s
    = (if (8 <=? length romcode_array)%nat then Done tt s' else Fault s')
    /\ facing s' f k (w ++ byte_slots OWI_MATCH_ROM
                        ++ flat_map byte_slots (take 8 romcode_array)).
Proof.
  intros H.
  destruct (owi_write_byte_runs OWI_MATCH_ROM H) as (s1 & E1 & H1).
  destruct (match_loop_runs romcode_array 8 0 s1 _ _ ltac:(lia) H1)
    as (s2 & E2 & H2).
  exists s2. split.
  - expose (owi_match_rom romcode_array) owi_match_rom. step E1.
    rewrite E2. reflexivity.
  - rewrite <- app_assoc in H2. exact H2.
Qed.

(** X7. [owi_match_rom] sends the command byte 0x55 and then the first
    eight bytes of the caller's array in order, each as eight write slots,
    and never samples the line.  An array shorter than eight bytes is read
    past its end, after the bytes it does have were sent. *)
Theorem owi_match_rom_trace (romcode_array : list Z) (s : owi_state) :
  exists s',
    owi_match_rom romcode_array s
    = (if (8 <=? length romcode_array)%nat then Done tt s' else Fault s')
    /\ wire s' = wire s ++ byte_slots 0x55
                 ++ flat_map byte_slots (take 8 romcode_array)
    /\ taken s' = taken s
    /\ duration (byte_slots 0x55
                 ++ flat_map byte_slots (take 8 romcode_array))
       = 520 * (1 + Z.of_nat (Nat.min 8 (length romcode_array))).
Proof.
  destruct (owi_match_rom_runs romcode_array (facing_self s))
    as (s' & E & _ & Hk & Hw).
  exists s'. split; [exact E|]. split; [exact Hw|]. split; [exact Hk|].
  rewrite duration_app, duration_byte_slots.
  rewrite <- (length_take romcode_array 8).
  assert (D : forall bs, duration (flat_map byte_slots bs)
                         = 520 * Z.of_nat (length bs)).
  { induction bs as [|b bs IH]; [reflexivity|].
    cbn [flat_map length]. rewrite duration_app, duration_byte_slots, IH.
    lia. }
  rewrite D. lia.
Qed.

(** ** The line is released after every call *)

Lemma settles_always {A} (m : dev owi_state A) : settles m -> always m.
Proof. intros H s. destruct (H s) as (a & s' & E & _). eauto. Qed.

Lemma quiet_always {A} (m : dev owi_state A) : quiet m -> always m.
Proof. intros H s. destruct (H s) as (a & s' & E & _). eauto. Qed.

Lemma settles_after {A B} (m : dev owi_state A) (k : A -> dev owi_state B) :
  always m -> (forall a, settles (k a)) -> settles (bind m k).
Proof.
  intros Hm Hk s. destruct (Hm s) as (a & s1 & E1).
  destruct (Hk a s1) as (b & s2 & E2 & H2).
  exists b, s2. split; [|exact H2]. unfold bind. rewrite E1. exact E2.
Qed.

Lemma settles_then {A B} (m : dev owi_state A) (k : A -> dev owi_state B) :
  settles m -> (forall a, quiet (k a)) -> settles (bind m k).
Proof.
  intros Hm Hk s. destruct (Hm s) as (a & s1 & E1 & H1).
  destruct (Hk a s1) as (b & s2 & E2 & H2).
  exists b, s2. split; [|congruence]. unfold bind. rewrite E1. exact E2.
Qed.

Lemma settles_either {A B} (m : dev owi_state A) (k : A -> dev owi_state B) :
  settles m -> (forall a, quiet (k a) \/ settles (k a)) -> settles (bind m k).
Proof.
  intros Hm Hk s. destruct (Hm s) as (a & s1 & E1 & H1).
  destruct (Hk a) as [Hq | Hs].
  - destruct (Hq s1) as (b & s2 & E2 & H2).
    exists b, s2. split; [|congruence]. unfold bind. rewrite E1. exact E2.
  - destruct (Hs s1) as (b & s2 & E2 & H2).
    exists b, s2. split; [|exact H2]. unfold bind. rewrite E1. exact E2.
Qed.

Lemma quiet_bind {A B} (m : dev owi_state A) (k : A -> dev owi_state B) :
  quiet m -> (forall a, quiet (k a)) -> quiet (bind m k).
Proof.
  intros Hm Hk s. destruct (Hm s) as (a & s1 & E1 & H1).
  destruct (Hk a s1) as (b & s2 & E2 & H2).
  exists b, s2. split; [|congruence]. unfold bind. rewrite E1. exact E2.
Qed.

Lemma quiet_ret {A} (a : A) : quiet (ret a).
Proof. intros s. exists a, s. split; reflexivity. Qed.

Lemma quiet_delay us : quiet (_delay_us us).
Proof. intros s. eexists tt, _. split; reflexivity. Qed.

Lemma quiet_read_PINB : quiet read_PINB.
Proof. intros s. eexists _, _. split; reflexivity. Qed.

Lemma always_pull_line : always pull_line.
Proof. intros s. eexists _, _. reflexivity. Qed.

Lemma settles_release_line : settles release_line.
Proof.
  intros s. eexists tt, _. split; [reflexivity|].
  unfold line_low. cbn [DDRB PORTB set_DDRB set_PORTB].
  apply high_after_release.
Qed.

Lemma settles_slot {A} us1 (k : dev owi_state A) :
  quiet k -> settles (pull_line >> _delay_us us1 >> release_line >> k).
Proof.
  intros Hk.
  apply settles_after; [apply always_pull_line|]. intros _.
  apply settles_after; [apply quiet_always, quiet_delay|]. intros _.
  apply settles_then; [apply settles_release_line|]. intros _. exact Hk.
Qed.

Lemma settles_owi_write_1 : settles owi_write_1.
Proof. apply settles_slot, quiet_delay. Qed.

Lemma settles_owi_write_0 : settles owi_write_0.
Proof. apply settles_slot, quiet_delay. Qed.

Lemma settles_owi_read_bit : settles owi_read_bit.
Proof.
  apply settles_slot.
  apply quiet_bind; [apply quiet_delay|]. intros _.
  apply quiet_bind; [apply quiet_read_PINB|]. intros pin.
  apply quiet_bind; [apply quiet_delay|]. intros _. apply quiet_ret.
Qed.

Lemma settles_owi_detect_presence : settles owi_detect_presence.
Proof.
  apply settles_slot.
  apply quiet_bind; [apply quiet_delay|]. intros _.
  apply quiet_bind; [apply quiet_read_PINB|]. intros pin.
  apply quiet_bind; [apply quiet_delay|]. intros _. apply quiet_ret.
Qed.

Lemma settles_for_mask_byte {A} (body : Z -> A -> dev owi_state A) acc :
  (forall mask a, settles (body mask a)) ->
  settles (for_mask 9 0x01 body acc).
Proof.
  intros Hb. rewrite for_mask_byte.
  do 7 (apply settles_after; [apply settles_always, Hb|]; intros ?).
  apply settles_then; [apply Hb|]. intros ?. apply quiet_ret.
Qed.

Lemma settles_if {A} (c : bool) (m1 m2 : dev owi_state A) :
  settles m1 -> settles m2 -> settles (if c then m1 else m2).
Proof. destruct c; auto. Qed.

Lemma settles_owi_write_byte data : settles (owi_write_byte data).
Proof.
  apply settles_for_mask_byte. intros mask _.
  apply settles_if; [apply settles_owi_write_1 | apply settles_owi_write_0].
Qed.

(** X8. No bus operation leaves the line driven low: from every state,
    [owi_read_bit], [owi_detect_presence], [owi_write_byte],
    [owi_read_byte], [owi_is_busy], [owi_skip_rom] and [owi_alarm_search]
    return, and the pin is released when they do. *)
Theorem owi_line_released :
  settles owi_read_bit
  /\ settles owi_detect_presence
  /\ (forall data, settles (owi_write_byte data))
  /\ settles owi_read_byte
  /\ settles owi_is_busy
  /\ settles owi_skip_rom
  /\ settles owi_alarm_search.
Proof.
  split; [apply settles_owi_read_bit|].
  split; [apply settles_owi_detect_presence|].
  split; [apply settles_owi_write_byte|].
  split.
  { apply settles_for_mask_byte. intros mask data.
    apply settles_then; [apply settles_owi_read_bit|].
    intros bit. apply quiet_ret. }
  split.
  { apply settles_then; [apply settles_owi_read_bit|].
    intros bit. apply quiet_ret. }
  split; [apply settles_owi_write_byte|].
  apply settles_either; [apply settles_owi_detect_presence|]. intros presence.
  destruct (negb (truthy presence)); [left; apply quiet_ret | right].
  apply settles_after; [apply settles_always, settles_owi_write_byte|].
  intros _.
  apply settles_after; [apply settles_always, settles_owi_read_bit|].
  intros first.
  apply settles_either; [apply settles_owi_read_bit|]. intros second.
  destruct (negb (truthy (Z.lxor first second)));
    [left; apply quiet_ret | right].
  apply settles_then; [|intros _; apply quiet_ret].
  apply settles_if; [apply settles_owi_write_1 | apply settles_owi_write_0].
Qed.

(** * Further properties of the two-wire engine *)

(** ** The stop condition *)

Lemma holds_bind {A B} (m : dev twi_state A) (k : A -> dev twi_state B) :
  holds_bus m -> (forall a, holds_bus (k a)) -> holds_bus (bind m k).
Proof.
  intros Hm Hk s. unfold bind. destruct (Hm s) as (e1 & E1 & F1).
  destruct (m s) as [a s1|s1|s1]; cbn [final] in E1;
    [|exists e1; split; assumption ..].
  destruct (Hk a s1) as (e2 & E2 & F2).
  exists (e1 ++ e2). split.
  - rewrite E2, E1, app_assoc. reflexivity.
  - apply Forall_app. split; assumption.
Qed.

Lemma holds_silent {A} (m : dev twi_state A) :
  (forall s, sent (final (m s)) = sent s) -> holds_bus m.
Proof.
  intros H s. exists []. rewrite app_nil_r. split; [apply H | constructor].
Qed.

Lemma holds_ret {A} (a : A) : holds_bus (ret a).
Proof. apply holds_silent. reflexivity. Qed.

Lemma holds_gets {A} (f : twi_state -> A) : holds_bus (gets f).
Proof. apply holds_silent. reflexivity. Qed.

Lemma holds_set_address v : holds_bus (modify (set_address v)).
Proof. apply holds_silent. reflexivity. Qed.

Lemma holds_if {A} (c : bool) (m1 m2 : dev twi_state A) :
  holds_bus m1 -> holds_bus m2 -> holds_bus (if c then m1 else m2).
Proof. destruct c; auto. Qed.

Lemma holds_write_TWDR v : holds_bus (write_TWDR v).
Proof.
  intros s. exists [WrTWDR (wrap8 v)]. split; [reflexivity|].
  repeat constructor.
Qed.

Lemma holds_write_TWCR v :
  Z.testbit (wrap8 v) 4 = false -> holds_bus (write_TWCR v).
Proof.
  intros Hv s. exists [WrTWCR (wrap8 v)]. split.
  - unfold write_TWCR, modify. cbv zeta.
    destruct (Z.testbit (wrap8 v) 7); reflexivity.
  - repeat constructor. exact Hv.
Qed.

Lemma holds_read_TWCR : holds_bus read_TWCR.
Proof.
  apply holds_silent. intros s. unfold read_TWCR.
  destruct (pending s) as [[[|n] st d]|]; reflexivity.
Qed.

Lemma holds_wait_TWINT polls : holds_bus (wait_TWINT polls).
Proof.
  induction polls as [|polls IH]; cbn [wait_TWINT].
  - apply holds_silent. reflexivity.
  - apply holds_bind; [apply holds_read_TWCR|]. intros c.
    apply holds_if; [exact IH | apply holds_ret].
Qed.

Lemma holds_status : holds_bus status.
Proof. apply holds_silent. reflexivity. Qed.

Lemma holds_store buf i v : holds_bus (store buf i v).
Proof.
  apply holds_silent. intros s. unfold store.
  destruct (i <? length buf)%nat; reflexivity.
Qed.

Lemma holds_load buf i : holds_bus (load buf i).
Proof.
  apply holds_silent. intros s. unfold load.
  destruct (buf !! i); reflexivity.
Qed.

Ltac holds_bus_steps :=
  repeat first
    [ apply holds_bind | intros ? | apply holds_if | apply holds_ret
    | apply holds_gets | apply holds_status | apply holds_set_address
    | apply holds_write_TWCR; reflexivity
    | apply holds_write_TWDR | apply holds_wait_TWINT
    | apply holds_store | apply holds_load ].

Section Stop.

Variable patience : nat.

Lemma holds_twi_write_ch data : holds_bus (twi_write_ch patience data).
Proof. unfold twi_write_ch. holds_bus_steps. Qed.

Lemma holds_twi_register reg : holds_bus (twi_register patience reg).
Proof. unfold twi_register. holds_bus_steps. Qed.

Lemma holds_twi_write_str_loop data ptr k :
  holds_bus (twi_write_str_loop patience data ptr k).
Proof.
  induction k as [|k IH]; cbn [twi_write_str_loop].
  - apply holds_ret.
  - apply holds_bind; [apply holds_load|]. intros ch.
    apply holds_bind; [apply holds_twi_write_ch|]. intros ok.
    apply holds_if; [apply holds_ret | exact IH].
Qed.

Lemma holds_twi_read_str_loop k :
  forall data ptr, holds_bus (twi_read_str_loop patience data ptr k).
Proof.
  induction k as [|k IH]; intros data ptr; cbn [twi_read_str_loop].
  - holds_bus_steps.
  - do 3 (apply holds_bind; [holds_bus_steps|]; intros ?).
    apply holds_if; [apply holds_ret|].
    do 2 (apply holds_bind; [holds_bus_steps|]; intros ?).
    apply IH.
Qed.

End Stop.

(** X9. Only [twi_close] gives the bus back.  [twi_open],
    [twi_write_ch], [twi_write_str], [twi_register], [twi_read_ch] and
    [twi_read_str] never write a control byte with the stop bit [TWSTO]
    set, whether they return 1, return 0 at a failed check, or stay in a
    busy-wait: after a failure the connection is still open.
    [twi_close] writes the stop condition and nothing else. *)
Theorem twi_only_close_stops (patience : nat) :
  (forall address, holds_bus (twi_open patience address))
  /\ (forall data, holds_bus (twi_write_ch patience data))
  /\ (forall data n, holds_bus (twi_write_str patience data n))
  /\ (forall reg, holds_bus (twi_register patience reg))
  /\ (forall reg data, holds_bus (twi_read_ch patience reg data))
  /\ (forall reg data n, holds_bus (twi_read_str patience reg data n))
  /\ (forall s, sent (final (twi_close s)) = sent s ++ [WrTWCR 0x94]
                /\ asks_stop (WrTWCR 0x94) = true).
Proof.
  split; [intros address; unfold twi_open; holds_bus_steps|].
  split; [apply holds_twi_write_ch|].
  split; [intros data n; apply holds_twi_write_str_loop|].
  split; [apply holds_twi_register|].
  split.
  { intros reg data. unfold twi_read_ch.
    apply holds_bind; [apply holds_twi_register|]. intros _.
    holds_bus_steps. }
  split.
  { intros reg data n. unfold twi_read_str.
    apply holds_bind; [apply holds_twi_register|]. intros _.
    apply holds_twi_read_str_loop. }
  intros s. split; reflexivity.
Qed.

(** ** Busy-waits *)

Section Waiting.

Variable patience : nat.

Lemma control_hangs {A} v (k : dev twi_state A) s :
  Z.testbit (wrap8 v) 7 = true ->
  bus s = [] ->
  exists s',
    (write_TWCR v >> wait_TWINT patience >> k) s = Hang s'
    /\ sent s' = sent s ++ [WrTWCR (wrap8 v)].
Proof.
  intros Hv Hbus. unfold bind at 1. unfold write_TWCR, modify. cbv zeta.
  rewrite Hv, Hbus. cbn [head tail].
  unfold bind at 1. rewrite wait_forever.
  - eexists. split; reflexivity.
  - reflexivity.
  - cbn [TWCR]. rewrite Z.land_spec.
    change (Z.testbit 0x7F 7) with false. apply andb_false_r.
Qed.

Lemma transmit_hangs {A} data (k : dev twi_state A) s :
  bus s = [] ->
  exists s',
    (write_TWDR data >> write_TWCR TWI_START_TRANSMISSION >>
     wait_TWINT patience >> k) s = Hang s'
    /\ sent s' = sent s ++ [WrTWDR (wrap8 data);
                            WrTWCR TWI_START_TRANSMISSION].
Proof.
  intros Hbus.
  assert (E : write_TWDR data s = Done tt (after_data data s)) by reflexivity.
  step E.
  destruct (control_hangs TWI_START_TRANSMISSION k (after_data data s)
              eq_refl Hbus) as (s' & E' & H').
  exists s'. split; [exact E'|]. rewrite H'. cbn [sent after_data].
  rewrite <- app_assoc. reflexivity.
Qed.

End Waiting.

(** X10. The driver has no timeout.  When the peripheral never raises
    [TWINT] again, [twi_open], [twi_write_ch] and [twi_read_ch] are still
    in the busy-wait of their first bus event after any number of polls;
    they have written the bytes that start that event and nothing more. *)
Theorem twi_no_timeout (patience : nat) (s : twi_state) :
  bus s = [] ->
  (forall address,
      exists s', twi_open patience address s = Hang s'
                 /\ sent s' = sent s ++ [WrTWCR 0xA4])
  /\ (forall data,
        exists s', twi_write_ch patience data s = Hang s'
                   /\ sent s' = sent s ++ [WrTWDR (wrap8 data); WrTWCR 0x84])
  /\ (forall reg data,
        exists s', twi_read_ch patience reg data s = Hang s'
                   /\ sent s' = sent s ++ [WrTWDR (wrap8 reg); WrTWCR 0x84]).
Proof.
  intros Hbus. split; [|split].
  - intros address. expose (twi_open patience address) twi_open.
    step (modify_runs (set_address address) s).
    apply (control_hangs patience TWI_START_CONDITION _
             (set_address address s) eq_refl Hbus).
  - intros data. expose (twi_write_ch patience data) twi_write_ch.
    apply (transmit_hangs patience data _ s Hbus).
  - intros reg data. expose (twi_read_ch patience reg data) twi_read_ch.
    unfold bind at 1. expose (twi_register patience reg) twi_register.
    destruct (transmit_hangs patience reg
                (let* st := status in
                 if negb (st =? TWI_MT_DATA_ACK) then ret 0 else
                 write_TWCR TWI_START_CONDITION >>
                 wait_TWINT patience >>
                 let* st := status in
                 if negb (st =? TWI_REP_START) then ret 0 else
                 let* a := gets _twi_address in
                 write_TWDR (Z.lor (Z.shiftl a 1) 0x01) >>
                 write_TWCR TWI_START_TRANSMISSION >>
                 wait_TWINT patience >>
                 let* st := status in
                 if negb (st =? TWI_MR_SLA_ACK) then ret 0 else
                 ret 1) s Hbus) as (s' & E & H).
    exists s'. rewrite E. split; [reflexivity | exact H].
Qed.

Lemma twi_no_timeout_witness :
  (forall address,
      exists s', twi_open 1000 address (twi_rest []) = Hang s'
                 /\ sent s' = sent (twi_rest []) ++ [WrTWCR 0xA4])
  /\ (forall data,
        exists s', twi_write_ch 1000 data (twi_rest []) = Hang s'
                   /\ sent s' = sent (twi_rest [])
                                ++ [WrTWDR (wrap8 data); WrTWCR 0x84])
  /\ (forall reg data,
        exists s', twi_read_ch 1000 reg data (twi_rest []) = Hang s'
                   /\ sent s' = sent (twi_rest [])
                                ++ [WrTWDR (wrap8 reg); WrTWCR 0x84]).
Proof. apply (twi_no_timeout 1000 (twi_rest [])). reflexivity. Defined.

(** ** Calls in sequence *)

Lemma talking_self s : talking s (bus s) (sent s) (_twi_address s).
Proof. repeat split. Qed.

Lemma talking_from s rs :
  bus s = rs -> talking s rs (sent s) (_twi_address s).
Proof. intros H. repeat split. exact H. Qed.

Section Sequence.

Variable patience : nat.

Lemma twi_open_goes address {s r1 r2 rest w a} :
  talking s (r1 :: r2 :: rest) w a ->
  prompt patience r1 -> masked r1 = TWI_START -> prompt patience r2 ->
  exists s',
    twi_open patience address s
    = Done (if masked r2 =? TWI_MT_SLA_ACK then 1 else 0) s'
    /\ talking s' rest
         (w ++ [WrTWCR TWI_START_CONDITION;
                WrTWDR (wrap8 (Z.shiftl address 1));
                WrTWCR TWI_START_TRANSMISSION]) address.
Proof.
  intros (Hbus & Hw & _) Hlt1 Heq Hlt2.
  expose (twi_open patience address) twi_open.
  step (modify_runs (set_address address) s).
  rewrite (control_runs patience TWI_START_CONDITION _ _ _
             (s := set_address address s) eq_refl Hbus Hlt1).
  rewrite Heq. change (TWI_START =? TWI_START) with true. cbv iota.
  unfold bind at 1. unfold gets at 1.
  cbn [_twi_address after_event set_address].
  rewrite (transmit_runs patience _ _ _ _ (r := r2) (rest := rest));
    [| cbn [after_event bus set_address]; now rewrite Hbus | exact Hlt2].
  eexists. split; [destruct (masked r2 =? TWI_MT_SLA_ACK); reflexivity|].
  split; [|split].
  - cbn [after_event after_data bus set_address]. now rewrite Hbus.
  - cbn [after_event after_data sent set_address].
    rewrite Hw, <- !app_assoc. reflexivity.
  - reflexivity.
Qed.

Lemma twi_write_ch_goes data {s r rest w a} :
  talking s (r :: rest) w a ->
  prompt patience r ->
  exists s',
    twi_write_ch patience data s
    = Done (if masked r =? TWI_MT_DATA_ACK then 1 else 0) s'
    /\ talking s' rest
         (w ++ [WrTWDR (wrap8 data); WrTWCR TWI_START_TRANSMISSION]) a.
Proof.
  intros (Hbus & Hw & Ha) Hlt.
  eexists. split; [apply (twi_write_ch_runs patience data s r rest Hbus Hlt)|].
  split; [|split].
  - cbn [after_event after_data bus]. now rewrite Hbus.
  - cbn [after_event after_data sent]. rewrite Hw, <- !app_assoc.
    reflexivity.
  - exact Ha.
Qed.

Lemma twi_register_goes reg {s r1 r2 r3 rest w a} :
  talking s (r1 :: r2 :: r3 :: rest) w a ->
  prompt patience r1 -> masked r1 = TWI_MT_DATA_ACK ->
  prompt patience r2 -> masked r2 = TWI_REP_START ->
  prompt patience r3 ->
  exists s',
    twi_register patience reg s
    = Done (if masked r3 =? TWI_MR_SLA_ACK then 1 else 0) s'
    /\ talking s' rest
         (w ++ [WrTWDR (wrap8 reg);
                WrTWCR TWI_START_TRANSMISSION;
                WrTWCR TWI_START_CONDITION;
                WrTWDR (wrap8 (Z.lor (Z.shiftl a 1) 0x01));
                WrTWCR TWI_START_TRANSMISSION]) a.
Proof.
  intros (Hbus & Hw & Ha) Hlt1 Hst1 Hlt2 Hst2 Hlt3.
  expose (twi_register patience reg) twi_register.
  rewrite (transmit_runs patience _ _ _ _ Hbus Hlt1), Hst1.
  change (TWI_MT_DATA_ACK =? TWI_MT_DATA_ACK) with true. cbv iota.
  rewrite (control_runs patience TWI_START_CONDITION _ _ _
             (s := after_event _ r1 (after_data reg s))
             (r := r2) (rest := r3 :: rest) eq_refl);
    [| cbn [after_event after_data bus]; now rewrite Hbus | exact Hlt2].
  rewrite Hst2. change (TWI_REP_START =? TWI_REP_START) with true. cbv iota.
  step (gets_runs _twi_address
          (after_event TWI_START_CONDITION r2
             (after_event TWI_START_TRANSMISSION r1 (after_data reg s)))).
  rewrite (transmit_runs patience _ _ _ _ (r := r3) (rest := rest));
    [| cbn [after_event after_data bus]; now rewrite Hbus | exact Hlt3].
  eexists. split; [destruct (masked r3 =? TWI_MR_SLA_ACK); reflexivity|].
  split; [|split].
  - cbn [after_event after_data bus]. now rewrite Hbus.
  - cbn [after_event after_data sent _twi_address].
    rewrite Hw, Ha, <- !app_assoc. reflexivity.
  - cbn [after_event after_data _twi_address]. exact Ha.
Qed.

Lemma twi_close_goes {s rs w a} :
  talking s rs w a ->
  exists s',
    twi_close s = Done tt s'
    /\ talking s' (tail rs) (w ++ [WrTWCR TWI_STOP_CONDITION]) a.
Proof.
  intros (Hbus & Hw & Ha). eexists. split; [reflexivity|].
  cbn. rewrite Hbus, Hw, Ha. repeat split.
Qed.

Lemma twi_close_returns s : exists s', twi_close s = Done tt s'.
Proof. eexists. reflexivity. Qed.

Lemma twi_write_str_loop_stops (data : list Z) (ptr : nat) (d : Z) :
  data !! ptr = Some d ->
  forall (acks : list response) (k : nat) (bad : response)
         (rest : list response) (s : twi_state),
    bus s = acks ++ bad :: rest ->
    (length acks < k)%nat ->
    Forall (fun r => prompt patience r /\ masked r = TWI_MT_DATA_ACK) acks ->
    prompt patience bad -> masked bad <> TWI_MT_DATA_ACK ->
    exists s',
      twi_write_str_loop patience data ptr k s = Done 0 s'
      /\ sent s' = sent s
                   ++ concat (replicate (S (length acks))
                                [WrTWDR (wrap8 d);
                                 WrTWCR TWI_START_TRANSMISSION])
      /\ bus s' = rest.
Proof.
  intros Hd. induction acks as [|r acks IH];
    intros k bad rest s Hbus Hk Hall Hlt Hbad;
    (destruct k as [|k]; [cbn in Hk; lia|]);
    cbn [twi_write_str_loop]; unfold load; rewrite Hd.
  - step (ret_runs (St := twi_state) d s).
    step (twi_write_ch_runs patience d s bad rest Hbus Hlt).
    destruct (Z.eqb_spec (masked bad) TWI_MT_DATA_ACK); [contradiction|].
    eexists. split; [reflexivity|]. split.
    + cbn [after_event after_data sent length replicate concat].
      rewrite <- !app_assoc. reflexivity.
    + cbn [after_event after_data bus]. now rewrite Hbus.
  - inversion Hall as [|? ? [Hlt1 Hack] Hall']; subst.
    step (ret_runs (St := twi_state) d s).
    step (twi_write_ch_runs patience d s r (acks ++ bad :: rest) Hbus Hlt1).
    rewrite Hack. change (TWI_MT_DATA_ACK =? TWI_MT_DATA_ACK) with true.
    change (negb (truthy 1)) with false. cbv iota.
    destruct (IH k bad rest
                (after_event TWI_START_TRANSMISSION r (after_data d s)))
      as (s' & E & Hsent & Hrest).
    + cbn [after_event after_data bus]. now rewrite Hbus.
    + cbn [length] in Hk. lia.
    + exact Hall'.
    + exact Hlt.
    + exact Hbad.
    + exists s'. split; [exact E|]. split; [|exact Hrest].
      rewrite Hsent. cbn [after_event after_data sent length replicate concat].
      rewrite <- !app_assoc. reflexivity.
Qed.

End Sequence.

(** X11. [twi_write_str] stops at the first byte that is not
    acknowledged: when the target acknowledges [length acks] bytes, fewer
    than [n], and answers the next with another status, the call returns
    0 after [length acks + 1] transmissions and leaves the rest of the
    bus traffic to the caller. *)
Theorem twi_write_str_stops (patience : nat) (d : Z) (tl : list Z) (n : Z)
    (acks : list response) (bad : response) (rest : list response)
    (s : twi_state) :
  bus s = acks ++ bad :: rest ->
  (length acks < Z.to_nat n)%nat ->
  Forall (fun r => prompt patience r /\ masked r = TWI_MT_DATA_ACK) acks ->
  prompt patience bad ->
  masked bad <> TWI_MT_DATA_ACK ->
  exists s',
    twi_write_str patience (d :: tl) n s = Done 0 s'
    /\ sent s' = sent s
                 ++ concat (replicate (S (length acks))
                              [WrTWDR (wrap8 d); WrTWCR 0x84])
    /\ bus s' = rest.
Proof.
  intros Hbus Hk Hall Hlt Hbad.
  exact (twi_write_str_loop_stops patience (d :: tl) 0 d eq_refl
           acks (Z.to_nat n) bad rest s Hbus Hk Hall Hlt Hbad).
Qed.

Lemma twi_write_str_stops_witness :
  exists s',
    twi_write_str 4 [0x41; 0x42; 0x43] 3
      (twi_rest [answer 0x28; answer 0x30; answer 0x28]) = Done 0 s'
    /\ sent s' = sent (twi_rest [answer 0x28; answer 0x30; answer 0x28])
                 ++ concat (replicate 2 [WrTWDR (wrap8 0x41); WrTWCR 0x84])
    /\ bus s' = [answer 0x28].
Proof.
  apply (twi_write_str_stops 4 0x41 [0x42; 0x43] 3 [answer 0x28]
           (answer 0x30) [answer 0x28]).
  - reflexivity.
  - cbn. lia.
  - repeat constructor.
  - unfold prompt. cbn. lia.
  - vm_compute. discriminate.
Defined.

(** X12. The edges of [twi_write_str]: a count [n <= 0] makes no pass
    of the loop, so the call returns 1 at once and touches neither the
    buffer nor the peripheral, even with an empty buffer; with a count
    [n >= 1] the first pass reads the first byte of the buffer, past the
    end of an empty one, before anything is written. *)
Theorem twi_write_str_edges (patience : nat) (data : list Z) (n : Z)
    (s : twi_state) :
  (n <= 0 -> twi_write_str patience data n s = Done 1 s)
  /\ (1 <= n -> data = [] -> twi_write_str patience data n s = Fault s).
Proof.
  unfold twi_write_str. split.
  - intros Hn. replace (Z.to_nat n) with 0%nat by lia. reflexivity.
  - intros Hn ->. destruct (Z.to_nat n) as [|k] eqn:Hk; [lia|]. reflexivity.
Qed.

Lemma twi_write_str_edges_witness :
  twi_write_str 4 [] 0 twi_cold = Done 1 twi_cold
  /\ twi_write_str 4 [] 1 twi_cold = Fault twi_cold.
Proof.
  split.
  - apply (proj1 (twi_write_str_edges 4 [] 0 twi_cold)). lia.
  - apply (proj2 (twi_write_str_edges 4 [] 1 twi_cold)); [lia | reflexivity].
Defined.

(** X13. The read address is the address given to [twi_open].  After a
    [twi_open address] that found the bus free, [twi_register reg] sends
    the register number, a repeated start and then the byte
    [(address << 1) | 1], and the two calls never write anything else;
    the result of [twi_register] is 1 exactly when that byte is
    acknowledged with "address+read acknowledged". *)
Theorem twi_open_then_register (patience : nat) (address reg : Z)
    (s : twi_state) (r1 r2 r3 r4 r5 : response) (rest : list response) :
  bus s = r1 :: r2 :: r3 :: r4 :: r5 :: rest ->
  prompt patience r1 -> masked r1 = TWI_START ->
  prompt patience r2 ->
  prompt patience r3 -> masked r3 = TWI_MT_DATA_ACK ->
  prompt patience r4 -> masked r4 = TWI_REP_START ->
  prompt patience r5 ->
  exists s',
    (twi_open patience address >> twi_register patience reg) s
    = Done (if masked r5 =? TWI_MR_SLA_ACK then 1 else 0) s'
    /\ sent s' = sent s ++ [WrTWCR 0xA4;
                            WrTWDR (wrap8 (Z.shiftl address 1));
                            WrTWCR 0x84;
                            WrTWDR (wrap8 reg);
                            WrTWCR 0x84;
                            WrTWCR 0xA4;
                            WrTWDR (wrap8 (Z.lor (Z.shiftl address 1) 0x01));
                            WrTWCR 0x84]
    /\ bus s' = rest.
Proof.
  intros Hbus H1 E1 H2 H3 E3 H4 E4 H5.
  assert (H0 : talking s (r1 :: r2 :: r3 :: r4 :: r5 :: rest) (sent s)
                 (_twi_address s)) by (repeat split; exact Hbus).
  destruct (twi_open_goes patience address H0 H1 E1 H2) as (s1 & R1 & T1).
  destruct (twi_register_goes patience reg T1 H3 E3 H4 E4 H5)
    as (s2 & R2 & Hb & Hw & _).
  exists s2. split; [|split; [|exact Hb]].
  - step R1. exact R2.
  - rewrite Hw, <- app_assoc. reflexivity.
Qed.

Lemma twi_open_then_register_witness :
  exists s',
    (twi_open 4 0x68 >> twi_register 4 0x02)
      (twi_rest [answer 0x08; answer 0x18; answer 0x28; answer 0x10;
                 answer 0x40])
    = Done 1 s'
    /\ sent s' = [] ++ [WrTWCR 0xA4; WrTWDR 0xD0; WrTWCR 0x84;
                        WrTWDR 0x02; WrTWCR 0x84; WrTWCR 0xA4;
                        WrTWDR 0xD1; WrTWCR 0x84]
    /\ bus s' = [].
Proof.
  apply (twi_open_then_register 4 0x68 0x02
           (twi_rest [answer 0x08; answer 0x18; answer 0x28; answer 0x10;
                      answer 0x40])
           (answer 0x08) (answer 0x18) (answer 0x28) (answer 0x10)
           (answer 0x40) []);
    first [reflexivity | unfold prompt; cbn; lia].
Defined.

(** ** Reading several registers *)

(** X14. [twi_read_str] with [n >= 1] on a target that acknowledges the
    register pointer and the read address and sends [n] bytes: the call
    returns 1, the first [n] bytes of the buffer are the bytes received,
    in the order received, and the bytes of the buffer after them are
    left as they were. *)
Theorem twi_read_str_receives (patience : nat) (reg : Z) (data : list Z)
    (n : Z) (s : twi_state) (r1 r2 r3 : response) (acks : list response)
    (ds : list Z) (last : response) (d : Z) (rest : list response) :
  1 <= n ->
  (Z.to_nat n <= length data)%nat ->
  bus s = r1 :: r2 :: r3 :: acks ++ last :: rest ->
  prompt patience r1 -> masked r1 = TWI_MT_DATA_ACK ->
  prompt patience r2 -> masked r2 = TWI_REP_START ->
  prompt patience r3 -> masked r3 = TWI_MR_SLA_ACK ->
  length acks = Z.to_nat (n - 1) ->
  delivers patience acks ds ->
  prompt patience last ->
  masked last = TWI_MR_DATA_NACK ->
  r_data last = Some d ->
  exists buf s',
    twi_read_str patience reg data n s = Done (1, buf) s'
    /\ take (Z.to_nat n) buf = map wrap8 (ds ++ [d])
    /\ drop (Z.to_nat n) buf = drop (Z.to_nat n) data
    /\ length buf = length data
    /\ bus s' = rest.
Proof.
  intros Hn Hlen Hbus H1 E1 H2 E2 H3 E3 Hk Hall Hl El Hd.
  destruct (twi_read_str_fills patience reg data n s r1 r2 r3 acks ds last d
              rest Hn Hbus H1 E1 H2 E2 H3 E3 Hk Hall Hl El Hd Hlen)
    as (s' & E & Hrest).
  assert (Hds : length (map wrap8 (ds ++ [d])) = Z.to_nat n).
  { rewrite length_map, length_app. cbn [length].
    rewrite <- (Forall2_length _ _ _ Hall), Hk. lia. }
  eexists _, s'. split; [exact E|]. split; [|split; [|split; [|exact Hrest]]].
  - rewrite take_app_length'; [reflexivity | symmetry; exact Hds].
  - rewrite drop_app_length'; [reflexivity | symmetry; exact Hds].
  - rewrite length_app, Hds, length_drop. lia.
Qed.

Lemma twi_read_str_receives_witness :
  exists buf s',
    twi_read_str 4 0x00 [0; 0; 0; 9] 3
      (twi_rest [answer 0x28; answer 0x10; answer 0x40;
                 answer_byte 0x50 0x11; answer_byte 0x50 0x12;
                 answer_byte 0x58 0x13])
    = Done (1, buf) s'
    /\ take 3 buf = map wrap8 ([0x11; 0x12] ++ [0x13])
    /\ drop 3 buf = drop 3 [0; 0; 0; 9]
    /\ length buf = 4%nat
    /\ bus s' = [].
Proof.
  apply (twi_read_str_receives 4 0x00 [0; 0; 0; 9] 3
           (twi_rest [answer 0x28; answer 0x10; answer 0x40;
                      answer_byte 0x50 0x11; answer_byte 0x50 0x12;
                      answer_byte 0x58 0x13])
           (answer 0x28) (answer 0x10) (answer 0x40)
           [answer_byte 0x50 0x11; answer_byte 0x50 0x12] [0x11; 0x12]
           (answer_byte 0x58 0x13) 0x13 []);
    first [ reflexivity | lia | unfold prompt; cbn; lia | cbn; lia
          | solve [repeat constructor] ].
Defined.

Lemma twi_read_str_aborts (patience : nat) (reg : Z)
    (data : list Z) (n : Z) (s : twi_state) (r1 r2 r3 : response)
    (acks : list response) (ds : list Z) (bad : response)
    (rest : list response) :
  1 <= n ->
  (Z.to_nat n <= length data)%nat ->
  bus s = r1 :: r2 :: r3 :: acks ++ bad :: rest ->
  prompt patience r1 -> masked r1 = TWI_MT_DATA_ACK ->
  prompt patience r2 -> masked r2 = TWI_REP_START ->
  prompt patience r3 -> masked r3 = TWI_MR_SLA_ACK ->
  (length acks < Z.to_nat n)%nat ->
  delivers patience acks ds ->
  prompt patience bad ->
  masked bad <> (if (length acks <? Z.to_nat (n - 1))%nat
                 then TWI_MR_DATA_ACK else TWI_MR_DATA_NACK) ->
  exists s',
    twi_read_str patience reg data n s
    = Done (0, map wrap8 ds ++ drop (length acks) data) s'
    /\ bus s' = rest.
Proof.
  intros Hn Hlen Hbus H1 E1 H2 E2 H3 E3 Hk Hall Hb Eb.
  destruct (twi_register_runs patience reg Hbus H1 E1 H2 E2 H3 E3)
    as (s1 & R1 & Hbus1 & _).
  expose (twi_read_str patience reg data n) twi_read_str.
  step R1. cbv zeta.
  destruct (twi_read_str_loop_aborts patience acks ds (Z.to_nat (n - 1))
              data 0 s1 bad rest Hbus1 ltac:(lia) Hall Hb Eb ltac:(lia))
    as (s' & E & Hrest).
  exists s'. split; [|exact Hrest]. rewrite E. reflexivity.
Qed.

(** X15. A failed read keeps what was received.  When the target sends
    [length acks] bytes, fewer than [n], and the next read is reported
    with a status other than the one expected (acknowledged data for all
    reads but the last, not-acknowledged data for the last),
    [twi_read_str] returns 0; the bytes received before the failure are
    in the buffer, the rest of the buffer is as it was. *)
Theorem twi_read_str_keeps_partial (patience : nat) (reg : Z)
    (data : list Z) (n : Z) (s : twi_state) (r1 r2 r3 : response)
    (acks : list response) (ds : list Z) (bad : response)
    (rest : list response) :
  1 <= n ->
  (Z.to_nat n <= length data)%nat ->
  bus s = r1 :: r2 :: r3 :: acks ++ bad :: rest ->
  prompt patience r1 -> masked r1 = TWI_MT_DATA_ACK ->
  prompt patience r2 -> masked r2 = TWI_REP_START ->
  prompt patience r3 -> masked r3 = TWI_MR_SLA_ACK ->
  (length acks < Z.to_nat n)%nat ->
  delivers patience acks ds ->
  prompt patience bad ->
  masked bad <> (if (length acks <? Z.to_nat (n - 1))%nat
                 then TWI_MR_DATA_ACK else TWI_MR_DATA_NACK) ->
  exists buf s',
    twi_read_str patience reg data n s = Done (0, buf) s'
    /\ take (length acks) buf = map wrap8 ds
    /\ drop (length acks) buf = drop (length acks) data
    /\ length buf = length data
    /\ bus s' = rest.
Proof.
  intros Hn Hlen Hbus H1 E1 H2 E2 H3 E3 Hk Hall Hb Eb.
  destruct (twi_read_str_aborts patience reg data n s r1 r2 r3 acks ds bad
              rest Hn Hlen Hbus H1 E1 H2 E2 H3 E3 Hk Hall Hb Eb)
    as (s' & E & Hrest).
  assert (Hds : length (map wrap8 ds) = length acks).
  { rewrite length_map. symmetry. exact (Forall2_length _ _ _ Hall). }
  eexists _, s'. split; [exact E|].
  split; [|split; [|split; [|exact Hrest]]].
  - rewrite take_app_length'; [reflexivity | symmetry; exact Hds].
  - rewrite drop_app_length'; [reflexivity | symmetry; exact Hds].
  - rewrite length_app, Hds, length_drop. lia.
Qed.

Lemma twi_read_str_keeps_partial_witness :
  exists buf s',
    twi_read_str 4 0x00 [7; 8; 9] 3
      (twi_rest [answer 0x28; answer 0x10; answer 0x40;
                 answer_byte 0x50 0x11; answer_byte 0x58 0x12])
    = Done (0, buf) s'
    /\ take 1 buf = map wrap8 [0x11]
    /\ drop 1 buf = drop 1 [7; 8; 9]
    /\ length buf = 3%nat
    /\ bus s' = [].
Proof.
  apply (twi_read_str_keeps_partial 4 0x00 [7; 8; 9] 3
           (twi_rest [answer 0x28; answer 0x10; answer 0x40;
                      answer_byte 0x50 0x11; answer_byte 0x58 0x12])
           (answer 0x28) (answer 0x10) (answer 0x40)
           [answer_byte 0x50 0x11] [0x11] (answer_byte 0x58 0x12) []);
    first [ reflexivity | lia | unfold prompt; cbn; lia | cbn; lia
          | vm_compute; discriminate | solve [repeat constructor] ].
Defined.

(** X16. With a count of 1 or less, and above [INT_MIN] so that the
    loop bound [n - 1] is computed without overflow, [twi_read_str] is
    [twi_read_ch]: the loop makes no pass, and the one read that is left
    is the read of [twi_read_ch], with the same stores and the same
    result, from every state and for every buffer. *)
Theorem twi_read_str_single (patience : nat) (reg : Z) (data : list Z)
    (n : Z) (s : twi_state) :
  INT_MIN < n <= 1 ->
  twi_read_str patience reg data n s = twi_read_ch patience reg data s.
Proof.
  intros Hn. unfold twi_read_str, twi_read_ch.
  replace (Z.to_nat (n - 1)) with 0%nat by lia. reflexivity.
Qed.

Lemma twi_read_str_single_witness :
  twi_read_str 4 0x00 [0x11] 1
    (twi_rest [answer 0x28; answer 0x10; answer 0x40; answer_byte 0x58 0x17])
  = twi_read_ch 4 0x00 [0x11]
      (twi_rest [answer 0x28; answer 0x10; answer 0x40;
                 answer_byte 0x58 0x17]).
Proof. apply twi_read_str_single. unfold INT_MIN. lia. Defined.

(** ** Switching the peripheral on and off *)

Lemma read_TWCR_frame s :
  exists c s',
    read_TWCR s = Done c s'
    /\ _twi_enabled s' = _twi_enabled s /\ DDRC s' = DDRC s
    /\ PORTC s' = PORTC s /\ TWBR s' = TWBR s /\ sent s' = sent s.
Proof.
  unfold read_TWCR.
  destruct (pending s) as [[[|n] st d]|]; eexists; eexists;
    repeat split; reflexivity.
Qed.

Lemma write_TWCR_frame v s :
  exists s',
    write_TWCR v s = Done tt s'
    /\ _twi_enabled s' = _twi_enabled s /\ DDRC s' = DDRC s
    /\ PORTC s' = PORTC s /\ TWBR s' = TWBR s
    /\ sent s' = sent s ++ [WrTWCR (wrap8 v)].
Proof.
  unfold write_TWCR, modify. cbv zeta.
  destruct (Z.testbit (wrap8 v) 7); eexists; repeat split; reflexivity.
Qed.

Lemma twi_enable_runs s :
  _twi_enabled s = 0 ->
  exists c s',
    twi_enable s = Done tt s'
    /\ _twi_enabled s' = 1
    /\ DDRC s' = wrap8 (Z.land (DDRC s) (Z.lnot TWI_PINMASK))
    /\ PORTC s' = wrap8 (Z.lor (PORTC s) TWI_PINMASK)
    /\ TWBR s' = 72
    /\ sent s' = sent s ++ [WrTWCR (wrap8 (Z.lor c TWI_ENABLE_MASK))].
Proof.
  intros H. expose twi_enable twi_enable.
  step (gets_runs _twi_enabled s). rewrite H.
  change (truthy 0) with false. cbv iota. run_pure.
  match goal with
  | |- context [bind read_TWCR _ ?t] =>
      destruct (read_TWCR_frame t) as (c & s1 & E1 & F1 & F2 & F3 & F4 & F5)
  end.
  step E1.
  destruct (write_TWCR_frame (Z.lor c TWI_ENABLE_MASK) s1)
    as (s2 & E2 & G1 & G2 & G3 & G4 & G5).
  exists c, s2. split; [exact E2|].
  rewrite G1, G2, G3, G4, G5, F1, F2, F3, F4, F5.
  repeat split.
Qed.

Lemma twi_disable_runs s :
  truthy (_twi_enabled s) = true ->
  exists c s',
    twi_disable s = Done tt s'
    /\ _twi_enabled s' = 0
    /\ DDRC s' = DDRC s
    /\ PORTC s' = wrap8 (Z.land (PORTC s) (Z.lnot TWI_PINMASK))
    /\ TWBR s' = TWBR s
    /\ sent s' = sent s
                 ++ [WrTWCR (wrap8 (Z.land c (Z.lnot TWI_ENABLE_MASK)))].
Proof.
  intros H. expose twi_disable twi_disable.
  step (gets_runs _twi_enabled s). rewrite H. cbn [negb]. cbv iota. run_pure.
  match goal with
  | |- context [bind read_TWCR _ ?t] =>
      destruct (read_TWCR_frame t) as (c & s1 & E1 & F1 & F2 & F3 & F4 & F5)
  end.
  step E1.
  destruct (write_TWCR_frame (Z.land c (Z.lnot TWI_ENABLE_MASK)) s1)
    as (s2 & E2 & G1 & G2 & G3 & G4 & G5).
  step E2. run_pure.
  eexists c, _. split; [reflexivity|].
  cbn [_twi_enabled DDRC PORTC TWBR sent set_PORTC].
  rewrite G1, G2, G3, G4, G5, F1, F2, F3, F4, F5.
  repeat split.
Qed.

Lemma pinmask_clear d :
  is_byte d -> wrap8 (Z.land d (Z.lnot TWI_PINMASK)) = Z.land d 0xCF.
Proof.
  intros Hd. apply Z.eqb_eq.
  exact (forall_byte
           (fun d => wrap8 (Z.land d (Z.lnot TWI_PINMASK)) =? Z.land d 0xCF)
           ltac:(vm_compute; reflexivity) d Hd).
Qed.

Lemma pinmask_set p :
  is_byte p -> wrap8 (Z.lor p TWI_PINMASK) = Z.lor p 0x30.
Proof.
  intros Hp. apply Z.eqb_eq.
  exact (forall_byte
           (fun p => wrap8 (Z.lor p TWI_PINMASK) =? Z.lor p 0x30)
           ltac:(vm_compute; reflexivity) p Hp).
Qed.

(** X17. [twi_enable] on a peripheral that is off: it sets the flag,
    makes pins 4 and 5 of port C inputs with their pull-ups on and leaves
    the other six pins of the port alone, and sets the bit-rate register
    to 72, the value for which the clock of the bus, [F_CPU / (16 + 2 *
    TWBR)], is the 100 kHz of [F_TWI].  Its one store to the control
    register sets the bits of the enable mask. *)
Theorem twi_enable_configures (s : twi_state) :
  _twi_enabled s = 0 -> is_byte (DDRC s) -> is_byte (PORTC s) ->
  exists c s',
    twi_enable s = Done tt s'
    /\ _twi_enabled s' = 1
    /\ DDRC s' = Z.land (DDRC s) 0xCF
    /\ PORTC s' = Z.lor (PORTC s) 0x30
    /\ TWBR s' = 72
    /\ F_CPU / (16 + 2 * TWBR s') = F_TWI
    /\ sent s' = sent s ++ [WrTWCR (wrap8 (Z.lor c 0x45))].
Proof.
  intros H Hd Hp.
  destruct (twi_enable_runs s H) as (c & s' & E & He & HD & HP & HB & Hs).
  exists c, s'. split; [exact E|]. split; [exact He|].
  split; [rewrite HD; apply pinmask_clear, Hd|].
  split; [rewrite HP; apply pinmask_set, Hp|].
  split; [exact HB|]. split; [rewrite HB; reflexivity | exact Hs].
Qed.

Lemma twi_enable_configures_witness :
  exists c s',
    twi_enable twi_cold = Done tt s'
    /\ _twi_enabled s' = 1
    /\ DDRC s' = Z.land (DDRC twi_cold) 0xCF
    /\ PORTC s' = Z.lor (PORTC twi_cold) 0x30
    /\ TWBR s' = 72
    /\ F_CPU / (16 + 2 * TWBR s') = F_TWI
    /\ sent s' = sent twi_cold ++ [WrTWCR (wrap8 (Z.lor c 0x45))].
Proof.
  apply (twi_enable_configures twi_cold);
    [reflexivity | unfold is_byte; cbn; lia | unfold is_byte; cbn; lia].
Defined.

Lemma twi_disable_when_disabled s :
  truthy (_twi_enabled s) = false -> twi_disable s = Done tt s.
Proof.
  intros H. expose twi_disable twi_disable.
  unfold bind at 1. unfold gets at 1. rewrite H. reflexivity.
Qed.

Lemma truthy_false v : truthy v = false -> v = 0.
Proof. unfold truthy. destruct (Z.eqb_spec v 0); [auto | discriminate]. Qed.

(** X18. [twi_is_enabled] follows the last call: from every state,
    [twi_enable] followed by [twi_disable] leaves it returning 0, and
    [twi_disable] followed by [twi_enable] leaves it returning 1. *)
Theorem twi_is_enabled_tracks (s : twi_state) :
  returned ((twi_enable >> twi_disable >> twi_is_enabled) s) = Some 0
  /\ returned ((twi_disable >> twi_enable >> twi_is_enabled) s) = Some 1.
Proof.
  split.
  - destruct (twi_enable_enables s) as (s1 & E1 & H1). step E1.
    destruct (twi_disable_runs s1 H1) as (c & s2 & E2 & H2 & _). step E2.
    unfold twi_is_enabled, gets. cbn [returned]. rewrite H2. reflexivity.
  - destruct (truthy (_twi_enabled s)) eqn:H.
    + destruct (twi_disable_runs s H) as (c & s1 & E1 & H1 & _). step E1.
      destruct (twi_enable_runs s1 H1) as (c' & s2 & E2 & H2 & _). step E2.
      unfold twi_is_enabled, gets. cbn [returned]. rewrite H2. reflexivity.
    + step (twi_disable_when_disabled s H).
      destruct (twi_enable_runs s (truthy_false _ H))
        as (c' & s2 & E2 & H2 & _).
      step E2.
      unfold twi_is_enabled, gets. cbn [returned]. rewrite H2. reflexivity.
Qed.

(** * The clock *)

Section Clock.

Import Ds1307.

(** ** Binary coded decimal *)

(** X19. The two conversions, on all byte values: decoding an encoded
    number gives the number back exactly for the numbers below 160 (the
    tens digit of a larger one does not fit the high nibble), and
    encoding a decoded byte gives the byte back exactly when its low
    nibble is a decimal digit.  For the numbers 0..99 the code is the
    two decimal digits, tens in the high nibble. *)
Theorem bcd_round_trips (v : Z) :
  is_byte v ->
  (bcd2dec (dec2bcd v) = v <-> v < 160)
  /\ (dec2bcd (bcd2dec v) = v <-> Z.land v 0x0F <= 9)
  /\ (v <= 99 -> dec2bcd v = 16 * (v / 10) + v mod 10).
Proof.
  intros Hv.
  pose proof (forall_byte
                (fun v => Bool.eqb (bcd2dec (dec2bcd v) =? v) (v <? 160)
                          && Bool.eqb (dec2bcd (bcd2dec v) =? v)
                               (Z.land v 0x0F <=? 9)
                          && implb (v <=? 99)
                               (dec2bcd v =? 16 * (v / 10) + v mod 10))
                ltac:(vm_compute; reflexivity) v Hv) as H.
  cbv beta in H.
  apply andb_prop in H. destruct H as [H H3].
  apply andb_prop in H. destruct H as [H1 H2].
  apply Bool.eqb_prop in H1, H2.
  split; [|split].
  - rewrite <- Z.eqb_eq, H1. apply Z.ltb_lt.
  - rewrite <- Z.eqb_eq, H2. apply Z.leb_le.
  - intros Hle. apply Z.leb_le in Hle. rewrite Hle in H3.
    apply Z.eqb_eq. exact H3.
Qed.

Lemma bcd_round_trips_witness :
  (bcd2dec (dec2bcd 59) = 59 <-> 59 < 160)
  /\ (dec2bcd (bcd2dec 59) = 59 <-> Z.land 59 0x0F <= 9)
  /\ (59 <= 99 -> dec2bcd 59 = 16 * (59 / 10) + 59 mod 10).
Proof. apply (bcd_round_trips 59). unfold is_byte. lia. Defined.

(** ** Dates and times *)

Lemma is_leap_two_digits y : 0 <= y <= 99 -> is_leap y = (y mod 4 =? 0).
Proof.
  intros Hy. unfold is_leap.
  rewrite (Z.mod_small y 100), (Z.mod_small y 400) by lia.
  destruct (Z.eqb_spec y 0) as [-> | Hne]; [reflexivity|].
  cbn [negb]. rewrite andb_true_r, orb_false_r. reflexivity.
Qed.

(** X20. [is_valid_date] checks the day against the length of the month
    and nothing else: for a year 00..99, taken as 2000..2099, the date is
    valid exactly when the day is between 1 and the number of days of
    the month in that year.  The month is not checked: a month outside
    1..12 passes with any day from 1 to 31. *)
Theorem is_valid_date_days (y m d : Z) :
  0 <= y <= 99 -> 0 <= d ->
  is_valid_date y m d = (1 <=? d) && (d <=? month_length y m)
  /\ (m < 1 \/ 12 < m -> month_length y m = 31).
Proof.
  intros Hy Hd. split.
  - unfold is_valid_date, month_length. rewrite (is_leap_two_digits y Hy).
    unfold Z.geb, Z.gtb.
    destruct ((m =? 4) || (m =? 6) || (m =? 9) || (m =? 11)), (m =? 2),
      (y mod 4 =? 0);
      destruct (Z.compare_spec d 31), (Z.eqb_spec d 0), (Z.eqb_spec d 31),
        (Z.compare_spec d 30), (Z.eqb_spec d 29), (Z.leb_spec 1 d);
      try lia; cbn [orb andb negb];
      repeat match goal with
             | |- context [?a <=? ?b] => destruct (Z.leb_spec a b)
             end;
      first [reflexivity | lia].
  - intros Hm. unfold month_length.
    destruct (Z.eqb_spec m 4), (Z.eqb_spec m 6), (Z.eqb_spec m 9),
      (Z.eqb_spec m 11), (Z.eqb_spec m 2); cbn [orb];
      first [lia | reflexivity].
Qed.

Lemma is_valid_date_days_witness :
  (is_valid_date 24 2 29 = (1 <=? 29) && (29 <=? month_length 24 2)
   /\ (2 < 1 \/ 12 < 2 -> month_length 24 2 = 31))
  /\ (is_valid_date 23 13 31 = (1 <=? 31) && (31 <=? month_length 23 13)
      /\ (13 < 1 \/ 12 < 13 -> month_length 23 13 = 31)).
Proof.
  split.
  - apply (is_valid_date_days 24 2 29); lia.
  - apply (is_valid_date_days 23 13 31); lia.
Defined.

(** X21. [set_12hms] takes the hours 1..11 only.  With minutes and
    seconds in range, an hour of 0 or of 12 and more is rejected and the
    object is left as it was, so twelve o'clock cannot be set in 12-hour
    mode; an hour from 1 to 11 is stored with the minutes, the seconds
    and the meridiem, while the mode of the object, its date and its
    clock-halt flag stay as they are. *)
Theorem set_12hms_hours (o : DS1307) (h m s : Z) (mi : DSAMPM) :
  0 <= m <= 59 -> 0 <= s <= 59 ->
  (h <= 0 \/ 12 <= h -> set_12hms o h m s mi = (false, o))
  /\ (1 <= h <= 11 ->
      exists o',
        set_12hms o h m s mi = (true, o')
        /\ get_12hms o' = (h, m, s, mi)
        /\ _mode o' = _mode o
        /\ get_ymd o' = get_ymd o /\ get_dow o' = get_dow o
        /\ _clkh o' = _clkh o).
Proof.
  intros Hm Hs. unfold set_12hms, is_valid_time.
  change (truthy (DSMODE_value DSMODE12)) with true. cbv iota.
  destruct (Z.gtb_spec m 59); [lia|]. destruct (Z.gtb_spec s 59); [lia|].
  rewrite !orb_false_r. split.
  - intros Hh. destruct (Z.gtb_spec h 11), (Z.ltb_spec h 1);
      try reflexivity. lia.
  - intros Hh. destruct (Z.gtb_spec h 11), (Z.ltb_spec h 1); try lia.
    eexists. repeat split.
Qed.

Lemma set_12hms_hours_witness :
  (12 <= 0 \/ 12 <= 12 -> set_12hms DS1307_new 12 30 0 PM
                          = (false, DS1307_new))
  /\ (1 <= 11 <= 11 ->
      exists o',
        set_12hms DS1307_new 11 30 0 PM = (true, o')
        /\ get_12hms o' = (11, 30, 0, PM)
        /\ _mode o' = _mode DS1307_new
        /\ get_ymd o' = get_ymd DS1307_new
        /\ get_dow o' = get_dow DS1307_new
        /\ _clkh o' = _clkh DS1307_new).
Proof.
  split.
  - apply (proj1 (set_12hms_hours DS1307_new 12 30 0 PM
                    ltac:(lia) ltac:(lia))).
  - apply (proj2 (set_12hms_hours DS1307_new 11 30 0 PM
                    ltac:(lia) ltac:(lia))).
Defined.

(** ** Talking to the chip *)

Lemma hour_byte (hr : Z) (mode : DSMODE) (mi : DSAMPM) :
  wrap8 (wrap8 (Z.lor hr (Z.lor (Z.shiftl (DSMODE_value mode) 6)
                                (Z.shiftl (DSAMPM_value mi) 5))))
  = wrap8 (Z.lor hr (64 * DSMODE_value mode + 32 * DSAMPM_value mi)).
Proof. rewrite wrap8_idem. destruct mode, mi; reflexivity. Qed.

Lemma second_byte (sec clkh : Z) :
  wrap8 (wrap8 (Z.lor sec (Z.shiftl clkh 7)))
  = wrap8 (Z.lor sec (128 * clkh)).
Proof.
  rewrite wrap8_idem, Z.shiftl_mul_pow2 by lia.
  rewrite (Z.mul_comm clkh). reflexivity.
Qed.

(** X22. [transfer_data] on a bus that is free and answers: it opens
    the connection to address 0x68, transmits the register number 0 and
    then the seven register bytes of the members, seconds first and year
    last, closes the connection, and writes nothing else.  It does so
    whatever the chip answers to the address and to the bytes: no result
    is looked at. *)
Theorem transfer_data_registers (patience : nat) (o : DS1307)
    (s : twi_state) (r1 r2 : response) (rs rest : list response) :
  bus s = r1 :: r2 :: rs ++ rest ->
  length rs = 8%nat ->
  prompt patience r1 -> masked r1 = TWI_START -> prompt patience r2 ->
  Forall (prompt patience) rs ->
  exists s',
    transfer_data patience o s = Done tt s'
    /\ sent s' = sent s ++ [WrTWCR 0xA4]
                 ++ transmissions (0xD0 :: 0x00 :: map wrap8 (registers o))
                 ++ [WrTWCR 0x94].
Proof.
  intros Hbus Hlen H1 E1 H2 Hrs.
  do 8 (destruct rs as [|? rs]; [discriminate Hlen|]).
  destruct rs; [|discriminate Hlen].
  repeat match goal with
         | H : Forall _ (_ :: _) |- _ =>
             apply Forall_cons in H; destruct H as [? H]
         end.
  cbn [app] in Hbus. pose proof (talking_from s _ Hbus) as T0.
  expose (transfer_data patience o) transfer_data. cbv zeta.
  destruct (twi_open_goes patience DS1307_I2C_ADDRESS T0 H1 E1 H2)
    as (s1 & R1 & T1).
  step R1.
  repeat match goal with
         | T : talking ?s (_ :: _) _ _
           |- context [bind (twi_write_ch _ ?d) _ ?s] =>
             let s' := fresh "s" in
             let R := fresh "R" in
             let T' := fresh "T" in
             destruct (twi_write_ch_goes patience d T ltac:(assumption))
               as (s' & R & T');
             step R; clear T
         end.
  match goal with
  | T : talking ?s _ _ _ |- context [bind twi_close _ ?s] =>
      destruct (twi_close_goes T) as (s' & R' & Hb & Hw & _)
  end.
  step R'. exists s'. split; [reflexivity|].
  rewrite Hw. unfold registers, transmissions. cbn [map flat_map app].
  rewrite second_byte, hour_byte, <- !app_assoc. reflexivity.
Qed.

Lemma transfer_data_registers_witness :
  exists s',
    transfer_data 4 DS1307_new
      (twi_rest ([answer 0x08; answer 0x18]
                 ++ replicate 8 (answer 0x28) ++ [])) = Done tt s'
    /\ sent s' = [] ++ [WrTWCR 0xA4]
                 ++ transmissions
                      (0xD0 :: 0x00 :: map wrap8 (registers DS1307_new))
                 ++ [WrTWCR 0x94].
Proof.
  apply (transfer_data_registers 4 DS1307_new
           (twi_rest ([answer 0x08; answer 0x18]
                      ++ replicate 8 (answer 0x28) ++ []))
           (answer 0x08) (answer 0x18) (replicate 8 (answer 0x28)) []);
    first [ reflexivity | unfold prompt; cbn; lia
          | repeat constructor; unfold prompt; cbn; lia ].
Defined.

Lemma DSAMPM_value_inj a b : DSAMPM_value a = DSAMPM_value b -> a = b.
Proof. destruct a, b; first [reflexivity | discriminate]. Qed.

Lemma decode_members (v : Z) :
  is_byte v ->
  (v <= 99 -> bcd2dec (wrap8 (dec2bcd v)) = v)
  /\ (v <= 59 ->
      bcd2dec (Z.land (wrap8 (Z.lor (dec2bcd v) (128 * 0))) 0x7F) = v
      /\ bcd2dec (Z.land (wrap8 (Z.lor (dec2bcd v) (128 * 1))) 0x7F) = v)
  /\ (v <= 23 ->
      bcd2dec (read_24_hr (wrap8 (Z.lor (dec2bcd v) (64 * 0 + 32 * 0)))) = v)
  /\ (1 <= v <= 12 ->
      forall mi,
        bcd2dec (read_12_hr
                   (wrap8 (Z.lor (dec2bcd v)
                             (64 * 1 + 32 * DSAMPM_value mi)))) = v
        /\ DSAMPM_of
             (Z.shiftr
                (Z.land (wrap8 (Z.lor (dec2bcd v)
                                  (64 * 1 + 32 * DSAMPM_value mi))) 0x20) 5)
           = mi).
Proof.
  intros Hv.
  pose proof (forall_byte
    (fun v =>
       implb (v <=? 99) (bcd2dec (wrap8 (dec2bcd v)) =? v)
       && implb (v <=? 59)
            ((bcd2dec (Z.land (wrap8 (Z.lor (dec2bcd v) (128 * 0))) 0x7F)
              =? v)
             && (bcd2dec (Z.land (wrap8 (Z.lor (dec2bcd v) (128 * 1))) 0x7F)
                 =? v))
       && implb (v <=? 23)
            (bcd2dec (read_24_hr
                        (wrap8 (Z.lor (dec2bcd v) (64 * 0 + 32 * 0)))) =? v)
       && implb ((1 <=? v) && (v <=? 12))
            (forallb
               (fun mi =>
                  (bcd2dec (read_12_hr
                              (wrap8 (Z.lor (dec2bcd v)
                                        (64 * 1 + 32 * DSAMPM_value mi))))
                   =? v)
                  && (DSAMPM_value
                        (DSAMPM_of
                           (Z.shiftr
                              (Z.land
                                 (wrap8 (Z.lor (dec2bcd v)
                                           (64 * 1
                                            + 32 * DSAMPM_value mi)))
                                 0x20) 5))
                      =? DSAMPM_value mi))
               [AM; PM]))
    ltac:(vm_compute; reflexivity) v Hv) as H.
  cbv beta in H.
  apply andb_prop in H. destruct H as [H H4].
  apply andb_prop in H. destruct H as [H H3].
  apply andb_prop in H. destruct H as [H1 H2].
  split; [|split; [|split]].
  - intros Hle. apply Z.leb_le in Hle. rewrite Hle in H1.
    apply Z.eqb_eq. exact H1.
  - intros Hle. apply Z.leb_le in Hle. rewrite Hle in H2.
    apply andb_prop in H2. destruct H2 as [Ha Hb].
    split; apply Z.eqb_eq; assumption.
  - intros Hle. apply Z.leb_le in Hle. rewrite Hle in H3.
    apply Z.eqb_eq. exact H3.
  - intros [Hlo Hhi] mi. apply Z.leb_le in Hlo, Hhi.
    rewrite Hlo, Hhi in H4. cbn [andb implb forallb] in H4.
    apply andb_prop in H4. destruct H4 as [Ham H4].
    apply andb_prop in H4. destruct H4 as [Hpm _].
    apply andb_prop in Ham, Hpm.
    destruct Ham as [Ha1 Ha2], Hpm as [Hp1 Hp2].
    apply Z.eqb_eq in Ha1, Ha2, Hp1, Hp2.
    destruct mi; (split; [assumption|]);
      apply DSAMPM_value_inj; assumption.
Qed.

(** X23. What [transfer_data] writes, [update] reads back.  Let the
    members of [o] hold a time and a date, and let the chip send the seven
    register bytes that [transfer_data] writes for [o].  Then [update],
    on an object in the mode of [o], sets year, month, day, day of the
    week, hour, minute and second to those of [o], whatever they were
    and whatever the local array held; in 12-hour mode it sets the
    meridiem too.  The mode and the clock-halt flag are not touched. *)
Theorem update_reads_back (patience : nat) (o o0 : DS1307) (data : list Z)
    (s : twi_state) (r1 r2 r3 r4 r5 : response) (rs rest : list response) :
  keeps_time o ->
  _mode o0 = _mode o -> (forall d, read_hr o0 d = read_hr o d) ->
  length data = 7%nat ->
  bus s = r1 :: r2 :: r3 :: r4 :: r5 :: rs ++ rest ->
  prompt patience r1 -> masked r1 = TWI_START ->
  prompt patience r2 ->
  prompt patience r3 -> masked r3 = TWI_MT_DATA_ACK ->
  prompt patience r4 -> masked r4 = TWI_REP_START ->
  prompt patience r5 -> masked r5 = TWI_MR_SLA_ACK ->
  sends patience rs (map wrap8 (registers o)) ->
  exists o' s',
    update patience o0 data s = Done o' s'
    /\ same_time o o'
    /\ (_mode o = DSMODE12 -> _mi o' = _mi o)
    /\ _mode o' = _mode o0 /\ _clkh o' = _clkh o0.
Proof.
  intros Hk Hmode Hrd Hlen Hbus H1 E1 H2 H3 E3 H4 E4 H5 E5.
  intros (acks & last & ds & d & -> & Hbytes & Hall & Hl & El & Hd).
  assert (Hds : length ds = 6%nat).
  { apply (f_equal length) in Hbytes.
    rewrite length_map, length_app in Hbytes. cbn in Hbytes. lia. }
  rewrite <- app_assoc in Hbus. cbn [app] in Hbus.
  destruct (twi_open_goes patience DS1307_I2C_ADDRESS
              (talking_from s _ Hbus) H1 E1 H2) as (s1 & R1 & Hbus1 & _).
  destruct (twi_read_str_fills patience 0x00 data 7 s1 r3 r4 r5 acks ds
              last d rest ltac:(lia) Hbus1 H3 E3 H4 E4 H5 E5)
    as (s2 & R2 & _);
    [ rewrite (Forall2_length _ _ _ Hall), Hds; reflexivity
    | exact Hall | exact Hl | exact El | exact Hd | rewrite Hlen; cbn; lia |].
  destruct (twi_close_returns s2) as (s3 & R3).
  expose (update patience o0 data) update.
  step R1. step R2. cbv zeta. cbn [snd]. step R3.
  eexists _, s3. split; [reflexivity|].
  rewrite <- Hbytes. unfold registers. cbn [map app].
  cbn [lookup_total list_lookup_total].
  cbn [_yr _mth _day _dow _hr _min _sec _clkh _mi _mode].
  rewrite !wrap8_idem.
  destruct Hk as (Hsec & Hmin & Hhr & Hdow & Hday & Hmth & Hyr & Hclk).
  assert (B : forall v lo hi, lo <= v <= hi -> 0 <= lo -> hi <= 99 ->
                              is_byte v /\ v <= 99)
    by (intros; unfold is_byte; lia).
  split; [|split; [|split; reflexivity]].
  - unfold same_time. cbn [_yr _mth _day _dow _hr _min _sec].
    split; [apply decode_members; eapply B; first [eassumption | lia]|].
    split; [apply decode_members; eapply B; first [eassumption | lia]|].
    split; [apply decode_members; eapply B; first [eassumption | lia]|].
    split; [apply decode_members; eapply B; first [eassumption | lia]|].
    split.
    { rewrite Hrd. revert Hhr.
      destruct (_mode o).
      - intros (Hhr & -> & Hr). rewrite Hr.
        apply (decode_members (_hr o)); [unfold is_byte|]; lia.
      - intros (Hhr & Hr). rewrite Hr.
        apply (decode_members (_hr o)); [unfold is_byte|]; lia. }
    split; [apply decode_members; eapply B; first [eassumption | lia]|].
    assert (Hc : _clkh o = 0 \/ _clkh o = 1) by lia.
    destruct Hc as [-> | ->];
      apply (decode_members (_sec o)); first [unfold is_byte; lia | lia].
  - rewrite Hmode. intros Hm. rewrite Hm in Hhr |- *.
    destruct Hhr as (Hhr & Hr).
    apply (decode_members (_hr o)); [unfold is_byte|]; lia.
Qed.

Lemma update_reads_back_witness :
  exists o' s',
    update 4 (set_dow DS1307_new MON) [9; 9; 9; 9; 9; 9; 9]
      (twi_rest ([answer 0x08; answer 0x18; answer 0x28; answer 0x10;
                  answer 0x40]
                 ++ [answer_byte 0x50 0x00; answer_byte 0x50 0x00;
                     answer_byte 0x50 0x00; answer_byte 0x50 0x06;
                     answer_byte 0x50 0x01; answer_byte 0x50 0x01;
                     answer_byte 0x58 0x22] ++ []))
    = Done o' s'
    /\ same_time DS1307_new o'
    /\ (_mode DS1307_new = DSMODE12 -> _mi o' = _mi DS1307_new)
    /\ _mode o' = _mode (set_dow DS1307_new MON)
    /\ _clkh o' = _clkh (set_dow DS1307_new MON).
Proof.
  apply (update_reads_back 4 DS1307_new (set_dow DS1307_new MON)
           [9; 9; 9; 9; 9; 9; 9] _
           (answer 0x08) (answer 0x18) (answer 0x28) (answer 0x10)
           (answer 0x40)
           [answer_byte 0x50 0x00; answer_byte 0x50 0x00;
            answer_byte 0x50 0x00; answer_byte 0x50 0x06;
            answer_byte 0x50 0x01; answer_byte 0x50 0x01;
            answer_byte 0x58 0x22] []);
    try first [ reflexivity | unfold prompt; cbn; lia ].
  - unfold keeps_time. cbn. unfold SAT. repeat split; lia.
  - exists [answer_byte 0x50 0x00; answer_byte 0x50 0x00;
            answer_byte 0x50 0x00; answer_byte 0x50 0x06;
            answer_byte 0x50 0x01; answer_byte 0x50 0x01],
      (answer_byte 0x58 0x22), [0x00; 0x00; 0x00; 0x06; 0x01; 0x01], 0x22.
    split; [reflexivity|]. split; [reflexivity|].
    split; [|split; [unfold prompt; cbn; lia | split; reflexivity]].
    repeat constructor; unfold prompt; cbn; lia.
Defined.

(** X24. [update] does not look at the result of the read.  When the
    chip answers the first read of a register with anything but
    "received, acknowledge returned", [twi_read_str] stops with nothing
    stored, and [update] goes on to decode the local array as it found
    it: every time and date member is set from the bytes the array held
    before the call. *)
Theorem update_ignores_failure (patience : nat) (o : DS1307)
    (data : list Z) (s : twi_state) (r1 r2 r3 r4 r5 bad : response)
    (rest : list response) :
  length data = 7%nat ->
  bus s = r1 :: r2 :: r3 :: r4 :: r5 :: bad :: rest ->
  prompt patience r1 -> masked r1 = TWI_START ->
  prompt patience r2 ->
  prompt patience r3 -> masked r3 = TWI_MT_DATA_ACK ->
  prompt patience r4 -> masked r4 = TWI_REP_START ->
  prompt patience r5 -> masked r5 = TWI_MR_SLA_ACK ->
  prompt patience bad -> masked bad <> TWI_MR_DATA_ACK ->
  exists o' s',
    update patience o data s = Done o' s'
    /\ _sec o' = bcd2dec (Z.land (data !!! 0%nat) 0x7F)
    /\ _min o' = bcd2dec (data !!! 1%nat)
    /\ _hr o' = bcd2dec (read_hr o (data !!! 2%nat))
    /\ _dow o' = bcd2dec (data !!! 3%nat)
    /\ _day o' = bcd2dec (data !!! 4%nat)
    /\ _mth o' = bcd2dec (data !!! 5%nat)
    /\ _yr o' = bcd2dec (data !!! 6%nat).
Proof.
  intros Hlen Hbus H1 E1 H2 H3 E3 H4 E4 H5 E5 Hb Eb.
  destruct (twi_open_goes patience DS1307_I2C_ADDRESS
              (talking_from s _ Hbus) H1 E1 H2) as (s1 & R1 & Hbus1 & _).
  destruct (twi_read_str_aborts patience 0x00 data 7 s1 r3 r4 r5 [] []
              bad rest ltac:(lia) ltac:(rewrite Hlen; cbn; lia) Hbus1
              H3 E3 H4 E4 H5 E5 ltac:(cbn; lia) ltac:(constructor) Hb Eb)
    as (s2 & R2 & _).
  cbn [map app length drop] in R2.
  destruct (twi_close_returns s2) as (s3 & R3).
  expose (update patience o data) update.
  step R1. step R2. cbv zeta. cbn [snd]. step R3.
  eexists _, s3. split; [reflexivity|]. repeat split.
Qed.

Lemma update_ignores_failure_witness :
  exists o' s',
    update 4 DS1307_new [0x59; 0x59; 0x23; 0x07; 0x31; 0x12; 0x99]
      (twi_rest [answer 0x08; answer 0x20; answer 0x28; answer 0x10;
                 answer 0x40; answer_byte 0x58 0xFF])
    = Done o' s'
    /\ _sec o' = bcd2dec (Z.land 0x59 0x7F)
    /\ _min o' = bcd2dec 0x59
    /\ _hr o' = bcd2dec (read_hr DS1307_new 0x23)
    /\ _dow o' = bcd2dec 0x07
    /\ _day o' = bcd2dec 0x31
    /\ _mth o' = bcd2dec 0x12
    /\ _yr o' = bcd2dec 0x99.
Proof.
  apply (update_ignores_failure 4 DS1307_new
           [0x59; 0x59; 0x23; 0x07; 0x31; 0x12; 0x99] _
           (answer 0x08) (answer 0x20) (answer 0x28) (answer 0x10)
           (answer 0x40) (answer_byte 0x58 0xFF) []);
    first [ reflexivity | unfold prompt; cbn; lia
          | vm_compute; discriminate ].
Defined.

End Clock.

(** * The thermometer *)

Section Thermometer.

Import Ds18b20.

Context {f : nat -> Z}.

Lemma on_line_goes {A} (m : dev owi_state A) (a : A) {k w} (k' : nat)
    (w' : list owi_event) {s c ad sp} :
  (forall l, facing l f k w ->
             exists l', m l = Done a l' /\ facing l' f k' w') ->
  holding s f k w c ad sp ->
  exists s', on_line m s = Done a s' /\ holding s' f k' w' c ad sp.
Proof.
  intros Hm (Hl & Hc & Ha & Hs).
  destruct (Hm (line s) Hl) as (l' & E & Hl').
  exists (put_line l' s). split.
  - unfold on_line. rewrite E. reflexivity.
  - repeat split; try assumption; apply Hl'.
Qed.

Lemma detect_goes {s k w c ad sp} :
  holding s f k w c ad sp ->
  exists s',
    on_line owi_detect_presence s = Done (1 - bit_at f k) s'
    /\ holding s' f (S k) (w ++ reset_slot (f k)) c ad sp.
Proof.
  apply on_line_goes. intros l Hl. apply (owi_detect_presence_runs Hl).
Qed.

Lemma write_goes data {s k w c ad sp} :
  holding s f k w c ad sp ->
  exists s',
    on_line (owi_write_byte data) s = Done tt s'
    /\ holding s' f k (w ++ byte_slots data) c ad sp.
Proof.
  apply on_line_goes. intros l Hl. apply (owi_write_byte_runs data Hl).
Qed.

Lemma read_goes {s k w c ad sp} :
  holding s f k w c ad sp ->
  exists s',
    on_line owi_read_byte s = Done (byte_at f k) s'
    /\ holding s' f (k + 8) (w ++ read_slots f k 8) c ad sp.
Proof.
  apply on_line_goes. intros l Hl. apply (owi_read_byte_runs Hl).
Qed.

Lemma select_goes {s k w c ad sp} :
  length ad = 9%nat ->
  holding s f k w c ad sp ->
  exists s',
    (if truthy (ad !!! 0%nat)
     then on_line (owi_match_rom (drop 1 ad))
     else on_line owi_skip_rom) s = Done tt s'
    /\ holding s' f k (w ++ rom_select ad) c ad sp.
Proof.
  intros Hlen H. unfold rom_select.
  destruct (truthy (ad !!! 0%nat)).
  - refine (on_line_goes (owi_match_rom (drop 1 ad)) tt _ _ _ H).
    intros l Hl.
    destruct (owi_match_rom_runs (drop 1 ad) Hl) as (l' & E & Hl').
    exists l'. split; [|exact Hl'].
    rewrite E. rewrite length_drop, Hlen. reflexivity.
  - refine (on_line_goes owi_skip_rom tt _ _ _ H).
    intros l Hl. apply (owi_write_byte_runs OWI_SKIP_ROM Hl).
Qed.

Lemma put_scratchpad_goes i v {s k w c ad sp} :
  holding s f k w c ad sp ->
  holding (put_scratchpad i v s) f k w c ad (<[i := wrap8 v]> sp).
Proof.
  intros (Hl & Hc & Ha & Hs). repeat split; try assumption; try apply Hl.
  cbn. now rewrite Hs.
Qed.

Lemma put_config_goes i v {s k w c ad sp} :
  holding s f k w c ad sp ->
  holding (put_config i v s) f k w (<[i := wrap8 v]> c) ad sp.
Proof.
  intros (Hl & Hc & Ha & Hs). repeat split; try assumption; try apply Hl.
  cbn. now rewrite Hc.
Qed.

Lemma put_address_goes i v {s k w c ad sp} :
  holding s f k w c ad sp ->
  holding (put_address i v s) f k w c (<[i := wrap8 v]> ad) sp.
Proof.
  intros (Hl & Hc & Ha & Hs). repeat split; try assumption; try apply Hl.
  cbn. now rewrite Ha.
Qed.

End Thermometer.

Lemma flat_map_seq_shift {B} (g : nat -> list B) (a m : nat) :
  forall i, flat_map (fun j => g (a + j)%nat) (seq i m)
            = flat_map g (seq (a + i) m).
Proof.
  induction m as [|m IH]; intros i; cbn [seq flat_map]; [reflexivity|].
  rewrite IH, Nat.add_succ_r. reflexivity.
Qed.

Lemma read_slots_app f k n m :
  read_slots f k (n + m) = read_slots f k n ++ read_slots f (k + n) m.
Proof.
  unfold read_slots. rewrite seq_app, flat_map_app. f_equal.
  transitivity (flat_map (fun j => read_slot (f j)) (seq (k + n) m)).
  - exact (flat_map_seq_shift (fun j => read_slot (f j)) k m n).
  - rewrite <- (Nat.add_0_r (k + n)) at 1. symmetry.
    exact (flat_map_seq_shift (fun j => read_slot (f j)) (k + n) m 0).
Qed.

Section Calls.

Import Ds18b20.

Lemma holding_self s :
  holding s (line_in (line s)) (taken (line s)) (wire (line s))
    (_ds18b20_config s) (_ds18b20_address s) (_ds18b20_scratchpad s).
Proof. repeat split. Qed.

(** X25. [ds18b20_read_rom] clears the caller's array before it reads:
    for an array of eight bytes, the array holds the ROM code after the
    call when a device answered the reset and the CRC of the code
    verifies, and the result is then 1; in every other case the array
    holds eight zero bytes, whatever it held before.  The three arrays of
    the file are not touched. *)
Theorem ds18b20_read_rom_zeroes (s : ds18b20_state) (rom : list Z) :
  length rom = 8%nat ->
  let f := line_in (line s) in
  let k := taken (line s) in
  let bytes := rom_at f (S k) in
  let ok := (bit_at f k =? 0)
            && (crc_chain 0 (take 7 bytes) =? bytes !!! 7%nat) in
  exists r s',
    ds18b20_read_rom rom s
    = Done (r, if ok then bytes else [0; 0; 0; 0; 0; 0; 0; 0]) s'
    /\ (ok = true -> r = 1)
    /\ _ds18b20_config s' = _ds18b20_config s
    /\ _ds18b20_address s' = _ds18b20_address s
    /\ _ds18b20_scratchpad s' = _ds18b20_scratchpad s.
Proof.
  intros Hlen f k bytes ok.
  do 8 (destruct rom as [|? rom]; [discriminate Hlen|]).
  destruct rom; [|discriminate Hlen].
  expose (ds18b20_read_rom [z; z0; z1; z2; z3; z4; z5; z6]) ds18b20_read_rom.
  assert (Z0 : for_upto 8 0 (fun i romcode_array => store romcode_array i 0x00)
                 [z; z0; z1; z2; z3; z4; z5; z6] s
               = Done [0; 0; 0; 0; 0; 0; 0; 0] s) by reflexivity.
  step Z0. unfold on_line. subst ok.
  destruct (bit_at_cases f k) as [Hp | Hp]; rewrite Hp.
  - destruct (owi_read_rom_present [0; 0; 0; 0; 0; 0; 0; 0] (line s) Hp)
      as (l' & E).
    rewrite E. fold f k bytes. change (0 =? 0) with true. cbn [andb].
    destruct (crc_chain 0 (take 7 bytes) =? bytes !!! 7%nat).
    + rewrite (bind_done _ _ _ _ _
                 (rom_copy_runs bytes [0; 0; 0; 0; 0; 0; 0; 0] l'
                    eq_refl eq_refl)).
      cbv beta. rewrite ret_runs. subst bytes. rewrite wrap8_rom_at.
      eexists _, _. split; [reflexivity|]. repeat split.
    + eexists _, _. split; [reflexivity|]. repeat split. discriminate.
  - destruct (owi_read_rom_absent [0; 0; 0; 0; 0; 0; 0; 0] (line s) Hp)
      as (l' & E).
    rewrite E. change (1 =? 0) with false. cbn [andb].
    eexists _, _. split; [reflexivity|]. repeat split. discriminate.
Qed.

Lemma ds18b20_read_rom_zeroes_witness :
  exists r s',
    ds18b20_read_rom [9; 9; 9; 9; 9; 9; 9; 9]
      (ds18b20_boot
         (owi_rest (reply 0x00 [0x28; 0x6e; 0x38; 0xdd; 0x06; 0x00; 0x00;
                                0x3a])))
    = Done (r, [0; 0; 0; 0; 0; 0; 0; 0]) s'
    /\ (false = true -> r = 1)
    /\ _ds18b20_config s' = [0x7D; 0xC9; 0x7F]
    /\ _ds18b20_address s' = [0; 0; 0; 0; 0; 0; 0; 0; 0]
    /\ _ds18b20_scratchpad s' = [0; 0; 0; 0; 0].
Proof.
  exact (ds18b20_read_rom_zeroes
           (ds18b20_boot
              (owi_rest (reply 0x00 [0x28; 0x6e; 0x38; 0xdd; 0x06; 0x00;
                                     0x00; 0x3a])))
           [9; 9; 9; 9; 9; 9; 9; 9] eq_refl).
Defined.

(** X26. [ds18b20_start_conversion] speaks to every device on the line,
    whatever ROM code [ds18b20_set_rom] has stored: after the reset it
    sends "skip ROM" (0xCC) and "convert" (0x44) when a device answered,
    and nothing when none did; it returns 1 or 0 accordingly, never
    sends "match ROM", and leaves the stored address and the other two
    arrays as they are. *)
Theorem ds18b20_start_conversion_skips (s : ds18b20_state) :
  let pin := line_in (line s) (taken (line s)) in
  let present := negb (Z.testbit pin 0) in
  exists s',
    ds18b20_start_conversion s = Done (if present then 1 else 0) s'
    /\ wire (line s')
       = wire (line s) ++ reset_slot pin
         ++ (if present then byte_slots 0xCC ++ byte_slots 0x44 else [])
    /\ _ds18b20_config s' = _ds18b20_config s
    /\ _ds18b20_address s' = _ds18b20_address s
    /\ _ds18b20_scratchpad s' = _ds18b20_scratchpad s.
Proof.
  intros pin present.
  destruct (detect_goes (holding_self s)) as (s1 & R1 & H1).
  expose ds18b20_start_conversion ds18b20_start_conversion. step R1.
  subst present. unfold bit_at, level. fold pin.
  destruct (Z.testbit pin 0); cbn [negb].
  - change (negb (truthy (1 - 1))) with true. cbv iota.
    exists s1. split; [reflexivity|].
    destruct H1 as ((_ & _ & Hw) & Hc & Ha & Hs).
    rewrite app_nil_r. repeat split; assumption.
  - change (negb (truthy (1 - 0))) with false. cbv iota.
    destruct (write_goes OWI_SKIP_ROM H1) as (s2 & R2 & H2).
    unfold owi_skip_rom. step R2.
    destruct (write_goes CMD_CONVERT_TEMP H2) as (s3 & R3 & H3).
    step R3.
    exists s3. split; [reflexivity|].
    destruct H3 as ((_ & _ & Hw) & Hc & Ha & Hs).
    rewrite Hw, <- !app_assoc. repeat split; assumption.
Qed.

Lemma read_slots_40 f k :
  read_slots f (k + 1) 40
  = read_slots f (k + 1) 8 ++ read_slots f (k + 9) 8
    ++ read_slots f (k + 17) 8 ++ read_slots f (k + 25) 8
    ++ read_slots f (k + 33) 8.
Proof.
  change 40%nat with (8 + (8 + (8 + (8 + 8))))%nat.
  rewrite !read_slots_app.
  replace (k + 1 + 8)%nat with (k + 9)%nat by lia.
  replace (k + 9 + 8)%nat with (k + 17)%nat by lia.
  replace (k + 17 + 8)%nat with (k + 25)%nat by lia.
  replace (k + 25 + 8)%nat with (k + 33)%nat by lia.
  reflexivity.
Qed.

Lemma read_into_goes {f} (i : nat) {s k w c ad sp} :
  holding s f k w c ad sp ->
  exists s',
    (let* b := on_line owi_read_byte in modify (put_scratchpad i b)) s
    = Done tt s'
    /\ holding s' f (k + 8) (w ++ read_slots f k 8) c ad
         (<[i := wrap8 (byte_at f k)]> sp).
Proof.
  intros H. destruct (read_goes H) as (s1 & R1 & H1).
  exists (put_scratchpad i (byte_at f k) s1). split.
  - step R1. reflexivity.
  - apply put_scratchpad_goes, H1.
Qed.

Lemma write_config_goes {f} (i : nat) {s k w c ad sp} :
  holding s f k w c ad sp ->
  exists s',
    (let* config := gets _ds18b20_config in
     on_line (owi_write_byte (config !!! i))) s
    = Done tt s'
    /\ holding s' f k (w ++ byte_slots (c !!! i)) c ad sp.
Proof.
  intros H. pose proof H as (_ & Hc & _).
  destruct (write_goes (c !!! i) H) as (s1 & R1 & H1).
  exists s1. split; [|exact H1].
  step (gets_runs _ds18b20_config s). rewrite Hc. exact R1.
Qed.

Lemma read_scratchpad_goes {f} {s k w c ad} (p0 p1 p2 p3 p4 : Z) :
  holding s f k w c ad [p0; p1; p2; p3; p4] ->
  length ad = 9%nat ->
  bit_at f k = 0 ->
  exists s',
    ds18b20_read_scratchpad s = Done 1 s'
    /\ holding s' f (k + 42)
         (w ++ reset_slot (f k) ++ rom_select ad
            ++ byte_slots CMD_READ_SCRATCHPAD ++ read_slots f (k + 1) 40
            ++ reset_slot (f (k + 41)%nat))
         c ad
         [byte_at f (k + 1); byte_at f (k + 9); byte_at f (k + 17);
          byte_at f (k + 25); byte_at f (k + 33)].
Proof.
  intros H0 Hlen Hp.
  expose ds18b20_read_scratchpad ds18b20_read_scratchpad.
  destruct (detect_goes H0) as (s1 & R1 & H1). step R1.
  rewrite Hp. change (negb (truthy (1 - 0))) with false. cbv iota.
  pose proof H1 as (_ & _ & Ha & _).
  step (gets_runs _ds18b20_address s1). rewrite Ha.
  destruct (select_goes Hlen H1) as (s2 & R2 & H2). step R2.
  destruct (write_goes CMD_READ_SCRATCHPAD H2) as (s3 & R3 & H3). step R3.
  replace (S k) with (k + 1)%nat in H3 by lia.
  destruct (read_into_goes 0 H3) as (s4 & R4 & H4).
  replace (k + 1 + 8)%nat with (k + 9)%nat in H4 by lia.
  destruct (read_into_goes 1 H4) as (s5 & R5 & H5).
  replace (k + 9 + 8)%nat with (k + 17)%nat in H5 by lia.
  destruct (read_into_goes 2 H5) as (s6 & R6 & H6).
  replace (k + 17 + 8)%nat with (k + 25)%nat in H6 by lia.
  destruct (read_into_goes 3 H6) as (s7 & R7 & H7).
  replace (k + 25 + 8)%nat with (k + 33)%nat in H7 by lia.
  destruct (read_into_goes 4 H7) as (s8 & R8 & H8).
  replace (k + 33 + 8)%nat with (k + 41)%nat in H8 by lia.
  assert (L : for_upto 5 0
                (fun i _ =>
                   let* b := on_line owi_read_byte in
                   modify (put_scratchpad i b)) tt s3 = Done tt s8).
  { cbn [for_upto]. step R4. step R5. step R6. step R7. step R8.
    reflexivity. }
  step L.
  destruct (detect_goes H8) as (s9 & R9 & H9). step R9.
  exists s9. split; [reflexivity|].
  replace (S (k + 41)) with (k + 42)%nat in H9 by lia.
  cbn [insert list_insert] in H9. rewrite !wrap8_byte_at in H9.
  rewrite read_slots_40, <- !app_assoc.
  rewrite <- !app_assoc in H9. exact H9.
Qed.

Lemma write_scratchpad_goes {f} {s k w ad sp} (c0 c1 c2 : Z) :
  holding s f k w [c0; c1; c2] ad sp ->
  length ad = 9%nat ->
  bit_at f k = 0 ->
  exists s',
    ds18b20_write_scratchpad s = Done 1 s'
    /\ holding s' f (S k)
         (w ++ reset_slot (f k) ++ rom_select ad
            ++ byte_slots CMD_WRITE_SCRATCHPAD
            ++ byte_slots c0 ++ byte_slots c1 ++ byte_slots c2)
         [c0; c1; c2] ad sp.
Proof.
  intros H0 Hlen Hp.
  expose ds18b20_write_scratchpad ds18b20_write_scratchpad.
  destruct (detect_goes H0) as (s1 & R1 & H1). step R1.
  rewrite Hp. change (negb (truthy (1 - 0))) with false. cbv iota.
  pose proof H1 as (_ & _ & Ha & _).
  step (gets_runs _ds18b20_address s1). rewrite Ha.
  destruct (select_goes Hlen H1) as (s2 & R2 & H2). step R2.
  destruct (write_goes CMD_WRITE_SCRATCHPAD H2) as (s3 & R3 & H3). step R3.
  destruct (write_config_goes 0 H3) as (s4 & R4 & H4).
  destruct (write_config_goes 1 H4) as (s5 & R5 & H5).
  destruct (write_config_goes 2 H5) as (s6 & R6 & H6).
  assert (L : for_upto 3 0
                (fun i _ =>
                   let* config := gets _ds18b20_config in
                   on_line (owi_write_byte (config !!! i))) tt s3
              = Done tt s6).
  { cbn [for_upto]. step R4. step R5. step R6. reflexivity. }
  step L.
  exists s6. split; [reflexivity|].
  cbn [lookup_total list_lookup_total] in H6.
  rewrite <- !app_assoc in H6. exact H6.
Qed.

Lemma write_scratchpad_absent {f} {s k w c ad sp} :
  holding s f k w c ad sp ->
  bit_at f k = 1 ->
  exists s',
    ds18b20_write_scratchpad s = Done 0 s'
    /\ holding s' f (S k) (w ++ reset_slot (f k)) c ad sp.
Proof.
  intros H0 Hp.
  expose ds18b20_write_scratchpad ds18b20_write_scratchpad.
  destruct (detect_goes H0) as (s1 & R1 & H1). step R1.
  rewrite Hp. change (negb (truthy (1 - 1))) with true. cbv iota.
  exists s1. split; [reflexivity | exact H1].
Qed.

Lemma reset_rom_goes {f} {s k w c sp} (ad : list Z) :
  holding s f k w c ad sp ->
  length ad = 9%nat ->
  exists s',
    ds18b20_reset_rom s = Done tt s'
    /\ holding s' f k w c [0; 0; 0; 0; 0; 0; 0; 0; 0] sp.
Proof.
  intros H0 Hlen.
  do 9 (destruct ad as [|? ad]; [discriminate Hlen|]).
  destruct ad; [|discriminate Hlen].
  eexists. split; [reflexivity|].
  cbn [for_upto].
  do 9 (eapply put_address_goes in H0).
  exact H0.
Qed.

Ltac known_arrays s :=
  let c := fresh "c" in
  let sp := fresh "sp" in
  let Hc := fresh "Hc" in
  let Hs := fresh "Hs" in
  destruct (_ds18b20_config s) as [|? [|? [|? [|? c]]]] eqn:Hc;
    try discriminate;
  destruct (_ds18b20_scratchpad s) as [|? [|? [|? [|? [|? [|? sp]]]]]] eqn:Hs;
    try discriminate.

(** X27. [ds18b20_set_resolution] keeps the alarm settings of the device.
    With a device answering both resets, the call reads the scratchpad
    from the device selected by the stored address, writes back the
    alarm bytes it has just read (bytes 2 and 3 of the scratchpad)
    followed by [res], and returns 1.  The stored address is cleared
    afterwards: the selection made by [ds18b20_set_rom] holds for one
    call. *)
Theorem ds18b20_set_resolution_keeps_alarms (res : Z) (s : ds18b20_state) :
  length (_ds18b20_config s) = 3%nat ->
  length (_ds18b20_address s) = 9%nat ->
  length (_ds18b20_scratchpad s) = 5%nat ->
  let f := line_in (line s) in
  let k := taken (line s) in
  bit_at f k = 0 -> bit_at f (k + 42) = 0 ->
  exists s',
    ds18b20_set_resolution res s = Done 1 s'
    /\ wire (line s')
       = wire (line s)
         ++ reset_slot (f k) ++ rom_select (_ds18b20_address s)
         ++ byte_slots 0xBE ++ read_slots f (k + 1) 40
         ++ reset_slot (f (k + 41)%nat)
         ++ reset_slot (f (k + 42)%nat) ++ rom_select (_ds18b20_address s)
         ++ byte_slots 0x4E
         ++ byte_slots (byte_at f (k + 17))
         ++ byte_slots (byte_at f (k + 25))
         ++ byte_slots (wrap8 res)
    /\ _ds18b20_config s'
       = [byte_at f (k + 17); byte_at f (k + 25); wrap8 res]
    /\ _ds18b20_address s' = [0; 0; 0; 0; 0; 0; 0; 0; 0].
Proof.
  intros Hlc Hla Hls f k Hp1 Hp2.
  pose proof (holding_self s) as H0. fold f k in H0.
  known_arrays s.
  destruct (read_scratchpad_goes _ _ _ _ _ H0 Hla Hp1) as (s1 & R1 & H1).
  expose (ds18b20_set_resolution res) ds18b20_set_resolution. step R1.
  pose proof H1 as (_ & _ & _ & Hs1).
  step (gets_runs _ds18b20_scratchpad s1). rewrite Hs1.
  cbn [lookup_total list_lookup_total].
  step (modify_runs (put_config 0 (byte_at f (k + 17))) s1).
  apply (put_config_goes 0 (byte_at f (k + 17))) in H1.
  match goal with
  | |- context [bind (modify ?g) _ ?t] => step (modify_runs g t)
  end.
  apply (put_config_goes 1 (byte_at f (k + 25))) in H1.
  match goal with
  | |- context [bind (modify ?g) _ ?t] => step (modify_runs g t)
  end.
  apply (put_config_goes 2 res) in H1.
  cbn [insert list_insert] in H1. rewrite !wrap8_byte_at in H1.
  destruct (write_scratchpad_goes _ _ _ H1 Hla Hp2) as (s2 & R2 & H2).
  step R2. change (negb (truthy 1)) with false. cbv iota.
  destruct (reset_rom_goes _ H2 Hla) as (s3 & R3 & H3). step R3.
  exists s3. split; [reflexivity|].
  destruct H3 as ((_ & _ & Hw) & Hc3 & Ha3 & _).
  split; [|split; assumption].
  rewrite Hw, <- !app_assoc. reflexivity.
Qed.

Lemma ds18b20_set_resolution_keeps_alarms_witness :
  exists s',
    ds18b20_set_resolution DS18B20_9BIT
      (ds18b20_boot
         (owi_rest (reply 0x00 [0x50; 0x05; 0x4B; 0x46; 0x7F; 0x00])))
    = Done 1 s'
    /\ _ds18b20_config s' = [0x4B; 0x46; 0x1F]
    /\ _ds18b20_address s' = [0; 0; 0; 0; 0; 0; 0; 0; 0].
Proof.
  destruct (ds18b20_set_resolution_keeps_alarms DS18B20_9BIT
              (ds18b20_boot
                 (owi_rest (reply 0x00 [0x50; 0x05; 0x4B; 0x46; 0x7F; 0x00])))
              eq_refl eq_refl eq_refl eq_refl eq_refl)
    as (s' & E & _ & Hc & Ha).
  exists s'. split; [exact E|]. split; [exact Hc | exact Ha].
Defined.

(** X28. [ds18b20_set_alarms] with [int8_t] arguments.  It refuses the
    pair, touching neither the line nor the arrays, exactly when [tl] is
    below -55, [th] is above 125 or [tl] is above [th]; equal values
    pass.  For a pair that passes and a device answering both resets it
    writes [th] and [tl] as bytes (two's complement for negative values)
    followed by the configuration byte it has just read (byte 4 of the
    scratchpad), returns 1 and clears the stored address. *)
Theorem ds18b20_set_alarms_writes (tl th : Z) (s : ds18b20_state) :
  length (_ds18b20_config s) = 3%nat ->
  length (_ds18b20_address s) = 9%nat ->
  length (_ds18b20_scratchpad s) = 5%nat ->
  let f := line_in (line s) in
  let k := taken (line s) in
  (tl < -55 \/ th < tl \/ 125 < th -> ds18b20_set_alarms tl th s = Done 0 s)
  /\ (-55 <= tl <= th -> th <= 125 ->
      bit_at f k = 0 -> bit_at f (k + 42) = 0 ->
      exists s',
        ds18b20_set_alarms tl th s = Done 1 s'
        /\ wire (line s')
           = wire (line s)
             ++ reset_slot (f k) ++ rom_select (_ds18b20_address s)
             ++ byte_slots 0xBE ++ read_slots f (k + 1) 40
             ++ reset_slot (f (k + 41)%nat)
             ++ reset_slot (f (k + 42)%nat)
             ++ rom_select (_ds18b20_address s)
             ++ byte_slots 0x4E
             ++ byte_slots (wrap8 th)
             ++ byte_slots (wrap8 tl)
             ++ byte_slots (byte_at f (k + 33))
        /\ _ds18b20_config s' = [wrap8 th; wrap8 tl; byte_at f (k + 33)]
        /\ _ds18b20_address s' = [0; 0; 0; 0; 0; 0; 0; 0; 0]).
Proof.
  intros Hlc Hla Hls f k. split.
  - intros Hbad. unfold ds18b20_set_alarms.
    destruct (Z.ltb_spec tl (-55)); [reflexivity|].
    destruct (Z.gtb_spec tl th); [reflexivity|].
    destruct (Z.gtb_spec th 125); [reflexivity|]. lia.
  - intros Htl Hth Hp1 Hp2.
    pose proof (holding_self s) as H0. fold f k in H0.
    known_arrays s.
    destruct (read_scratchpad_goes _ _ _ _ _ H0 Hla Hp1) as (s1 & R1 & H1).
    expose (ds18b20_set_alarms tl th) ds18b20_set_alarms.
    destruct (Z.ltb_spec tl (-55)); [lia|].
    destruct (Z.gtb_spec tl th); [lia|].
    destruct (Z.gtb_spec th 125); [lia|].
    cbn [orb]. cbv iota. step R1.
    step (modify_runs (put_config 0 th) s1).
    apply (put_config_goes 0 th) in H1.
    match goal with
    | |- context [bind (modify ?g) _ ?t] => step (modify_runs g t)
    end.
    apply (put_config_goes 1 tl) in H1.
    pose proof H1 as (_ & _ & _ & Hs1).
    match goal with
    | |- context [bind (gets ?g) _ ?t] => step (gets_runs g t)
    end.
    rewrite Hs1. cbn [lookup_total list_lookup_total].
    match goal with
    | |- context [bind (modify ?g) _ ?t] => step (modify_runs g t)
    end.
    apply (put_config_goes 2 (byte_at f (k + 33))) in H1.
    cbn [insert list_insert] in H1. rewrite !wrap8_byte_at in H1.
    destruct (write_scratchpad_goes _ _ _ H1 Hla Hp2) as (s2 & R2 & W2).
    step R2. change (negb (truthy 1)) with false. cbv iota.
    destruct (reset_rom_goes _ W2 Hla) as (s3 & R3 & W3). step R3.
    exists s3. split; [reflexivity|].
    destruct W3 as ((_ & _ & Hw) & Hc3 & Ha3 & _).
    split; [|split; assumption].
    rewrite Hw, <- !app_assoc. reflexivity.
Qed.

Lemma ds18b20_set_alarms_writes_witness :
  let s := ds18b20_boot
             (owi_rest (reply 0x00 [0x50; 0x05; 0x4B; 0x46; 0x7F; 0x00])) in
  ds18b20_set_alarms 30 (-10) s = Done 0 s
  /\ exists s',
       ds18b20_set_alarms (-10) 30 s = Done 1 s'
       /\ _ds18b20_config s' = [30; 246; 0x7F]
       /\ _ds18b20_address s' = [0; 0; 0; 0; 0; 0; 0; 0; 0].
Proof.
  intros s.
  pose proof (ds18b20_set_alarms_writes 30 (-10) s eq_refl eq_refl eq_refl)
    as [Hrej _].
  pose proof (ds18b20_set_alarms_writes (-10) 30 s eq_refl eq_refl eq_refl)
    as [_ Hacc].
  split; [apply Hrej; lia|].
  destruct (Hacc ltac:(lia) ltac:(lia) eq_refl eq_refl)
    as (s' & E & _ & Hc & Ha).
  exists s'. split; [exact E|]. split; [exact Hc | exact Ha].
Defined.

End Calls.

(** * The display *)

Lemma transmissions_app xs ys :
  transmissions (xs ++ ys) = transmissions xs ++ transmissions ys.
Proof. unfold transmissions. apply flat_map_app. Qed.

Section Display.

Import Lcd.

(** The bytes that [latch_data] and the closing store put on the bus for
    a character [c] and control bits [ctrl], in arithmetic. *)
Lemma nibble_bytes (ctrl c : Z) :
  In ctrl [0; 1; 8; 9] -> is_byte c ->
  let high := wrap8 (Z.lor (Z.land c 0xF0) ctrl) in
  let low := wrap8 (Z.lor (Z.shiftl c 4) ctrl) in
  [ wrap8 (Z.lor high LCD_ENABLE); wrap8 (Z.land high LCD_DISABLE);
    wrap8 (Z.lor low LCD_ENABLE); wrap8 (Z.land low LCD_DISABLE) ]
  = nibbles ctrl c
  /\ wrap8 (Z.lor low 0xF0) = 0xF0 + ctrl.
Proof.
  intros Hctrl Hc.
  pose proof
    (forall_byte
       (fun c =>
          forallb
            (fun ctrl =>
               let high := wrap8 (Z.lor (Z.land c 0xF0) ctrl) in
               let low := wrap8 (Z.lor (Z.shiftl c 4) ctrl) in
               (wrap8 (Z.lor high LCD_ENABLE) =? 16 * (c / 16) + ctrl + 4)
               && (wrap8 (Z.land high LCD_DISABLE) =? 16 * (c / 16) + ctrl)
               && (wrap8 (Z.lor low LCD_ENABLE)
                   =? 16 * (c mod 16) + ctrl + 4)
               && (wrap8 (Z.land low LCD_DISABLE)
                   =? 16 * (c mod 16) + ctrl)
               && (wrap8 (Z.lor low 0xF0) =? 0xF0 + ctrl))
            [0; 1; 8; 9])
       ltac:(vm_compute; reflexivity) c Hc) as P.
  cbv beta in P. rewrite forallb_forall in P.
  specialize (P ctrl Hctrl). cbv zeta in P |- *.
  rewrite !andb_true_iff, !Z.eqb_eq in P.
  destruct P as ((((P1 & P2) & P3) & P4) & P5).
  unfold nibbles. rewrite P1, P2, P3, P4. split; [reflexivity | exact P5].
Qed.

Variable patience : nat.

Lemma latch_data_goes data {s r r' rest w a} :
  talking s (r :: r' :: rest) w a ->
  prompt patience r -> prompt patience r' ->
  exists s',
    latch_data patience data s = Done tt s'
    /\ talking s' rest
         (w ++ transmissions [wrap8 (Z.lor data LCD_ENABLE);
                              wrap8 (Z.land data LCD_DISABLE)]) a.
Proof.
  intros T Hr Hr'.
  destruct (twi_write_ch_goes patience (Z.lor data LCD_ENABLE) T Hr)
    as (s1 & R1 & T1).
  destruct (twi_write_ch_goes patience (Z.land data LCD_DISABLE) T1 Hr')
    as (s2 & R2 & T2).
  exists s2. split.
  - expose (latch_data patience data) latch_data. step R1.
    step (ret_runs tt s1). step R2. reflexivity.
  - unfold transmissions. cbn [flat_map app].
    rewrite <- app_assoc in T2. exact T2.
Qed.

Lemma transmit_loop_goes (ctrl : Z) (junk : list Z) :
  In ctrl [0; 1; 8; 9] ->
  forall (cs : list Z) (cmd : Z) (rs rest : list response) s w a,
    Forall (fun c => 1 <= c <= 255) cs ->
    talking s (rs ++ rest) w a ->
    length rs = (4 * length cs)%nat ->
    Forall (prompt patience) rs ->
    exists cmd' s',
      transmit_loop patience (cs ++ 0 :: junk) ctrl cmd s = Done cmd' s'
      /\ talking s' rest (w ++ transmissions (flat_map (nibbles ctrl) cs)) a
      /\ wrap8 (Z.lor cmd' 0xF0)
         = match cs with
           | [] => wrap8 (Z.lor cmd 0xF0)
           | _ :: _ => 0xF0 + ctrl
           end.
Proof.
  intros Hctrl. induction cs as [|c cs IH];
    intros cmd rs rest s w a Hcs T Hlen Hrs.
  - destruct rs; [|discriminate Hlen]. exists cmd, s.
    split; [reflexivity|]. split; [|reflexivity].
    cbn [flat_map]. unfold transmissions. cbn [flat_map].
    rewrite app_nil_r. exact T.
  - apply Forall_cons in Hcs. destruct Hcs as [Hc Hcs].
    cbn [length] in Hlen.
    do 4 (destruct rs as [|? rs]; [cbn in Hlen; lia|]).
    repeat match goal with
           | H : Forall _ (_ :: _) |- _ =>
               apply Forall_cons in H; destruct H as [? H]
           end.
    assert (Hb : is_byte c) by (unfold is_byte; lia).
    destruct (nibble_bytes ctrl c Hctrl Hb) as [N1 N2]. cbv zeta in N1, N2.
    cbn [app] in T |- *. cbn [transmit_loop].
    destruct (Z.eqb_spec c 0) as [-> | _]; [lia|]. cbn [negb]. cbv zeta.
    destruct (latch_data_goes (wrap8 (Z.lor (Z.land c 0xF0) ctrl)) T
                ltac:(assumption) ltac:(assumption)) as (s1 & R1 & T1).
    step R1.
    destruct (latch_data_goes (wrap8 (Z.lor (Z.shiftl c 4) ctrl)) T1
                ltac:(assumption) ltac:(assumption)) as (s2 & R2 & T2).
    step R2.
    destruct (IH (wrap8 (Z.lor (Z.shiftl c 4) ctrl)) rs rest s2 _ a
                Hcs T2 ltac:(cbn in Hlen; lia) Hrs)
      as (cmd' & s3 & R3 & T3 & Hlast).
    exists cmd', s3. split; [exact R3|]. split.
    + cbn [flat_map]. rewrite transmissions_app, <- N1.
      rewrite <- !app_assoc in T3.
      unfold transmissions at 1. cbn [flat_map app].
      unfold transmissions in T3 at 1 2. cbn [flat_map app] in T3.
      exact T3.
    + rewrite Hlast. destruct cs; [exact N2 | reflexivity].
Qed.

(** X29. [transmit] sends a command byte as two nibbles, high nibble
    first.  On a free bus that answers, with the backlight member 0 or
    8, the call opens the connection to the address of the object, sends
    each nibble in the high half of a byte twice, with the enable bit
    (bit 2) set and then clear, the register-select bit (bit 0) clear and
    the backlight bit (bit 3) as the member has it, sends a last byte
    with all four data lines high, and closes the connection. *)
Theorem transmit_sends_nibbles (o : LCD) (data : Z) (s : twi_state)
    (r1 r2 : response) (rs rest : list response) :
  is_byte data ->
  _lcd_backlight o = 0 \/ _lcd_backlight o = 8 ->
  bus s = r1 :: r2 :: rs ++ rest ->
  length rs = 5%nat ->
  prompt patience r1 -> masked r1 = TWI_START -> prompt patience r2 ->
  Forall (prompt patience) rs ->
  exists s',
    transmit patience o data s = Done tt s'
    /\ sent s'
       = sent s ++ [WrTWCR 0xA4]
         ++ transmissions
              (wrap8 (Z.shiftl (_twi_address o) 1)
               :: nibbles (_lcd_backlight o) data
               ++ [0xF0 + _lcd_backlight o])
         ++ [WrTWCR 0x94].
Proof.
  intros Hd Hbl Hbus Hlen H1 E1 H2 Hrs.
  do 5 (destruct rs as [|? rs]; [discriminate Hlen|]).
  destruct rs; [|discriminate Hlen].
  repeat match goal with
         | H : Forall _ (_ :: _) |- _ =>
             apply Forall_cons in H; destruct H as [? H]
         end.
  assert (Hctrl : In (_lcd_backlight o) [0; 1; 8; 9])
    by (destruct Hbl as [-> | ->]; cbn; auto).
  destruct (nibble_bytes _ data Hctrl Hd) as [N1 N2]. cbv zeta in N1, N2.
  cbn [app] in Hbus. pose proof (talking_from s _ Hbus) as T0.
  expose (transmit patience o data) transmit. cbv zeta.
  destruct (twi_open_goes patience (_twi_address o) T0 H1 E1 H2)
    as (s1 & R1 & T1).
  step R1.
  destruct (latch_data_goes
              (wrap8 (Z.lor (Z.land data 0xF0) (_lcd_backlight o))) T1
              ltac:(assumption) ltac:(assumption)) as (s2 & R2 & T2).
  step R2.
  destruct (latch_data_goes
              (wrap8 (Z.lor (Z.shiftl data 4) (_lcd_backlight o))) T2
              ltac:(assumption) ltac:(assumption)) as (s3 & R3 & T3).
  step R3.
  destruct (twi_write_ch_goes patience
              (Z.lor (wrap8 (Z.lor (Z.shiftl data 4) (_lcd_backlight o)))
                 0xF0) T3 ltac:(assumption)) as (s4 & R4 & T4).
  step R4.
  destruct (twi_close_goes T4) as (s5 & R5 & Hb & Hw & _).
  exists s5. split; [exact R5|].
  rewrite Hw, N2. rewrite <- N1.
  unfold transmissions. cbn [flat_map app].
  rewrite <- !app_assoc. reflexivity.
Qed.

(** X30. [print] sends each character of a zero-terminated string as two
    nibbles with the register-select bit set, high nibble first, and
    stops at the terminator.  The last byte before the connection is
    closed is made from the last nibble sent: after at least one
    character it keeps the backlight bit, but for the empty string it is
    0xF0 whatever the backlight member holds, so printing an empty
    string with the backlight on switches the backlight bit off. *)
Theorem print_sends_characters (o : LCD) (cs junk : list Z) (s : twi_state)
    (r1 r2 last : response) (rs rest : list response) :
  Forall (fun c => 1 <= c <= 255) cs ->
  _lcd_backlight o = 0 \/ _lcd_backlight o = 8 ->
  bus s = r1 :: r2 :: rs ++ last :: rest ->
  length rs = (4 * length cs)%nat ->
  prompt patience r1 -> masked r1 = TWI_START -> prompt patience r2 ->
  Forall (prompt patience) rs -> prompt patience last ->
  exists s',
    print patience o (cs ++ 0 :: junk) s = Done tt s'
    /\ sent s'
       = sent s ++ [WrTWCR 0xA4]
         ++ transmissions
              (wrap8 (Z.shiftl (_twi_address o) 1)
               :: flat_map (nibbles (_lcd_backlight o + 1)) cs
               ++ [match cs with
                   | [] => 0xF0
                   | _ :: _ => 0xF0 + _lcd_backlight o + 1
                   end])
         ++ [WrTWCR 0x94].
Proof.
  intros Hcs Hbl Hbus Hlen H1 E1 H2 Hrs Hl.
  assert (Hctrl : wrap8 (Z.lor (_lcd_backlight o) LCD_DATA_MODE)
                  = _lcd_backlight o + 1)
    by (destruct Hbl as [-> | ->]; reflexivity).
  assert (Hin : In (_lcd_backlight o + 1) [0; 1; 8; 9])
    by (destruct Hbl as [-> | ->]; cbn; auto).
  pose proof (talking_from s _ Hbus) as T0.
  unfold print. expose (transmit_str patience o (cs ++ 0 :: junk)) transmit_str.
  cbv zeta. rewrite Hctrl.
  destruct (twi_open_goes patience (_twi_address o) T0 H1 E1 H2)
    as (s1 & R1 & T1).
  step R1.
  destruct (transmit_loop_goes (_lcd_backlight o + 1) junk Hin cs 0x00
              rs (last :: rest) s1 _ _ Hcs T1 Hlen Hrs)
    as (cmd' & s2 & R2 & T2 & Hlast).
  step R2.
  destruct (twi_write_ch_goes patience (Z.lor cmd' 0xF0) T2 Hl)
    as (s3 & R3 & T3).
  step R3.
  destruct (twi_close_goes T3) as (s4 & R4 & Hb & Hw & _).
  step R4.
  exists s4. split; [reflexivity|].
  rewrite Hw, Hlast.
  change (transmissions (?x :: ?l)) with (transmissions ([x] ++ l)).
  rewrite !transmissions_app, <- !app_assoc.
  unfold transmissions at 1 3. cbn [flat_map app].
  destruct cs; [reflexivity|].
  rewrite Z.add_assoc. reflexivity.
Qed.

End Display.

Lemma transmit_sends_nibbles_witness :
  exists s',
    Lcd.transmit 4 (Lcd.LCD_new 0x27) 0x28
      (twi_rest ([answer 0x08; answer 0x18]
                 ++ replicate 5 (answer 0x28) ++ [])) = Done tt s'
    /\ sent s'
       = [] ++ [WrTWCR 0xA4]
         ++ transmissions (0x4E :: [0x24; 0x20; 0x84; 0x80] ++ [0xF0])
         ++ [WrTWCR 0x94].
Proof.
  apply (transmit_sends_nibbles 4 (Lcd.LCD_new 0x27) 0x28
           (twi_rest ([answer 0x08; answer 0x18]
                      ++ replicate 5 (answer 0x28) ++ []))
           (answer 0x08) (answer 0x18) (replicate 5 (answer 0x28)) []);
    first [ reflexivity | unfold is_byte; lia | left; reflexivity
          | unfold prompt; cbn; lia
          | repeat constructor; unfold prompt; cbn; lia ].
Defined.

Lemma print_sends_characters_witness :
  exists s',
    Lcd.print 4 {| Lcd._lcd_backlight := 8; Lcd._twi_address := 0x27 |}
      ([] ++ 0 :: [])
      (twi_rest ([answer 0x08; answer 0x18] ++ [] ++ answer 0x28 :: []))
    = Done tt s'
    /\ sent s'
       = [] ++ [WrTWCR 0xA4] ++ transmissions (0x4E :: [] ++ [0xF0])
         ++ [WrTWCR 0x94].
Proof.
  apply (print_sends_characters 4
           {| Lcd._lcd_backlight := 8; Lcd._twi_address := 0x27 |} [] []
           (twi_rest ([answer 0x08; answer 0x18] ++ [] ++ answer 0x28 :: []))
           (answer 0x08) (answer 0x18) (answer 0x28) [] []);
    first [ reflexivity | right; reflexivity | unfold prompt; cbn; lia
          | solve [repeat constructor] ].
Defined.
